(** * Reconciliation engine of nc_voter_turnout

    A shallow embedding of the SQL pipelines that the two driver scripts
    [scripts/build_demographic_turnout_all.py] (all elections) and
    [scripts/build_demographic_turnout.py] (one election) send to DuckDB,
    together with the Python glue around them.

    Tables are lists of rows (bags: SQL gives no row order unless a query
    has an ORDER BY); a nullable VARCHAR is an [option string], [None]
    being NULL; BIGINT and HUGEINT counts are integers of [Z] (DuckDB raises
    on an overflow, it never wraps); a DOUBLE that is the quotient of two
    counts is the rational of [Q] it rounds.  The pipelines start from the
    three loaded tables [ncvhis_raw], [ncvoter_attrs] and [voter_stats_raw],
    that is after [read_csv] and the quote stripping of their SELECT
    lists.  A text, in Python as in a VARCHAR, is a [string] of code points
    below U+0100, one [ascii] per character. *)

From Stdlib Require Import List String Ascii ZArith QArith Bool Arith Lia.
From Stdlib Require Import Permutation Sorted OrderedTypeEx.
Import ListNotations.

Set Implicit Arguments.

Local Open Scope string_scope.
Local Open Scope Z_scope.

(** ** Relational operators *)

Module Sql.

(** A nullable VARCHAR column. *)
Definition varchar := option string.

(** SQL [a = b] used as a join or filter condition: the row passes only
    when the comparison is TRUE, which needs both sides non-NULL. *)
Definition eq_true (a b : varchar) : bool :=
  match a, b with
  | Some x, Some y => String.eqb x y
  | _, _ => false
  end.

(** GROUP BY, PARTITION BY and DISTINCT put two NULLs in the same group. *)
Definition same (a b : varchar) : bool :=
  match a, b with
  | Some x, Some y => String.eqb x y
  | None, None => true
  | _, _ => false
  end.

(** SQL [a != b] as a filter condition: TRUE needs both sides non-NULL. *)
Definition neq_true (a b : varchar) : bool :=
  match a, b with
  | Some x, Some y => negb (String.eqb x y)
  | _, _ => false
  end.

Definition is_null (A : Type) (a : option A) : bool :=
  match a with None => true | Some _ => false end.

(** A column of the nullable side of an outer join. *)
Definition col (B C : Type) (f : B -> option C) (b : option B) : option C :=
  match b with Some y => f y | None => None end.

(** COALESCE(x, d). *)
Definition coalesce (A : Type) (x : option A) (d : A) : A :=
  match x with Some v => v | None => d end.

(** ORDER BY col ASC on VARCHAR: bytewise order, NULL after every string
    (the engine's default null order). *)
Definition leb (a b : varchar) : bool :=
  match a, b with
  | _, None => true
  | None, Some _ => false
  | Some x, Some y => String.leb x y
  end.

Section Keyed.
Variables (A K : Type).
Variable eqb : K -> K -> bool.

(** The distinct values of a column, first occurrences kept. *)
Fixpoint distinct (l : list K) : list K :=
  match l with
  | [] => []
  | k :: t => k :: filter (fun k' => negb (eqb k k')) (distinct t)
  end.

(** PARTITION BY / GROUP BY: one group of rows per distinct key. *)
Definition group_by (key : A -> K) (rows : list A) : list (K * list A) :=
  map (fun k => (k, filter (fun r => eqb k (key r)) rows))
      (distinct (map key rows)).
End Keyed.

Section Ordered.
Variable A : Type.
Variable le : A -> A -> bool.

Fixpoint insert (x : A) (l : list A) : list A :=
  match l with
  | [] => [x]
  | y :: t => if le x y then x :: y :: t else y :: insert x t
  end.

(** ORDER BY: a sort of the rows along [le]. *)
Fixpoint order_by (l : list A) : list A :=
  match l with
  | [] => []
  | x :: t => insert x (order_by t)
  end.

(** [le a b] holds. *)
Definition holds (a b : A) : Prop := le a b = true.

(** row_number() over an ordered partition: 1, 2, 3, ... *)
Definition row_number (l : list A) : list (A * nat) :=
  combine l (seq 1 (List.length l)).
End Ordered.

(** [a LEFT JOIN b ON on]: every row of [a] is kept; it is paired with
    each matching row of [b], or with NULLs when none matches. *)
Definition left_join (A B : Type) (on : A -> B -> bool)
    (a : list A) (b : list B) : list (A * option B) :=
  flat_map (fun x =>
              match filter (on x) b with
              | [] => [(x, None)]
              | ms => map (fun y => (x, Some y)) ms
              end) a.

(** [a JOIN b ON on]: the matching pairs only. *)
Definition inner_join (A B : Type) (on : A -> B -> bool)
    (a : list A) (b : list B) : list (A * B) :=
  flat_map (fun x => map (fun y => (x, y)) (filter (on x) b)) a.

(** COUNT( * ) FILTER (WHERE p). *)
Definition count_filter (A : Type) (p : A -> bool) (rows : list A) : Z :=
  Z.of_nat (List.length (filter p rows)).

(** SUM(col) over the rows of one group; a group is never empty. *)
Definition sum (A : Type) (col : A -> Z) (rows : list A) : Z :=
  fold_right (fun r acc => col r + acc) 0 rows.

(** SUM(col) over a whole table: NULL on the empty table. *)
Definition sum_or_null (A : Type) (col : A -> Z) (rows : list A) : option Z :=
  match rows with
  | [] => None
  | _ => Some (sum col rows)
  end.

End Sql.

Import Sql.

(** ** Tables *)

(** [ncvhis_raw] and [ncvhis_election]: the vote-event log.  The WHERE
    clause of [ncvhis_raw] removes the rows whose [election_lbl] or [ncid]
    is NULL or blank, so these two columns are plain strings. *)
Module Ncvhis.
Record row := mk
  { county_desc : varchar; election_lbl : string; ncid : string }.
End Ncvhis.

(** [voted_ncids]: the deduplicated vote events. *)
Module VotedNcids.
Record row := mk { voted_county_desc : varchar; ncid : string }.
End VotedNcids.

(** ** Vote event deduplicator *)

(** [[
    CREATE TABLE voted_ncids AS
    SELECT county_desc AS voted_county_desc, ncid
    FROM (SELECT county_desc, ncid,
                 row_number() OVER (PARTITION BY ncid ORDER BY county_desc) AS rn
          FROM ncvhis_election)
    WHERE rn = 1
    ]] *)
Definition by_county_desc (a b : Ncvhis.row) : bool :=
  Sql.leb (Ncvhis.county_desc a) (Ncvhis.county_desc b).

(** The window sorts each partition; rows with the same [county_desc] may
    come out in any order, so the numbering is taken over any arrangement
    of the partition that ascends along [county_desc]. *)
Definition orders_by_county (arrange : list Ncvhis.row -> list Ncvhis.row) : Prop :=
  forall partition,
    Permutation (arrange partition) partition
    /\ StronglySorted (holds by_county_desc) (arrange partition).

Definition ncvhis_numbered_by (arrange : list Ncvhis.row -> list Ncvhis.row)
    (ncvhis_election : list Ncvhis.row) : list (Ncvhis.row * nat) :=
  flat_map (fun g => row_number (arrange (snd g)))
           (group_by String.eqb Ncvhis.ncid ncvhis_election).

Definition voted_ncids_by (arrange : list Ncvhis.row -> list Ncvhis.row)
    (ncvhis_election : list Ncvhis.row) : list VotedNcids.row :=
  map (fun rn => VotedNcids.mk (Ncvhis.county_desc (fst rn)) (Ncvhis.ncid (fst rn)))
      (filter (fun rn => Nat.eqb (snd rn) 1)
              (ncvhis_numbered_by arrange ncvhis_election)).

(** The run of the model: ties keep the order of the input list. *)
Definition voted_ncids (ncvhis_election : list Ncvhis.row)
  : list VotedNcids.row :=
  voted_ncids_by (order_by by_county_desc) ncvhis_election.

(** The first row of an arranged partition, projected as [voted_ncids] does. *)
Definition first_row (arrange : list Ncvhis.row -> list Ncvhis.row)
    (partition : list Ncvhis.row) : list VotedNcids.row :=
  match arrange partition with
  | [] => []
  | r :: _ => [VotedNcids.mk (Ncvhis.county_desc r) (Ncvhis.ncid r)]
  end.

(** PARTITION BY ncid: the rows of one voter. *)
Definition partition_of (rows : list Ncvhis.row) (n : string) : list Ncvhis.row :=
  filter (fun r => String.eqb n (Ncvhis.ncid r)) rows.

(** A deduplicated row read again as a vote event of election [lbl]. *)
Definition as_event (lbl : string) (v : VotedNcids.row) : Ncvhis.row :=
  Ncvhis.mk (VotedNcids.voted_county_desc v) lbl (VotedNcids.ncid v).

(** [ncvhis_election]: the log restricted to one election label. *)
Definition ncvhis_election (ncvhis_raw : list Ncvhis.row) (election_mmddyyyy : string)
  : list Ncvhis.row :=
  filter (fun r => String.eqb (Ncvhis.election_lbl r) election_mmddyyyy) ncvhis_raw.

(** ** Attribute joiner *)

(** [ncvoter_attrs]: the registry; its WHERE clause keeps non-blank [ncid]s. *)
Module NcvoterAttrs.
Record row := mk
  { ncid : string; reg_county_desc : varchar; party_cd : varchar;
    race_code : varchar; ethnic_code : varchar; sex_code : varchar;
    birth_year : varchar }.
End NcvoterAttrs.

Module VotedJoined.
Record row := mk
  { voted_county_desc : varchar; reg_county_desc : varchar; ncid : string;
    party_cd : varchar; race_code : varchar; ethnic_code : varchar;
    sex_code : varchar; birth_year : varchar }.
End VotedJoined.

(** [[
    CREATE TABLE voted_joined AS
    SELECT v.voted_county_desc, a.reg_county_desc, v.ncid, a.party_cd,
           a.race_code, a.ethnic_code, a.sex_code, a.birth_year
    FROM voted_ncids v LEFT JOIN ncvoter_attrs a ON v.ncid = a.ncid
    ]] *)
Definition on_ncid (v : VotedNcids.row) (a : NcvoterAttrs.row) : bool :=
  String.eqb (VotedNcids.ncid v) (NcvoterAttrs.ncid a).

Definition voted_joined (voted_ncids : list VotedNcids.row)
    (ncvoter_attrs : list NcvoterAttrs.row) : list VotedJoined.row :=
  map (fun va =>
         let v := fst va in
         let a := snd va in
         VotedJoined.mk (VotedNcids.voted_county_desc v)
                        (col NcvoterAttrs.reg_county_desc a)
                        (VotedNcids.ncid v)
                        (col NcvoterAttrs.party_cd a)
                        (col NcvoterAttrs.race_code a)
                        (col NcvoterAttrs.ethnic_code a)
                        (col NcvoterAttrs.sex_code a)
                        (col NcvoterAttrs.birth_year a))
      (left_join on_ncid voted_ncids ncvoter_attrs).

(** A pair of the join that found its registry entry, in another county
    than the one the ballot was cast in. *)
Definition matched_county_mismatch (va : VotedNcids.row * option NcvoterAttrs.row)
  : bool :=
  match snd va with
  | Some a => neq_true (VotedNcids.voted_county_desc (fst va))
                       (NcvoterAttrs.reg_county_desc a)
  | None => false
  end.

(** The registry rows of one voter, and the rows of the join of one voter. *)
Definition copies (ncvoter_attrs : list NcvoterAttrs.row) (n : string) : nat :=
  List.length (filter (fun a => String.eqb n (NcvoterAttrs.ncid a)) ncvoter_attrs).

Definition joined_rows (voted_joined : list VotedJoined.row) (n : string) : nat :=
  List.length (filter (fun r => String.eqb n (VotedJoined.ncid r)) voted_joined).

(** The three counts of the QA query over [voted_joined], and the two rates
    Python derives from them ([x / y] on ints is true division). *)
Module Qa.
Record counts := mk
  { total_voted : Z; join_mismatches : Z; county_mismatches : Z }.

Definition is_join_mismatch (r : VotedJoined.row) : bool :=
  is_null (VotedJoined.reg_county_desc r).

Definition is_county_mismatch (r : VotedJoined.row) : bool :=
  negb (is_null (VotedJoined.reg_county_desc r))
  && neq_true (VotedJoined.voted_county_desc r) (VotedJoined.reg_county_desc r).

Definition qa (voted_joined : list VotedJoined.row) : counts :=
  mk (count_filter (fun _ => true) voted_joined)
     (count_filter is_join_mismatch voted_joined)
     (count_filter is_county_mismatch voted_joined).

Definition truediv (a b : Z) : Q := (inject_Z a / inject_Z b)%Q.

Definition join_mismatch_rate (c : counts) : Q :=
  if Z.eqb (total_voted c) 0 then 0%Q
  else truediv (join_mismatches c) (total_voted c).

Definition county_mismatch_rate (c : counts) : Q :=
  if Z.eqb (total_voted c - join_mismatches c) 0 then 0%Q
  else truediv (county_mismatches c) (total_voted c - join_mismatches c).

(** One row of [qa_rows] / [qa_all_tmp]. *)
Record summary := mk_summary
  { election_date : string; election_lbl : string;
    total_voted_ncids : Z; join_mismatches_dropped : Z;
    summary_join_mismatch_rate : Q; county_mismatches_kept : Z;
    summary_county_mismatch_rate : Q }.

Definition summarise (election_iso election_mmddyyyy : string) (c : counts)
  : summary :=
  mk_summary election_iso election_mmddyyyy (total_voted c)
             (join_mismatches c) (join_mismatch_rate c)
             (county_mismatches c) (county_mismatch_rate c).
End Qa.

(** ** Scalar functions of the SQL engine

    [trim], [TRY_CAST(... AS INTEGER)] and [lower] belong to DuckDB, not to
    this repository: the pipeline is defined over any implementation of
    them.  [ascii_engine] is their behaviour on ASCII text. *)
Record engine := mk_engine
  { trim : string -> string;
    try_cast_integer : string -> option Z;
    lower : string -> string }.

Module AsciiText.
Definition is_digit (c : ascii) : bool :=
  (Ascii.leb "0" c && Ascii.leb c "9")%char.

Definition digit_value (c : ascii) : Z :=
  Z.of_N (N_of_ascii c) - 48.

Fixpoint digits_value (acc : Z) (s : string) : option Z :=
  match s with
  | EmptyString => Some acc
  | String c t =>
      if is_digit c then digits_value (10 * acc + digit_value c) t else None
  end.

(** A non-empty run of decimal digits. *)
Definition unsigned (s : string) : option Z :=
  match s with
  | EmptyString => None
  | _ => digits_value 0 s
  end.

Definition signed (s : string) : option Z :=
  match s with
  | String "-" t => option_map Z.opp (unsigned t)
  | String "+" t => unsigned t
  | _ => unsigned s
  end.

(** TRY_CAST(s AS INTEGER): NULL outside the 32-bit range. *)
Definition cast_int32 (s : string) : option Z :=
  match signed s with
  | Some v => if (-2147483648 <=? v) && (v <=? 2147483647) then Some v else None
  | None => None
  end.

Fixpoint ltrim (s : string) : string :=
  match s with
  | String " " t => ltrim t
  | _ => s
  end.

Fixpoint rtrim (s : string) : string :=
  match s with
  | EmptyString => EmptyString
  | String c t =>
      match rtrim t with
      | EmptyString => if Ascii.eqb c " " then EmptyString else String c EmptyString
      | t' => String c t'
      end
  end.

Definition lower_char (c : ascii) : ascii :=
  if (Ascii.leb "A" c && Ascii.leb c "Z")%char
  then ascii_of_N (N_of_ascii c + 32) else c.

Fixpoint map_chars (f : ascii -> ascii) (s : string) : string :=
  match s with
  | EmptyString => EmptyString
  | String c t => String (f c) (map_chars f t)
  end.
End AsciiText.

Definition ascii_engine : engine :=
  mk_engine (fun s => AsciiText.rtrim (AsciiText.ltrim s))
            AsciiText.cast_int32
            (AsciiText.map_chars AsciiText.lower_char).

(** ** Demographic bucket key *)

Module Bucket.
(** The seven grouping columns shared by numerator and denominator. *)
Record key := mk
  { election_date : varchar; county_desc : varchar; party_cd : varchar;
    race_code : varchar; ethnic_code : varchar; sex_code : varchar;
    age_group : varchar }.

(** GROUP BY 1,2,3,4,5,6,7. *)
Definition same (a b : key) : bool :=
  Sql.same (election_date a) (election_date b)
  && Sql.same (county_desc a) (county_desc b)
  && Sql.same (party_cd a) (party_cd b)
  && Sql.same (race_code a) (race_code b)
  && Sql.same (ethnic_code a) (ethnic_code b)
  && Sql.same (sex_code a) (sex_code b)
  && Sql.same (age_group a) (age_group b).

(** The ON clause of the reconciler: seven equalities joined by AND. *)
Definition eq_true (d v : key) : bool :=
  Sql.eq_true (election_date d) (election_date v)
  && Sql.eq_true (county_desc d) (county_desc v)
  && Sql.eq_true (party_cd d) (party_cd v)
  && Sql.eq_true (race_code d) (race_code v)
  && Sql.eq_true (ethnic_code d) (ethnic_code v)
  && Sql.eq_true (sex_code d) (sex_code v)
  && Sql.eq_true (age_group d) (age_group v).

(** ORDER BY election_date, county_desc, party_cd, race_code, ethnic_code,
    sex_code, age_group: the first column that differs decides. *)
Definition then_by (a b : varchar) (rest : bool) : bool :=
  if Sql.same a b then rest else Sql.leb a b.

(** The same order on the columns listed in ORDER BY order. *)
Definition columns (k : key) : list varchar :=
  [ election_date k; county_desc k; party_cd k; race_code k; ethnic_code k;
    sex_code k; age_group k ].


Definition leb (a b : key) : bool :=
  then_by (election_date a) (election_date b)
 (then_by (county_desc a) (county_desc b)
 (then_by (party_cd a) (party_cd b)
 (then_by (race_code a) (race_code b)
 (then_by (ethnic_code a) (ethnic_code b)
 (then_by (sex_code a) (sex_code b)
 (then_by (age_group a) (age_group b) true)))))).
End Bucket.

Module VotedClean.
Record row := mk
  { county_desc : varchar; party_cd : varchar; race_code : varchar;
    ethnic_code : varchar; sex_code : varchar; birth_year : varchar }.
End VotedClean.

Module VotedWithAge.
Record row := mk
  { county_desc : varchar; party_cd : varchar; race_code : varchar;
    ethnic_code : varchar; sex_code : varchar; age_group : string }.
End VotedWithAge.

Module VotedAggregated.
Record row := mk { key : Bucket.key; voted_count : Z }.
End VotedAggregated.

(** [voter_stats_raw]: the census rows of one file; its WHERE clause keeps
    the rows whose count parses, so [total_voters] is never NULL. *)
Module VoterStats.
Record row := mk
  { county_desc : varchar; election_date_raw : varchar; stats_type : varchar;
    party_cd : varchar; race_code : varchar; ethnic_code : varchar;
    sex_code : varchar; age_group : varchar; total_voters : Z }.
End VoterStats.

Module Denominator.
Record row := mk { key : Bucket.key; registered_count : Z }.
End Denominator.

Module Turnout.
Record row := mk
  { key : Bucket.key; registered_count : Z; voted_count : Z;
    turnout_rate : option Q }.
End Turnout.

(** The five labels of the census file. *)
Definition age_invalid : string := "Age < 18 Or Invalid Birth Dates".
Definition age_18_25 : string := "Age 18 - 25".
Definition age_26_40 : string := "Age 26 - 40".
Definition age_41_65 : string := "Age 41 - 65".
Definition age_over_66 : string := "Age Over 66".

Definition between (x lo hi : Z) : bool := (lo <=? x) && (x <=? hi).

Section Pipeline.
Variable E : engine.

(** ** Age bucketizer

    The CASE expression of [voted_with_age]; [election_year] is the bound
    parameter.  The inner CAST is reached only where TRY_CAST gave a value,
    so it is that value; the subtraction is exact. *)
Definition age_group (election_year : Z) (birth_year : varchar) : string :=
  match birth_year with
  | None => age_invalid
  | Some b =>
      if Nat.eqb (String.length (trim E b)) 0 then age_invalid
      else
        match try_cast_integer E (trim E b) with
        | None => age_invalid
        | Some y =>
            if election_year - y <? 18 then age_invalid
            else if between (election_year - y) 18 25 then age_18_25
            else if between (election_year - y) 26 40 then age_26_40
            else if between (election_year - y) 41 65 then age_41_65
            else age_over_66
        end
  end.

(** [voted_clean]: WHERE reg_county_desc IS NOT NULL, the registered
    county renamed to [county_desc]. *)
Definition voted_clean (voted_joined : list VotedJoined.row)
  : list VotedClean.row :=
  map (fun r => VotedClean.mk (VotedJoined.reg_county_desc r)
                              (VotedJoined.party_cd r)
                              (VotedJoined.race_code r)
                              (VotedJoined.ethnic_code r)
                              (VotedJoined.sex_code r)
                              (VotedJoined.birth_year r))
      (filter (fun r => negb (is_null (VotedJoined.reg_county_desc r)))
              voted_joined).

Definition voted_with_age (election_year : Z) (voted_clean : list VotedClean.row)
  : list VotedWithAge.row :=
  map (fun r => VotedWithAge.mk (VotedClean.county_desc r)
                                (VotedClean.party_cd r)
                                (VotedClean.race_code r)
                                (VotedClean.ethnic_code r)
                                (VotedClean.sex_code r)
                                (age_group election_year (VotedClean.birth_year r)))
      voted_clean.

(** ** Bucket aggregator: GROUP BY the seven columns, COUNT( * ). *)
Definition voted_key (election_iso : string) (r : VotedWithAge.row) : Bucket.key :=
  Bucket.mk (Some election_iso) (VotedWithAge.county_desc r)
            (VotedWithAge.party_cd r) (VotedWithAge.race_code r)
            (VotedWithAge.ethnic_code r) (VotedWithAge.sex_code r)
            (Some (VotedWithAge.age_group r)).

Definition voted_aggregated (election_iso : string)
    (voted_with_age : list VotedWithAge.row) : list VotedAggregated.row :=
  map (fun g => VotedAggregated.mk (fst g) (Z.of_nat (List.length (snd g))))
      (group_by Bucket.same (voted_key election_iso) voted_with_age).

(** ** Denominator builder

    WHERE election_date_raw = ? AND lower(stats_type) = 'voter', then
    GROUP BY the seven columns with SUM(total_voters). *)
Definition is_voter_stat (election_mmddyyyy : string) (r : VoterStats.row) : bool :=
  Sql.eq_true (VoterStats.election_date_raw r) (Some election_mmddyyyy)
  && Sql.eq_true (option_map (lower E) (VoterStats.stats_type r)) (Some "voter").

Definition stats_key (election_iso : string) (r : VoterStats.row) : Bucket.key :=
  Bucket.mk (Some election_iso) (VoterStats.county_desc r)
            (VoterStats.party_cd r) (VoterStats.race_code r)
            (VoterStats.ethnic_code r) (VoterStats.sex_code r)
            (VoterStats.age_group r).

Definition voter_stats_denominator (election_iso election_mmddyyyy : string)
    (voter_stats_raw : list VoterStats.row) : list Denominator.row :=
  map (fun g => Denominator.mk (fst g) (Sql.sum VoterStats.total_voters (snd g)))
      (group_by Bucket.same (stats_key election_iso)
                (filter (is_voter_stat election_mmddyyyy) voter_stats_raw)).

(** ** Reconciler

    [[
    SELECT d.*, COALESCE(v.voted_count, 0) AS voted_count,
           CASE WHEN d.registered_count = 0 THEN NULL
                ELSE (COALESCE(v.voted_count, 0) * 1.0 / d.registered_count)
           END AS turnout_rate
    FROM voter_stats_denominator d LEFT JOIN voted_aggregated v ON ...
    ]] *)
Definition on_key (d : Denominator.row) (v : VotedAggregated.row) : bool :=
  Bucket.eq_true (Denominator.key d) (VotedAggregated.key v).

Definition turnout_row (dv : Denominator.row * option VotedAggregated.row)
  : Turnout.row :=
  let d := fst dv in
  let voted := coalesce (option_map VotedAggregated.voted_count (snd dv)) 0 in
  Turnout.mk (Denominator.key d) (Denominator.registered_count d) voted
             (if Z.eqb (Denominator.registered_count d) 0 then None
              else Some (inject_Z voted * 1 / inject_Z (Denominator.registered_count d))%Q).

Definition turnout_buckets (voter_stats_denominator : list Denominator.row)
    (voted_aggregated : list VotedAggregated.row) : list Turnout.row :=
  map turnout_row (left_join on_key voter_stats_denominator voted_aggregated).

(** A numerator bucket that joins some denominator bucket. *)
Definition has_denominator (voter_stats_denominator : list Denominator.row)
    (v : VotedAggregated.row) : bool :=
  existsb (fun d => on_key d v) voter_stats_denominator.

(** ** One election, from the loaded tables to its outputs *)
Record election := mk_election
  { election_mmddyyyy : string; election_iso : string; election_year : Z }.

Definition numerator (ncvhis_raw : list Ncvhis.row)
    (ncvoter_attrs : list NcvoterAttrs.row) (e : election)
  : list VotedAggregated.row :=
  voted_aggregated (election_iso e)
    (voted_with_age (election_year e)
       (voted_clean
          (voted_joined
             (voted_ncids (ncvhis_election ncvhis_raw (election_mmddyyyy e)))
             ncvoter_attrs))).

Definition denominator (voter_stats_raw : list VoterStats.row) (e : election)
  : list Denominator.row :=
  voter_stats_denominator (election_iso e) (election_mmddyyyy e) voter_stats_raw.

Definition reconcile (ncvhis_raw : list Ncvhis.row)
    (ncvoter_attrs : list NcvoterAttrs.row)
    (voter_stats_raw : list VoterStats.row) (e : election) : list Turnout.row :=
  turnout_buckets (denominator voter_stats_raw e)
                  (numerator ncvhis_raw ncvoter_attrs e).

Definition election_qa (ncvhis_raw : list Ncvhis.row)
    (ncvoter_attrs : list NcvoterAttrs.row) (e : election) : Qa.counts :=
  Qa.qa (voted_joined
           (voted_ncids (ncvhis_election ncvhis_raw (election_mmddyyyy e)))
           ncvoter_attrs).

End Pipeline.

(** ** Python string helpers

    A Python [str] is a sequence of Unicode code points.  Here it is a
    [string] read character by character, each [ascii] being the code point
    of that number: the texts of this model are those over U+0000 to
    U+00FF, [String.length] is [len], and the character U+00B2 is written
    ["178"%char] (a literal typed with that character holds the two bytes
    of its UTF-8 form, which is another text).  A text with a code point
    above U+00FF has no counterpart here. *)
Module Py.
(** [s[i:j]] for [0 <= i <= j]. *)
Definition slice (i j : nat) (s : string) : string := substring i (j - i) s.

(** [s.split(sep)] for a one-character separator. *)
Fixpoint split (sep : ascii) (s : string) : list string :=
  match s with
  | EmptyString => [EmptyString]
  | String c t =>
      if Ascii.eqb c sep then EmptyString :: split sep t
      else match split sep t with
           | [] => [String c EmptyString]
           | w :: ws => String c w :: ws
           end
  end.

Fixpoint zeros (n : nat) : string :=
  match n with O => EmptyString | S k => String "0" (zeros k) end.

(** [s.zfill(width)]: zeros go after a leading sign. *)
Definition zfill (width : nat) (s : string) : string :=
  let pad := zeros (width - String.length s) in
  match s with
  | String "+" t => String "+" (pad ++ t)
  | String "-" t => String "-" (pad ++ t)
  | _ => pad ++ s
  end.

(** [s.replace(old, new)] for a non-empty [old]: [skip] counts the
    characters of a match still to be dropped. *)
Fixpoint replace_from (old new : string) (skip : nat) (s : string) : string :=
  match s with
  | EmptyString => EmptyString
  | String c t =>
      match skip with
      | S k => replace_from old new k t
      | O =>
          if prefix old s
          then new ++ replace_from old new (String.length old - 1) t
          else String c (replace_from old new 0 t)
      end
  end.

Definition replace (old new s : string) : string := replace_from old new 0 s.

(** [c in s] for a character [c]. *)
Fixpoint has_char (c : ascii) (s : string) : bool :=
  match s with
  | EmptyString => false
  | String c' t => Ascii.eqb c c' || has_char c t
  end.

(** The superscripts U+00B2, U+00B3 and U+00B9. *)
Definition is_superscript (c : ascii) : bool :=
  (Ascii.eqb c "178" || Ascii.eqb c "179" || Ascii.eqb c "185")%char.

(** [c.isdigit()] for one character.  Below U+0100 the Unicode database
    gives the numeric type Decimal to 0 ... 9 and the numeric type Digit to
    the three superscripts; [isdigit] holds of both kinds. *)
Definition is_digit_char (c : ascii) : bool :=
  AsciiText.is_digit c || is_superscript c.

(** [s.isdigit()]: non-empty and every character a digit. *)
Fixpoint all_digits (s : string) : bool :=
  match s with
  | EmptyString => true
  | String c t => is_digit_char c && all_digits t
  end.

Definition isdigit (s : string) : bool :=
  match s with EmptyString => false | _ => all_digits s end.

(** Every character of numeric type Decimal: the digits [int] reads. *)
Fixpoint all_decimal (s : string) : bool :=
  match s with
  | EmptyString => true
  | String c t => AsciiText.is_digit c && all_decimal t
  end.

(** [int(s)] on a run of decimal digits with an optional sign; [None] is
    the ValueError, which a superscript digit raises as any other
    character does.  (Python also accepts blanks and underscores, which
    the drivers never pass.) *)
Definition int (s : string) : option Z := AsciiText.signed s.

(** [Path(p).name]: the text after the last slash. *)
Fixpoint name_from (acc : string) (p : string) : string :=
  match p with
  | EmptyString => acc
  | String c t =>
      if Ascii.eqb c "/" then name_from EmptyString t
      else name_from (acc ++ String c EmptyString) t
  end.

Definition name (p : string) : string := name_from EmptyString p.

(** [sorted(paths)]. *)
Definition sorted (paths : list string) : list string :=
  order_by String.leb paths.
End Py.

(** [[
    def yyyymmdd_to_mmddyyyy(s): y = s[0:4]; m = s[4:6]; d = s[6:8]
                                 return f"{m}/{d}/{y}"
    ]] *)
Definition yyyymmdd_to_mmddyyyy (s : string) : string :=
  let y := Py.slice 0 4 s in
  let m := Py.slice 4 6 s in
  let d := Py.slice 6 8 s in
  m ++ "/" ++ d ++ "/" ++ y.

(** [[
    def mmddyyyy_to_iso(mmddyyyy): m, d, y = mmddyyyy.split("/")
                                   return f"{y}-{m.zfill(2)}-{d.zfill(2)}"
    ]]
    [None] is the ValueError of an unpacking that does not get three parts. *)
Definition mmddyyyy_to_iso (mmddyyyy : string) : option string :=
  match Py.split "/" mmddyyyy with
  | [m; d; y] => Some (y ++ "-" ++ Py.zfill 2 m ++ "-" ++ Py.zfill 2 d)
  | _ => None
  end.

(** ** Single-election driver

    [build_demographic_turnout.py] loads its tables with slightly different
    SELECT lists; from [ncvhis_election] and [voter_stats_denominator] on
    its statements are those of the multi-election controller, followed by
    the checks below. *)
Module TurnoutOne.

(** [[
    SELECT SUM(v.voted_count)
    FROM voted_aggregated v LEFT JOIN voter_stats_denominator d ON ...
    WHERE d.county_desc IS NULL
    ]] *)
Definition on_denominator (v : VotedAggregated.row) (d : Denominator.row) : bool :=
  Bucket.eq_true (Denominator.key d) (VotedAggregated.key v).

Definition no_denominator (vd : VotedAggregated.row * option Denominator.row)
  : bool :=
  is_null (col (fun d => Bucket.county_desc (Denominator.key d)) (snd vd)).

Definition missing_votes (voted_aggregated : list VotedAggregated.row)
    (voter_stats_denominator : list Denominator.row) : option Z :=
  sum_or_null (fun vd => VotedAggregated.voted_count (fst vd))
    (filter no_denominator
            (left_join on_denominator voted_aggregated voter_stats_denominator)).

(** SELECT COUNT( * ) FROM turnout_buckets WHERE registered_count = 0. *)
Definition bad (turnout_buckets : list Turnout.row) : Z :=
  count_filter (fun r => Z.eqb (Turnout.registered_count r) 0) turnout_buckets.

(** SELECT COUNT( * ) FROM voter_stats_denominator d JOIN voted_aggregated v ON ... *)
Definition matches (voter_stats_denominator : list Denominator.row)
    (voted_aggregated : list VotedAggregated.row) : Z :=
  Z.of_nat (List.length (inner_join on_key voter_stats_denominator voted_aggregated)).

(** [[
    SELECT SUM(voted_count), SUM(registered_count),
           SUM(voted_count) * 1.0 / NULLIF(SUM(registered_count), 0)
    FROM turnout_buckets
    ]] *)
Definition statewide (turnout_buckets : list Turnout.row)
  : option Z * option Z * option Q :=
  let voted := sum_or_null Turnout.voted_count turnout_buckets in
  let registered := sum_or_null Turnout.registered_count turnout_buckets in
  (voted, registered,
   match voted, registered with
   | Some v, Some r =>
       if Z.eqb r 0 then None else Some (inject_Z v * 1 / inject_Z r)%Q
   | _, _ => None
   end).

Inductive line :=
| Info_election (iso mmddyyyy : string)
| Info_voted (total_voted : Z)
| Info_join_mismatches (n : Z) (rate : Q)
| Info_county_mismatches (n : Z) (rate : Q)
| Check_voted_aggregated_rows (n : Z)
| Check_key_matches (n : Z)
| Check_statewide (voted registered : Z) (turnout : Q)
| Check_zero_registered (n : Z)
| Check_missing_votes (votes : option Z)
| Ok_wrote.

(** [[
    CREATE TABLE qa_summary_tmp AS
    SELECT '{election_iso}' AS election_date,
           '{election_mmddyyyy}' AS election_lbl, ...
    ]]
    The statement is put together by an f-string, the two texts between
    single quotes.  Without a quote inside them they are the two string
    literals of the SELECT; with one, the statement is another statement
    (as a rule one that does not parse, and [execute] raises). *)
Definition quotable (s : string) : bool := negb (Py.has_char "'" s).

(** [Statement_broken]: a quote in the election texts reached the
    statement that builds [qa_summary_tmp]; the four [INFO] lines are
    printed and the two mismatch lists written, the QA summary and the
    turnout table are not, and what the engine does with the statement is
    not followed further.  The other two endings leave the QA summary and
    the turnout table written; the format specs [:,] and [:.4f] of the
    statewide line raise TypeError on a None. *)
Inductive outcome :=
| Statement_broken (printed : list line)
| TypeError (out_csv : list Turnout.row) (qa_summary : Qa.summary)
            (printed : list line)
| Finished (out_csv : list Turnout.row) (qa_summary : Qa.summary)
           (printed : list line).

(** The part of [main] after the tables are loaded, for one election.
    Every COPY ... TO writes its file: a path the file system refuses is
    outside the model. *)
Definition main (E : engine) (ncvhis_raw : list Ncvhis.row)
    (ncvoter_attrs : list NcvoterAttrs.row)
    (voter_stats_raw : list VoterStats.row) (e : election) : outcome :=
  let c := election_qa ncvhis_raw ncvoter_attrs e in
  let summary := Qa.summarise (election_iso e) (election_mmddyyyy e) c in
  let num := numerator E ncvhis_raw ncvoter_attrs e in
  let den := denominator E voter_stats_raw e in
  let buckets := turnout_buckets den num in
  let info :=
    [ Info_election (election_iso e) (election_mmddyyyy e);
      Info_voted (Qa.total_voted c);
      Info_join_mismatches (Qa.join_mismatches c) (Qa.join_mismatch_rate c);
      Info_county_mismatches (Qa.county_mismatches c)
                             (Qa.county_mismatch_rate c) ] in
  let printed :=
    (info ++ [ Check_voted_aggregated_rows (Z.of_nat (List.length num));
               Check_key_matches (matches den num) ])%list in
  if quotable (election_iso e) && quotable (election_mmddyyyy e) then
    match statewide buckets with
    | (Some voted, Some registered, Some turnout) =>
        Finished buckets summary
          (printed
             ++ [ Check_statewide voted registered turnout;
                  Check_zero_registered (bad buckets);
                  Check_missing_votes (missing_votes num den);
                  Ok_wrote ])
    | _ => TypeError buckets summary printed
    end
  else Statement_broken info.
End TurnoutOne.

(** ** Multi-election controller *)
Module TurnoutAll.

Inductive line :=
| Warn_skipping (base : string)
| Info_building (iso base : string)
| Info_voted (total_voted : Z)
| Info_join_mismatches (n : Z) (rate : Q)
| Info_county_mismatches (n : Z) (rate : Q)
| Ok_combined
| Ok_qa.

(** What the loop accumulates: the table [turnout_all], the Python list
    [qa_rows], and what was printed. *)
Record state := mk_state
  { turnout_all : list Turnout.row; qa_rows : list Qa.summary;
    stdout : list line }.

Definition initial : state := mk_state [] [] [].

(** A run ends with SystemExit; with an uncaught ValueError inside the
    loop, before anything is exported; with its two files written; or, when
    the loop built no election, at [executemany] with an empty [qa_rows],
    the combined file (of no rows) written: the DuckDB client refuses an
    empty list of parameter sets with InvalidInputException, and a client
    without that check would go on to write a QA file of no rows. *)
Inductive outcome :=
| SystemExit (message : string)
| ValueError
| Empty_qa_rows (out_csv : list Turnout.row) (printed : list line)
| Finished (out_csv : list Turnout.row) (qa_summary_all : list Qa.summary)
           (printed : list line).

Definition date_token (base : string) : string :=
  Py.replace ".txt" "" (Py.replace "voter_stats_" "" base).

(** [len(yyyymmdd) != 8 or not yyyymmdd.isdigit()] is false. *)
Definition recognized (yyyymmdd : string) : bool :=
  Nat.eqb (String.length yyyymmdd) 8 && Py.isdigit yyyymmdd.

(** The three forms of the election identifier derived from the token. *)
Definition election_of (yyyymmdd : string) : option election :=
  let election_mmddyyyy := yyyymmdd_to_mmddyyyy yyyymmdd in
  match mmddyyyy_to_iso election_mmddyyyy with
  | None => None
  | Some election_iso =>
      match Py.int (hd EmptyString (Py.split "-" election_iso)) with
      | None => None
      | Some election_year =>
          Some (mk_election election_mmddyyyy election_iso election_year)
      end
  end.

(** The election a census file stands for; [None] when the loop skips the
    file or [election_of] raises. *)
Definition discovered_election (voter_stats_path : string) : option election :=
  let yyyymmdd := date_token (Py.name voter_stats_path) in
  if recognized yyyymmdd then election_of yyyymmdd else None.

(** A file whose token passes the check of the loop and whose year [int]
    refuses: the loop is left with ValueError. *)
Definition raises (voter_stats_path : string) : bool :=
  let yyyymmdd := date_token (Py.name voter_stats_path) in
  recognized yyyymmdd && is_null (election_of yyyymmdd).

(** The files the loop builds an election from, in loop order. *)
Definition elections (voter_stats_files : list string) : list (string * election) :=
  flat_map (fun p => match discovered_election p with
                     | Some e => [(p, e)]
                     | None => []
                     end) voter_stats_files.

Section Run.
Variable E : engine.
Variable ncvhis_raw : list Ncvhis.row.
Variable ncvoter_attrs : list NcvoterAttrs.row.
(** The rows [read_csv] delivers for a census file path. *)
Variable voter_stats_raw : string -> list VoterStats.row.

(** The body of the loop once the election is known. *)
Definition build (voter_stats_path base : string) (e : election) (st : state)
  : state :=
  let c := election_qa ncvhis_raw ncvoter_attrs e in
  mk_state
    (turnout_all st
       ++ reconcile E ncvhis_raw ncvoter_attrs
                    (voter_stats_raw voter_stats_path) e)
    (qa_rows st ++ [Qa.summarise (election_iso e) (election_mmddyyyy e) c])
    (stdout st
       ++ [ Info_building (election_iso e) base;
            Info_voted (Qa.total_voted c);
            Info_join_mismatches (Qa.join_mismatches c) (Qa.join_mismatch_rate c);
            Info_county_mismatches (Qa.county_mismatches c)
                                   (Qa.county_mismatch_rate c) ]).

Definition skip (base : string) (st : state) : state :=
  mk_state (turnout_all st) (qa_rows st) (stdout st ++ [Warn_skipping base]).

(** [for voter_stats_path in voter_stats_files: ...]; [None] is an
    exception leaving the loop. *)
Fixpoint loop (voter_stats_files : list string) (st : state) : option state :=
  match voter_stats_files with
  | [] => Some st
  | voter_stats_path :: rest =>
      let base := Py.name voter_stats_path in
      let yyyymmdd := date_token base in
      if negb (recognized yyyymmdd) then loop rest (skip base st)
      else match election_of yyyymmdd with
           | None => None
           | Some e => loop rest (build voter_stats_path base e st)
           end
  end.

(** What one built election adds to [turnout_all], [qa_rows] and the
    printed lines. *)
Definition rows_of (pe : string * election) : list Turnout.row :=
  reconcile E ncvhis_raw ncvoter_attrs (voter_stats_raw (fst pe)) (snd pe).

Definition qa_of (pe : string * election) : Qa.summary :=
  Qa.summarise (election_iso (snd pe)) (election_mmddyyyy (snd pe))
               (election_qa ncvhis_raw ncvoter_attrs (snd pe)).

Definition lines_of (voter_stats_path : string) : list line :=
  match discovered_election voter_stats_path with
  | Some e =>
      let c := election_qa ncvhis_raw ncvoter_attrs e in
      [ Info_building (election_iso e) (Py.name voter_stats_path);
        Info_voted (Qa.total_voted c);
        Info_join_mismatches (Qa.join_mismatches c) (Qa.join_mismatch_rate c);
        Info_county_mismatches (Qa.county_mismatches c)
                               (Qa.county_mismatch_rate c) ]
  | None => [Warn_skipping (Py.name voter_stats_path)]
  end.

(** COPY (SELECT ... FROM turnout_all ORDER BY the seven columns). *)
Definition by_key (a b : Turnout.row) : bool :=
  Bucket.leb (Turnout.key a) (Turnout.key b).

Definition export (turnout_all : list Turnout.row) : list Turnout.row :=
  order_by by_key turnout_all.

Definition no_files_message (voter_stats_glob : string) : string :=
  "No voter_stats files found at " ++ voter_stats_glob
    ++ ". Expected files like voter_stats_YYYYMMDD.txt".

(** [main], given what [glob.glob(args.voter_stats_glob)] returned.  Every
    COPY ... TO writes its file: a path the file system refuses is outside
    the model. *)
Definition main (voter_stats_glob : string) (globbed : list string) : outcome :=
  let voter_stats_files := Py.sorted globbed in
  match voter_stats_files with
  | [] => SystemExit (no_files_message voter_stats_glob)
  | _ =>
      match loop voter_stats_files initial with
      | None => ValueError
      | Some st =>
          match qa_rows st with
          | [] => Empty_qa_rows (export (turnout_all st))
                                (stdout st ++ [Ok_combined])
          | _ => Finished (export (turnout_all st)) (qa_rows st)
                          (stdout st ++ [Ok_combined; Ok_qa])
          end
      end
  end.
End Run.
End TurnoutAll.

(** ** Sample data *)
Module Sample.
Definition nov_2025 : election := mk_election "11/04/2025" "2025-11-04" 2025.

Definition census_path : string := "data/raw/voter_stats/voter_stats_20251104.txt".
Definition census_glob : string := "data/raw/voter_stats/voter_stats_*.txt".

(** One census bucket: ten registered Democrats in Wake county. *)
Definition census : list VoterStats.row :=
  [ VoterStats.mk (Some "WAKE") (Some "11/04/2025") (Some "voter") (Some "DEM")
                  (Some "W") (Some "NL") (Some "F") (Some "Age 41 - 65") 10 ].

Definition voter (ncid party : string) : NcvoterAttrs.row :=
  NcvoterAttrs.mk ncid (Some "WAKE") (Some party) (Some "W") (Some "NL")
                  (Some "F") (Some "1980").

Definition ballot (ncid : string) : Ncvhis.row :=
  Ncvhis.mk (Some "WAKE") "11/04/2025" ncid.

(** Two ballots; the second voter's bucket (party UNA) is not in the census. *)
Definition log2 : list Ncvhis.row := [ballot "A1"; ballot "A2"].
Definition registry2 : list NcvoterAttrs.row := [voter "A1" "DEM"; voter "A2" "UNA"].

(** Three ballots whose unmatched votes fall in one bucket, or in two. *)
Definition log3 : list Ncvhis.row := [ballot "A1"; ballot "A2"; ballot "A3"].
Definition registry3_one : list NcvoterAttrs.row :=
  [voter "A1" "DEM"; voter "A2" "UNA"; voter "A3" "UNA"].
Definition registry3_two : list NcvoterAttrs.row :=
  [voter "A1" "DEM"; voter "A2" "UNA"; voter "A3" "LIB"].

(** One ballot of a voter the registry lists twice. *)
Definition log1 : list Ncvhis.row := [ballot "A1"].
Definition registry_twice : list NcvoterAttrs.row :=
  [voter "A1" "DEM"; voter "A1" "DEM"].

(** Two vote events of voter A1, and A1's registry entry in Wake county. *)
Definition a1_log (county1 county2 : varchar) : list Ncvhis.row :=
  [ Ncvhis.mk county1 "11/04/2025" "A1"; Ncvhis.mk county2 "11/04/2025" "A1" ].

Definition a1_registry (party race ethnic sex : varchar)
  : list NcvoterAttrs.row :=
  [ NcvoterAttrs.mk "A1" (Some "WAKE") party race ethnic sex (Some "1980") ].

Definition a1_key (party race ethnic sex : varchar) : Bucket.key :=
  Bucket.mk (Some "2025-11-04") (Some "WAKE") party race ethnic sex
            (Some "Age 41 - 65").

(** A second census file, of the election of 2024. *)
Definition census_path_2024 : string :=
  "data/raw/voter_stats/voter_stats_20241105.txt".

Definition nov_2024 : election := mk_election "11/05/2024" "2024-11-05" 2024.



(** A copy of the census file of 2025 under a second extension, in which
    the bucket has twenty voters. *)
Definition census_path_copy : string :=
  "data/raw/voter_stats/voter_stats_20251104.txt.txt".

Definition census_copy : list VoterStats.row :=
  [ VoterStats.mk (Some "WAKE") (Some "11/04/2025") (Some "voter") (Some "DEM")
                  (Some "W") (Some "NL") (Some "F") (Some "Age 41 - 65") 20 ].

Definition census_or_copy (voter_stats_path : string) : list VoterStats.row :=
  if String.eqb voter_stats_path census_path_copy then census_copy else census.

(** A file name whose token is eight times the superscript two, U+00B2,
    and one whose date is cut in two by a second ".txt". *)
Definition squared : string :=
  String "178" (String "178" (String "178" (String "178"
    (String "178" (String "178" (String "178" (String "178" EmptyString))))))).

Definition census_path_squared : string :=
  "data/raw/voter_stats/voter_stats_" ++ squared ++ ".txt".

Definition census_path_cut : string :=
  "data/raw/voter_stats/voter_stats_2025.txt1104.txt".

Definition key (party : string) : Bucket.key :=
  Bucket.mk (Some "2025-11-04") (Some "WAKE") (Some party) (Some "W")
            (Some "NL") (Some "F") (Some "Age 41 - 65").
End Sample.

(** ** The county-level scripts

    [scripts/01_extract_elections.py] and [scripts/02_build_turnout.py] read
    the tables [bronze_voter_history] and [bronze_voters] that
    [scripts/00_init_duckdb.py] loads with [read_csv_auto].  The type of
    [election_lbl] is the one the loader detects: it is a parameter here,
    with its equality and its order. *)
Module Bronze.
Section Typed.
Variable date : Type.
Variable date_eqb : date -> date -> bool.
Variable date_leb : date -> date -> bool.

(** The columns of [bronze_voter_history] the two scripts read;
    [county_id] stands for CAST(h.county_id AS VARCHAR). *)
Record history := mk_history
  { h_county_desc : varchar; h_county_id : varchar; election_lbl : option date;
    election_desc : varchar; h_ncid : varchar }.

(** The columns of [bronze_voters] (loaded with all_varchar). *)
Record voter := mk_voter
  { county_desc : varchar; county_id : varchar; ncid : varchar;
    voter_status_desc : varchar }.

(** *** 01_extract_elections.py *)

(** WHERE election_lbl IS NOT NULL AND election_desc IS NOT NULL. *)
Definition dated (bronze_voter_history : list history) : list (date * string) :=
  flat_map (fun h => match election_lbl h, election_desc h with
                     | Some d, Some s => [(d, s)]
                     | _, _ => []
                     end) bronze_voter_history.

Definition same_election (a b : date * string) : bool :=
  date_eqb (fst a) (fst b) && String.eqb (snd a) (snd b).

(** The view: GROUP BY election_lbl, election_desc. *)
Definition elections_distinct (bronze_voter_history : list history)
  : list (date * string) :=
  map fst (group_by same_election (fun x => x) (dated bronze_voter_history)).

(** ORDER BY election_date, election_desc. *)
Definition by_date_desc (a b : date * string) : bool :=
  if date_eqb (fst a) (fst b) then String.leb (snd a) (snd b)
  else date_leb (fst a) (fst b).

Inductive extracted :=
| Missing_db
| Wrote_elections (csv : list (date * string)) (n : Z).

(** [main]; [None] is a missing DuckDB file. *)
Definition extract_elections (db : option (list history)) : extracted :=
  match db with
  | None => Missing_db
  | Some bronze_voter_history =>
      Wrote_elections
        (order_by by_date_desc (elections_distinct bronze_voter_history))
        (Z.of_nat (List.length (elections_distinct bronze_voter_history)))
  end.

(** *** 02_build_turnout.py *)

(** lpad(s, 3, '0') and the cast of an inserted string to DATE belong to
    the engine. *)
Variable lpad3 : string -> string.
Variable date_of_string : string -> date.

Definition TARGET_ELECTIONS : list (string * string) :=
  [ ("2024-11-05", "11/05/2024 GENERAL");
    ("2022-11-08", "11/08/2022 GENERAL") ].

Definition target_elections : list (date * string) :=
  map (fun t => (date_of_string (fst t), snd t)) TARGET_ELECTIONS.

(** COUNT(DISTINCT col) over rows where the column is not NULL. *)
Definition count_distinct (col : list string) : Z :=
  Z.of_nat (List.length (distinct String.eqb col)).

Definition same_county (a b : string * string) : bool :=
  String.eqb (fst a) (fst b) && String.eqb (snd a) (snd b).

(** [registered_active]: the rows WHERE voter_status_desc = 'ACTIVE' AND
    ncid, county_desc, county_id IS NOT NULL, as (county_desc, county_fips,
    ncid), grouped by the first two. *)
Definition active (bronze_voters : list voter)
  : list (string * string * string) :=
  flat_map (fun v =>
              if Sql.eq_true (voter_status_desc v) (Some "ACTIVE")
              then match ncid v, county_desc v, county_id v with
                   | Some n, Some c, Some i => [(c, lpad3 i, n)]
                   | _, _, _ => []
                   end
              else []) bronze_voters.

Record registered := mk_registered
  { r_county_desc : string; r_county_fips : string; registered_active : Z }.

Definition registered_active_view (bronze_voters : list voter) : list registered :=
  map (fun g => mk_registered (fst (fst g)) (snd (fst g))
                              (count_distinct (map snd (snd g))))
      (group_by same_county fst (active bronze_voters)).

(** [voted_by_county]: history JOIN target_elections, WHERE ncid,
    county_desc, county_id IS NOT NULL, grouped by county, fips, date and
    description. *)
Definition in_target (h : history) (t : date * string) : bool :=
  match election_lbl h, election_desc h with
  | Some d, Some s => date_eqb d (fst t) && String.eqb s (snd t)
  | _, _ => false
  end.

Definition voted_events (bronze_voter_history : list history)
  : list (string * string * date * string * string) :=
  flat_map (fun ht =>
              let h := fst ht in
              match h_ncid h, h_county_desc h, h_county_id h,
                    election_lbl h, election_desc h with
              | Some n, Some c, Some i, Some d, Some s => [(c, lpad3 i, d, s, n)]
              | _, _, _, _, _ => []
              end)
           (inner_join in_target bronze_voter_history target_elections).

Definition same_county_election (a b : string * string * date * string) : bool :=
  match a, b with
  | (c1, f1, d1, s1), (c2, f2, d2, s2) =>
      String.eqb c1 c2 && String.eqb f1 f2 && date_eqb d1 d2 && String.eqb s1 s2
  end.

Record voted := mk_voted
  { v_county_desc : string; v_county_fips : string; v_election_date : date;
    v_election_desc : string; voters_voted : Z }.

Definition voted_by_county (bronze_voter_history : list history) : list voted :=
  map (fun g =>
         match fst g with
         | (c, f, d, s) => mk_voted c f d s (count_distinct (map snd (snd g)))
         end)
      (group_by same_county_election fst (voted_events bronze_voter_history)).

(** [turnout]: voted_by_county LEFT JOIN registered_active ON county_fips. *)
Record county_turnout := mk_county_turnout
  { t_voted : voted; t_registered_active : option Z; turnout_rate : option Q }.

Definition on_fips (v : voted) (r : registered) : bool :=
  String.eqb (v_county_fips v) (r_county_fips r).

Definition turnout (bronze_voter_history : list history)
    (bronze_voters : list voter) : list county_turnout :=
  map (fun vr =>
         let v := fst vr in
         let ra := option_map registered_active (snd vr) in
         mk_county_turnout v ra
           (match ra with
            | None => None
            | Some n => if Z.eqb n 0 then None
                        else Some (inject_Z (voters_voted v) * 1 / inject_Z n)%Q
            end))
      (left_join on_fips (voted_by_county bronze_voter_history)
                 (registered_active_view bronze_voters)).
End Typed.
End Bronze.

(** A small history and registry for the county-level scripts: dates as ISO
    text, whose bytewise order is the chronological one, and lpad(s, 3, '0')
    on ASCII text (pad on the left, cut on the right). *)
Module BronzeSample.
Definition lpad3 (s : string) : string :=
  match s with
  | EmptyString => "000"
  | String a EmptyString => String "0" (String "0" (String a EmptyString))
  | String a (String b EmptyString) => String "0" (String a (String b EmptyString))
  | String a (String b (String c _)) => String a (String b (String c EmptyString))
  end.

Definition date_of_string (s : string) : string := s.

Definition cast (county id : string) (lbl desc ncid : string)
  : Bronze.history string :=
  Bronze.mk_history (Some county) (Some id) (Some lbl) (Some desc) (Some ncid).

Definition bronze_voter_history : list (Bronze.history string) :=
  [ cast "WAKE" "92" "2024-11-05" "11/05/2024 GENERAL" "A1";
    cast "WAKE" "92" "2022-11-08" "11/08/2022 GENERAL" "A1";
    cast "WAKE" "92" "2024-11-05" "11/05/2024 GENERAL" "A2";
    cast "DURHAM" "32" "2024-11-05" "11/05/2024 GENERAL" "A3";
    cast "WAKE" "92" "2024-03-05" "03/05/2024 PRIMARY" "A1";
    Bronze.mk_history (Some "WAKE") (Some "92") None
                      (Some "11/05/2024 GENERAL") (Some "A4") ].

Definition bronze_voters : list Bronze.voter :=
  [ Bronze.mk_voter (Some "WAKE") (Some "92") (Some "A1") (Some "ACTIVE");
    Bronze.mk_voter (Some "WAKE") (Some "92") (Some "A2") (Some "ACTIVE");
    Bronze.mk_voter (Some "WAKE") (Some "92") (Some "A4") (Some "INACTIVE");
    Bronze.mk_voter (Some "WAKE") (Some "092") (Some "A5") (Some "ACTIVE") ].
End BronzeSample.

(** ** Counts used to state further properties *)

(** [s.count(c)] for a character [c]. *)
Fixpoint count_char (c : ascii) (s : string) : nat :=
  match s with
  | EmptyString => O
  | String c' t => (if Ascii.eqb c' c then 1 else 0) + count_char c t
  end.

(** The voters of the deduplicated table that have no registry row, and the
    pairs of the join whose registry row has a NULL county. *)
Definition without_registry_row (voted : list VotedNcids.row)
    (ncvoter_attrs : list NcvoterAttrs.row) : list VotedNcids.row :=
  filter (fun v => negb (existsb (on_ncid v) ncvoter_attrs)) voted.

Definition null_county_pairs (voted : list VotedNcids.row)
    (ncvoter_attrs : list NcvoterAttrs.row)
  : list (VotedNcids.row * NcvoterAttrs.row) :=
  filter (fun va => is_null (NcvoterAttrs.reg_county_desc (snd va)))
         (inner_join on_ncid voted ncvoter_attrs).

(** The census rows of one bucket that the denominator adds up. *)
Definition census_rows_of (E : engine) (election_iso election_mmddyyyy : string)
    (voter_stats_raw : list VoterStats.row) (k : Bucket.key)
  : list VoterStats.row :=
  filter (fun r => Bucket.same k (stats_key election_iso r))
         (filter (is_voter_stat E election_mmddyyyy) voter_stats_raw).

(** * Properties *)

(** ** Facts about the relational operators *)

Lemma filter_all (A : Type) (f : A -> bool) (l : list A) :
  (forall x, In x l -> f x = true) -> filter f l = l.
Proof.
  induction l as [|a t IH]; simpl; intros H; [reflexivity|].
  rewrite (H a (or_introl eq_refl)), IH; auto.
Qed.

Lemma filter_none (A : Type) (f : A -> bool) (l : list A) :
  (forall x, In x l -> f x = false) -> filter f l = [].
Proof.
  induction l as [|a t IH]; simpl; intros H; [reflexivity|].
  rewrite (H a (or_introl eq_refl)), IH; auto.
Qed.

Lemma flat_map_ext_in (A B : Type) (f g : A -> list B) (l : list A) :
  (forall x, In x l -> f x = g x) -> flat_map f l = flat_map g l.
Proof.
  induction l as [|a t IH]; simpl; intros H; [reflexivity|].
  rewrite (H a (or_introl eq_refl)), IH; auto.
Qed.

Lemma map_filter_flat_map (A B C : Type) (f : B -> C) (p : B -> bool)
    (g : A -> list B) (l : list A) :
  map f (filter p (flat_map g l)) = flat_map (fun x => map f (filter p (g x))) l.
Proof.
  induction l as [|a t IH]; simpl; [reflexivity|].
  now rewrite filter_app, map_app, IH.
Qed.

Lemma flat_map_singleton (A B : Type) (f : A -> B) (l : list A) :
  flat_map (fun x => [f x]) l = map f l.
Proof. induction l; simpl; congruence. Qed.

Lemma Permutation_filter' (A : Type) (f : A -> bool) (l l' : list A) :
  Permutation l l' -> Permutation (filter f l) (filter f l').
Proof.
  induction 1; simpl.
  - constructor.
  - destruct (f x); auto.
  - destruct (f x), (f y); auto using Permutation_refl, perm_swap.
  - eapply Permutation_trans; eauto.
Qed.

Section DistinctFacts.
Variables (K : Type) (eqb : K -> K -> bool).
Hypothesis eqb_spec : forall a b, reflect (a = b) (eqb a b).

Lemma In_distinct (l : list K) (k : K) : In k (distinct eqb l) <-> In k l.
Proof.
  induction l as [|a t IH]; simpl; [tauto|].
  rewrite filter_In, IH.
  destruct (eqb_spec a k) as [->|Hne]; simpl; intuition congruence.
Qed.

Lemma NoDup_distinct (l : list K) : NoDup (distinct eqb l).
Proof.
  induction l as [|a t IH]; simpl; constructor.
  - rewrite filter_In. intros [_ H].
    destruct (eqb_spec a a); [discriminate|congruence].
  - now apply NoDup_filter.
Qed.

Lemma distinct_NoDup (l : list K) : NoDup l -> distinct eqb l = l.
Proof.
  induction 1 as [|a t Hin Hnd IH]; simpl; [reflexivity|].
  rewrite IH. f_equal. apply filter_all.
  intros x Hx. destruct (eqb_spec a x); [congruence|reflexivity].
Qed.

Lemma Permutation_distinct (l l' : list K) :
  Permutation l l' -> Permutation (distinct eqb l) (distinct eqb l').
Proof.
  intros HP. apply NoDup_Permutation; auto using NoDup_distinct.
  intros k. rewrite !In_distinct.
  split; apply Permutation_in; auto using Permutation_sym.
Qed.

(** The keys of the groups are the distinct keys, each once. *)
Lemma group_by_keys (A : Type) (key : A -> K) (rows : list A) :
  map fst (group_by eqb key rows) = distinct eqb (map key rows).
Proof.
  unfold group_by. rewrite map_map. simpl. apply map_id.
Qed.

(** Over rows with pairwise different keys every group is one row. *)
Lemma group_by_NoDup (A B : Type) (key : A -> K) (h : K * list A -> list B)
    (rows : list A) :
  NoDup (map key rows) ->
  flat_map h (group_by eqb key rows) = flat_map (fun r => h (key r, [r])) rows.
Proof.
  intros Hnd. unfold group_by. rewrite (distinct_NoDup Hnd).
  rewrite flat_map_concat_map, map_map, <- flat_map_concat_map.
  induction rows as [|r t IH]; simpl; [reflexivity|].
  inversion Hnd as [|? ? Hin Hnd']; subst.
  destruct (eqb_spec (key r) (key r)) as [_|]; [|congruence].
  rewrite (@filter_none _ (fun r0 => eqb (key r) (key r0)) t).
  2:{ intros x Hx. destruct (eqb_spec (key r) (key x)) as [Heq|]; [|reflexivity].
      exfalso. apply Hin. rewrite Heq. now apply in_map. }
  f_equal. rewrite <- IH by assumption.
  rewrite !flat_map_concat_map, !map_map.
  f_equal. apply map_ext_in. intros x Hx.
  destruct (eqb_spec (key x) (key r)) as [Heq|]; [|reflexivity].
  exfalso. apply Hin. rewrite <- Heq. now apply in_map.
Qed.
End DistinctFacts.

Section OrderFacts.
Variables (A : Type) (le : A -> A -> bool).

Lemma insert_perm (x : A) (l : list A) : Permutation (insert le x l) (x :: l).
Proof.
  induction l as [|y t IH]; simpl; [apply Permutation_refl|].
  destruct (le x y); [apply Permutation_refl|].
  eapply Permutation_trans; [apply perm_skip, IH|apply perm_swap].
Qed.

Lemma order_by_perm (l : list A) : Permutation (order_by le l) l.
Proof.
  induction l as [|x t IH]; simpl; [constructor|].
  eapply Permutation_trans; [apply insert_perm|now apply perm_skip].
Qed.

Lemma order_by_In (l : list A) (x : A) : In x (order_by le l) <-> In x l.
Proof.
  split; apply Permutation_in;
    [apply order_by_perm | apply Permutation_sym, order_by_perm].
Qed.

Hypothesis le_total : forall a b, le a b = true \/ le b a = true.
Hypothesis le_trans : forall a b c, le a b = true -> le b c = true -> le a c = true.

Local Abbreviation R := (holds le).

Lemma insert_sorted (x : A) (l : list A) :
  StronglySorted R l -> StronglySorted R (insert le x l).
Proof.
  induction 1 as [|y t Hs IH Hall]; simpl.
  - repeat constructor.
  - destruct (le x y) eqn:Hxy.
    + constructor; [now constructor|].
      constructor; [exact Hxy|].
      eapply Forall_impl; [|exact Hall]. intros z Hz. eapply le_trans; eauto.
    + constructor; [exact IH|].
      assert (Hyx : R y x) by (destruct (le_total x y); [congruence|assumption]).
      rewrite Forall_forall in *. intros z Hz.
      apply (Permutation_in _ (insert_perm x t)) in Hz.
      destruct Hz as [<-|Hz]; auto.
Qed.

Lemma order_by_sorted (l : list A) : StronglySorted R (order_by le l).
Proof.
  induction l as [|x t IH]; simpl; [constructor|now apply insert_sorted].
Qed.

(** The first row of an ordered partition is a least row of it. *)
Lemma order_by_head (l : list A) (m : A) (rest : list A) :
  order_by le l = m :: rest ->
  In m l /\ forall x, In x l -> le m x = true.
Proof.
  intros Heq. split.
  - apply order_by_In. rewrite Heq. now left.
  - intros x Hx. apply order_by_In in Hx. rewrite Heq in Hx.
    pose proof (order_by_sorted l) as Hs. rewrite Heq in Hs.
    inversion Hs as [|? ? _ Hall]; subst.
    destruct Hx as [<-|Hx].
    + destruct (le_total m m); assumption.
    + rewrite Forall_forall in Hall. now apply Hall.
Qed.

(** Two sorted arrangements of the same rows coincide as soon as rows
    that tie in the order are equal. *)
Lemma sorted_unique (l1 l2 : list A) :
  Permutation l1 l2 ->
  StronglySorted R l1 -> StronglySorted R l2 ->
  (forall a b, In a l1 -> In b l1 -> R a b -> R b a -> a = b) ->
  l1 = l2.
Proof.
  revert l2. induction l1 as [|a1 t1 IH]; intros l2 HP Hs1 Hs2 Hanti.
  - apply Permutation_nil in HP. now subst.
  - destruct l2 as [|a2 t2].
    { apply Permutation_sym, Permutation_nil in HP. discriminate. }
    inversion Hs1 as [|? ? Hs1' Hall1]; subst.
    inversion Hs2 as [|? ? Hs2' Hall2]; subst.
    rewrite Forall_forall in Hall1, Hall2.
    assert (Hin2 : In a2 (a1 :: t1))
      by (eapply Permutation_in; [apply Permutation_sym, HP|now left]).
    assert (Hin1 : In a1 (a2 :: t2))
      by (eapply Permutation_in; [apply HP|now left]).
    assert (Heq : a1 = a2).
    { destruct Hin2 as [|Hin2]; [assumption|].
      destruct Hin1 as [|Hin1]; [congruence|].
      apply Hanti; [now left|now right|now apply Hall1|now apply Hall2]. }
    subst a2. f_equal. apply IH; auto.
    + eapply Permutation_cons_inv; eauto.
    + intros a b Ha Hb. apply Hanti; now right.
Qed.

Lemma order_by_unique (l1 l2 : list A) :
  Permutation l1 l2 ->
  (forall a b, In a l1 -> In b l1 -> R a b -> R b a -> a = b) ->
  order_by le l1 = order_by le l2.
Proof.
  intros HP Hanti. apply sorted_unique; auto using order_by_sorted.
  - eapply Permutation_trans; [apply order_by_perm|].
    eapply Permutation_trans; [apply HP|apply Permutation_sym, order_by_perm].
  - intros a b Ha Hb. apply Hanti; now apply order_by_In.
Qed.
End OrderFacts.

Lemma filter_row_number_from (A : Type) (l : list A) (n : nat) :
  (2 <= n)%nat ->
  filter (fun rn => Nat.eqb (snd rn) 1) (combine l (seq n (List.length l))) = [].
Proof.
  revert n. induction l as [|x t IH]; simpl; intros n Hn; [reflexivity|].
  destruct (Nat.eqb_spec n 1); [lia|]. apply IH. lia.
Qed.

(** WHERE rn = 1 keeps the first row of the ordered partition. *)
Lemma filter_row_number (A : Type) (l : list A) :
  filter (fun rn => Nat.eqb (snd rn) 1) (row_number l)
  = match l with [] => [] | x :: _ => [(x, 1%nat)] end.
Proof.
  destruct l as [|x t]; unfold row_number; simpl; [reflexivity|].
  f_equal. apply filter_row_number_from. lia.
Qed.

(** ** The order of ORDER BY on a nullable VARCHAR *)

Lemma string_leb_refl (a : string) : String.leb a a = true.
Proof. destruct (String.leb_total a a); assumption. Qed.

Lemma string_leb_trans (a b c : string) :
  String.leb a b = true -> String.leb b c = true -> String.leb a c = true.
Proof.
  unfold String.leb. intros Hab Hbc.
  destruct (String.compare a b) eqn:Eab; try discriminate.
  - apply String.compare_eq_iff in Eab. subst b. exact Hbc.
  - destruct (String.compare b c) eqn:Ebc; try discriminate.
    + apply String.compare_eq_iff in Ebc. subst c. now rewrite Eab.
    + assert (Eac : String.compare a c = Lt).
      { apply String_as_OT.cmp_lt.
        eapply String_as_OT.lt_trans; apply String_as_OT.cmp_lt; eassumption. }
      now rewrite Eac.
Qed.

Lemma leb_total (a b : varchar) : Sql.leb a b = true \/ Sql.leb b a = true.
Proof. destruct a, b; simpl; auto using String.leb_total. Qed.

Lemma leb_trans (a b c : varchar) :
  Sql.leb a b = true -> Sql.leb b c = true -> Sql.leb a c = true.
Proof.
  destruct a, b, c; simpl; try discriminate; auto. apply string_leb_trans.
Qed.

Lemma leb_antisym (a b : varchar) :
  Sql.leb a b = true -> Sql.leb b a = true -> a = b.
Proof.
  destruct a, b; simpl; try discriminate; auto.
  intros H1 H2. f_equal. now apply String.leb_antisym.
Qed.

Lemma same_spec (a b : varchar) : reflect (a = b) (Sql.same a b).
Proof.
  destruct a as [x|], b as [y|]; simpl; try (constructor; congruence).
  destruct (String.eqb_spec x y); constructor; congruence.
Qed.

Lemma eq_true_eq (a b : varchar) : Sql.eq_true a b = true -> a = b.
Proof.
  destruct a as [x|], b as [y|]; simpl; try discriminate.
  intros H. apply String.eqb_eq in H. congruence.
Qed.

Lemma by_county_desc_total (a b : Ncvhis.row) :
  by_county_desc a b = true \/ by_county_desc b a = true.
Proof. apply leb_total. Qed.

Lemma by_county_desc_trans (a b c : Ncvhis.row) :
  by_county_desc a b = true -> by_county_desc b c = true ->
  by_county_desc a c = true.
Proof. apply leb_trans. Qed.

(** The engine's own sort is one of the allowed arrangements. *)
Lemma order_by_orders_by_county : orders_by_county (order_by by_county_desc).
Proof.
  intros p. split.
  - apply order_by_perm.
  - apply order_by_sorted;
      [apply by_county_desc_total | apply by_county_desc_trans].
Qed.

(** ** Vote event deduplicator *)

Section Dedup.
Variable arrange : list Ncvhis.row -> list Ncvhis.row.
Hypothesis arrange_ok : orders_by_county arrange.

(** The table is the first row of every partition. *)
Lemma voted_ncids_by_partitions (rows : list Ncvhis.row) :
  voted_ncids_by arrange rows
  = flat_map (fun n => first_row arrange (partition_of rows n))
             (distinct String.eqb (map Ncvhis.ncid rows)).
Proof.
  unfold voted_ncids_by, ncvhis_numbered_by, group_by.
  rewrite map_filter_flat_map.
  rewrite flat_map_concat_map, map_map, <- flat_map_concat_map.
  apply flat_map_ext. intros n. simpl.
  rewrite filter_row_number. unfold first_row, partition_of.
  destruct (arrange _); reflexivity.
Qed.

(** The first row of a partition: a row of it with a least county. *)
Lemma first_row_least (p : list Ncvhis.row) :
  p <> [] ->
  exists r, In r p
    /\ (forall x, In x p -> by_county_desc r x = true)
    /\ first_row arrange p
       = [VotedNcids.mk (Ncvhis.county_desc r) (Ncvhis.ncid r)].
Proof.
  intros Hne. destruct (arrange_ok p) as [HP Hs].
  unfold first_row. destruct (arrange p) as [|r rest] eqn:Harr.
  - apply Permutation_nil in HP. contradiction.
  - exists r. split; [|split; [|reflexivity]].
    + eapply Permutation_in; [exact HP|now left].
    + intros x Hx. apply (Permutation_in _ (Permutation_sym HP)) in Hx.
      inversion Hs as [|? ? _ Hall]; subst. destruct Hx as [<-|Hx].
      * destruct (by_county_desc_total r r); assumption.
      * rewrite Forall_forall in Hall. now apply Hall.
Qed.

Lemma partition_of_In (rows : list Ncvhis.row) (n : string) (r : Ncvhis.row) :
  In r (partition_of rows n) <-> In r rows /\ Ncvhis.ncid r = n.
Proof.
  unfold partition_of. rewrite filter_In, String.eqb_eq. intuition congruence.
Qed.

Lemma partition_of_nonempty (rows : list Ncvhis.row) (n : string) :
  In n (map Ncvhis.ncid rows) -> partition_of rows n <> [].
Proof.
  intros Hin Hnil. apply in_map_iff in Hin. destruct Hin as [r [Hr Hin]].
  assert (H : In r (partition_of rows n)) by (apply partition_of_In; auto).
  rewrite Hnil in H. exact H.
Qed.

Lemma first_row_ncid (rows : list Ncvhis.row) (n : string) :
  In n (map Ncvhis.ncid rows) ->
  map VotedNcids.ncid (first_row arrange (partition_of rows n)) = [n].
Proof.
  intros Hin.
  destruct (first_row_least (partition_of_nonempty rows n Hin))
    as [r [Hr [_ ->]]].
  apply partition_of_In in Hr. simpl. now destruct Hr as [_ ->].
Qed.

(** One row per distinct [ncid]. *)
Lemma voted_ncids_by_ncid (rows : list Ncvhis.row) :
  map VotedNcids.ncid (voted_ncids_by arrange rows)
  = distinct String.eqb (map Ncvhis.ncid rows).
Proof.
  rewrite voted_ncids_by_partitions.
  assert (H : forall D, (forall n, In n D -> In n (map Ncvhis.ncid rows)) ->
    map VotedNcids.ncid
        (flat_map (fun n => first_row arrange (partition_of rows n)) D) = D).
  { induction D as [|n D IH]; simpl; intros HD; [reflexivity|].
    rewrite map_app, first_row_ncid, IH; auto. }
  apply H. intros n. now rewrite (In_distinct _ String.eqb_spec).
Qed.

(** Each kept row is a row of the log with a least county of its voter. *)
Lemma voted_ncids_by_least (rows : list Ncvhis.row) (v : VotedNcids.row) :
  In v (voted_ncids_by arrange rows) ->
  exists r, In r rows
    /\ Ncvhis.ncid r = VotedNcids.ncid v
    /\ Ncvhis.county_desc r = VotedNcids.voted_county_desc v
    /\ forall x, In x rows -> Ncvhis.ncid x = VotedNcids.ncid v ->
         Sql.leb (VotedNcids.voted_county_desc v) (Ncvhis.county_desc x) = true.
Proof.
  rewrite voted_ncids_by_partitions, in_flat_map.
  intros [n [Hn Hv]]. rewrite (In_distinct _ String.eqb_spec) in Hn.
  destruct (first_row_least (partition_of_nonempty rows n Hn))
    as [r [Hr [Hleast Heq]]].
  rewrite Heq in Hv. destruct Hv as [<-|[]]. simpl.
  apply partition_of_In in Hr. destruct Hr as [Hr Hrn].
  exists r. repeat split; auto.
  intros x Hx Hxn. apply Hleast. apply partition_of_In. split; congruence.
Qed.
End Dedup.

Lemma voted_ncids_row_eta (v : VotedNcids.row) :
  VotedNcids.mk (VotedNcids.voted_county_desc v) (VotedNcids.ncid v) = v.
Proof. now destruct v. Qed.

(** Rows of pairwise different voters pass the deduplicator unchanged. *)
Lemma voted_ncids_by_NoDup (arrange : list Ncvhis.row -> list Ncvhis.row)
    (rows : list Ncvhis.row) :
  orders_by_county arrange ->
  NoDup (map Ncvhis.ncid rows) ->
  voted_ncids_by arrange rows
  = map (fun r => VotedNcids.mk (Ncvhis.county_desc r) (Ncvhis.ncid r)) rows.
Proof.
  intros Hok Hnd. unfold voted_ncids_by, ncvhis_numbered_by.
  rewrite map_filter_flat_map.
  rewrite (group_by_NoDup _ String.eqb_spec _ _ _ Hnd).
  rewrite <- flat_map_singleton. apply flat_map_ext. intros r. simpl.
  rewrite filter_row_number.
  destruct (Hok [r]) as [HP _].
  apply Permutation_sym, Permutation_length_1_inv in HP. now rewrite HP.
Qed.

Lemma voted_ncids_by_idempotent (arrange arrange' : list Ncvhis.row -> list Ncvhis.row)
    (rows : list Ncvhis.row) (lbl : string) :
  orders_by_county arrange -> orders_by_county arrange' ->
  voted_ncids_by arrange' (map (as_event lbl) (voted_ncids_by arrange rows))
  = voted_ncids_by arrange rows.
Proof.
  intros Hok Hok'. rewrite voted_ncids_by_NoDup; auto.
  - rewrite map_map. simpl. erewrite map_ext; [apply map_id|].
    intros v. apply voted_ncids_row_eta.
  - rewrite map_map. simpl.
    change (NoDup (map VotedNcids.ncid (voted_ncids_by arrange rows))).
    rewrite voted_ncids_by_ncid by assumption.
    apply (NoDup_distinct _ String.eqb_spec).
Qed.

(** Whatever the arrangement of ties, a partition has one first row. *)
Lemma first_row_unique (arrange1 arrange2 : list Ncvhis.row -> list Ncvhis.row)
    (p p' : list Ncvhis.row) (n : string) :
  orders_by_county arrange1 -> orders_by_county arrange2 ->
  Permutation p p' ->
  (forall x, In x p -> Ncvhis.ncid x = n) ->
  first_row arrange1 p = first_row arrange2 p'.
Proof.
  intros Hok1 Hok2 HP Hn.
  destruct p as [|a t].
  - apply Permutation_nil in HP. subst p'. unfold first_row.
    destruct (Hok1 []) as [H1 _], (Hok2 []) as [H2 _].
    apply Permutation_sym, Permutation_nil in H1.
    apply Permutation_sym, Permutation_nil in H2. now rewrite H1, H2.
  - assert (Hne : a :: t <> []) by discriminate.
    assert (Hne' : p' <> []).
    { intros ->. apply Permutation_sym, Permutation_nil in HP. discriminate. }
    destruct (first_row_least Hok1 Hne) as [r1 [Hr1 [Hl1 ->]]].
    destruct (first_row_least Hok2 Hne') as [r2 [Hr2 [Hl2 ->]]].
    assert (Hr2' : In r2 (a :: t))
      by (eapply Permutation_in; [apply Permutation_sym, HP|exact Hr2]).
    assert (Hr1' : In r1 p') by (eapply Permutation_in; [apply HP|exact Hr1]).
    rewrite (Hn r1 Hr1), (Hn r2 Hr2').
    do 2 f_equal. apply leb_antisym; [apply Hl1|apply Hl2]; assumption.
Qed.

Lemma voted_ncids_by_perm (arrange1 arrange2 : list Ncvhis.row -> list Ncvhis.row)
    (rows1 rows2 : list Ncvhis.row) :
  orders_by_county arrange1 -> orders_by_county arrange2 ->
  Permutation rows1 rows2 ->
  Permutation (voted_ncids_by arrange1 rows1) (voted_ncids_by arrange2 rows2).
Proof.
  intros Hok1 Hok2 HP. rewrite !voted_ncids_by_partitions.
  rewrite (flat_map_ext
             (fun n => first_row arrange1 (partition_of rows1 n))
             (fun n => first_row arrange2 (partition_of rows2 n))).
  - apply Permutation_flat_map.
    apply (Permutation_distinct _ String.eqb_spec).
    now apply Permutation_map.
  - intros n. apply first_row_unique with (n := n); auto.
    + now apply Permutation_filter'.
    + intros x Hx. now apply partition_of_In in Hx.
Qed.

Lemma voted_ncids_by_arrangement (arrange1 arrange2 : list Ncvhis.row -> list Ncvhis.row)
    (rows : list Ncvhis.row) :
  orders_by_county arrange1 -> orders_by_county arrange2 ->
  voted_ncids_by arrange1 rows = voted_ncids_by arrange2 rows.
Proof.
  intros Hok1 Hok2. rewrite !voted_ncids_by_partitions.
  apply flat_map_ext. intros n.
  apply first_row_unique with (n := n); auto.
  intros x Hx. now apply partition_of_In in Hx.
Qed.

(** An arrangement that breaks ties the other way round. *)
Lemma order_by_rev_orders_by_county :
  orders_by_county (fun p => order_by by_county_desc (rev p)).
Proof.
  intros p. split.
  - eapply Permutation_trans; [apply order_by_perm|].
    apply Permutation_sym, Permutation_rev.
  - apply order_by_sorted;
      [apply by_county_desc_total | apply by_county_desc_trans].
Qed.

(** C2. The deduplicator keeps exactly one row per distinct [ncid] of the
    election's vote events, so its row count is the number of distinct
    [ncid]s; the kept row carries a [county_desc] of that voter which is
    least in the ORDER BY order (bytewise least among the counties, a NULL
    county coming after every string); and run on its own output the
    deduplicator returns that output unchanged. *)
Theorem voted_ncids_one_row_per_voter :
  forall rows : list Ncvhis.row,
    NoDup (map VotedNcids.ncid (voted_ncids rows))
    /\ (forall n, In n (map VotedNcids.ncid (voted_ncids rows))
                  <-> In n (map Ncvhis.ncid rows))
    /\ List.length (voted_ncids rows)
       = List.length (distinct String.eqb (map Ncvhis.ncid rows))
    /\ (forall v, In v (voted_ncids rows) ->
          exists r, In r rows
            /\ Ncvhis.ncid r = VotedNcids.ncid v
            /\ Ncvhis.county_desc r = VotedNcids.voted_county_desc v
            /\ forall x, In x rows -> Ncvhis.ncid x = VotedNcids.ncid v ->
                 Sql.leb (VotedNcids.voted_county_desc v) (Ncvhis.county_desc x) = true)
    /\ (forall v x c', In v (voted_ncids rows) -> In x rows ->
          Ncvhis.ncid x = VotedNcids.ncid v -> Ncvhis.county_desc x = Some c' ->
          exists c, VotedNcids.voted_county_desc v = Some c
                    /\ String.leb c c' = true)
    /\ (forall lbl, voted_ncids (map (as_event lbl) (voted_ncids rows))
                    = voted_ncids rows).
Proof.
  intros rows. pose proof order_by_orders_by_county as Hok.
  pose proof (voted_ncids_by_ncid Hok rows) as Hncid.
  unfold voted_ncids. repeat split.
  - rewrite Hncid. apply (NoDup_distinct _ String.eqb_spec).
  - rewrite Hncid. apply (In_distinct _ String.eqb_spec).
  - rewrite Hncid. apply (In_distinct _ String.eqb_spec).
  - rewrite <- Hncid. now rewrite length_map.
  - intros v Hv. exact (voted_ncids_by_least Hok _ _ Hv).
  - intros v x c' Hv Hx Hn Hc.
    destruct (voted_ncids_by_least Hok _ _ Hv) as [r [_ [_ [_ Hleast]]]].
    specialize (Hleast x Hx Hn). rewrite Hc in Hleast.
    destruct (VotedNcids.voted_county_desc v) as [c|]; [|discriminate].
    exists c. split; [reflexivity|exact Hleast].
  - intros lbl. now apply voted_ncids_by_idempotent.
Qed.

(** C10. The deduplicated table does not depend on how the window breaks
    ties: two rows of one voter that tie on [county_desc] project to the
    same (voted_county_desc, ncid) pair; any two arrangements of the ties
    give the same table on the same rows; and on the same bag of rows, in
    whatever order the rows are stored, the same bag of output rows. *)
Theorem voted_ncids_deterministic :
  (forall r1 r2 : Ncvhis.row,
      Ncvhis.ncid r1 = Ncvhis.ncid r2 ->
      by_county_desc r1 r2 = true -> by_county_desc r2 r1 = true ->
      VotedNcids.mk (Ncvhis.county_desc r1) (Ncvhis.ncid r1)
      = VotedNcids.mk (Ncvhis.county_desc r2) (Ncvhis.ncid r2))
  /\ (forall arrange1 arrange2 rows,
        orders_by_county arrange1 -> orders_by_county arrange2 ->
        voted_ncids_by arrange1 rows = voted_ncids_by arrange2 rows)
  /\ (forall arrange1 arrange2 rows1 rows2,
        orders_by_county arrange1 -> orders_by_county arrange2 ->
        Permutation rows1 rows2 ->
        Permutation (voted_ncids_by arrange1 rows1) (voted_ncids_by arrange2 rows2)).
Proof.
  split; [|split].
  - intros r1 r2 Hn H12 H21. rewrite Hn. f_equal. now apply leb_antisym.
  - intros. now apply voted_ncids_by_arrangement.
  - intros. now apply voted_ncids_by_perm.
Qed.

(** ** Facts about joins *)

Section JoinFacts.
Variables (A B K : Type).
Variable on : A -> B -> bool.
Variables (keyA : A -> K) (keyB : B -> K).
Hypothesis on_key_eq : forall x y, on x y = true -> keyA x = keyB y.

(** Against a table with pairwise different keys a row finds at most one
    partner. *)
Lemma matches_at_most_one (b : list B) (x : A) :
  NoDup (map keyB b) ->
  filter (on x) b = [] \/ exists y, filter (on x) b = [y].
Proof.
  induction b as [|y t IH]; simpl; intros Hnd; [now left|].
  inversion Hnd as [|? ? Hin Hnd']; subst.
  destruct (on x y) eqn:Hxy.
  - right. exists y. f_equal. apply filter_none. intros z Hz.
    destruct (on x z) eqn:Hxz; [|reflexivity].
    exfalso. apply Hin.
    rewrite <- (on_key_eq Hxy), (on_key_eq Hxz). now apply in_map.
  - now apply IH.
Qed.

Lemma left_join_head (a : list A) (b : list B) :
  NoDup (map keyB b) ->
  left_join on a b = map (fun x => (x, hd_error (filter (on x) b))) a.
Proof.
  intros Hnd. unfold left_join. rewrite <- flat_map_singleton.
  apply flat_map_ext. intros x.
  destruct (matches_at_most_one b x Hnd) as [->|[y ->]]; reflexivity.
Qed.

(** LEFT JOIN keeps every left row, once, in place. *)
Lemma left_join_keeps_left (a : list A) (b : list B) :
  NoDup (map keyB b) -> map fst (left_join on a b) = a.
Proof.
  intros Hnd. rewrite left_join_head by assumption.
  rewrite map_map. simpl. apply map_id.
Qed.
End JoinFacts.

Lemma left_join_filter_left (A B : Type) (on : A -> B -> bool) (p : A -> bool)
    (a : list A) (b : list B) :
  filter (fun xy => p (fst xy)) (left_join on a b) = left_join on (filter p a) b.
Proof.
  unfold left_join. induction a as [|x t IH]; [reflexivity|].
  cbn [flat_map filter]. rewrite filter_app, IH.
  assert (Hfst : forall xy,
             In xy (match filter (on x) b with
                    | [] => [(x, None)]
                    | ms => map (fun y => (x, Some y)) ms
                    end) -> fst xy = x).
  { intros xy Hxy. destruct (filter (on x) b) as [|y ms].
    - destruct Hxy as [<-|[]]. reflexivity.
    - apply in_map_iff in Hxy. destruct Hxy as [z [<- _]]. reflexivity. }
  destruct (p x) eqn:Hp.
  - cbn [flat_map]. f_equal. apply filter_all.
    intros xy Hxy. now rewrite (Hfst xy Hxy).
  - rewrite filter_none; [reflexivity|].
    intros xy Hxy. now rewrite (Hfst xy Hxy).
Qed.

Lemma left_join_length (A B : Type) (on : A -> B -> bool) (a : list A) (b : list B) :
  List.length (left_join on a b)
  = list_sum (map (fun x => Nat.max 1 (List.length (filter (on x) b))) a).
Proof.
  unfold left_join. induction a as [|x t IH]; [reflexivity|].
  cbn [flat_map]. rewrite length_app, IH, map_cons. cbn [list_sum]. f_equal.
  destruct (filter (on x) b) as [|y ms]; [reflexivity|].
  now rewrite length_map.
Qed.

Lemma sum_app (A : Type) (col : A -> Z) (l1 l2 : list A) :
  Sql.sum col (l1 ++ l2) = Sql.sum col l1 + Sql.sum col l2.
Proof. induction l1 as [|x t IH]; simpl; [reflexivity|]. rewrite IH. lia. Qed.

Lemma sum_map (A B : Type) (f : A -> B) (col : B -> Z) (l : list A) :
  Sql.sum col (map f l) = Sql.sum (fun x => col (f x)) l.
Proof. induction l as [|x t IH]; simpl; congruence. Qed.

Lemma sum_or_null_map (A B : Type) (f : A -> B) (col : B -> Z) (l : list A) :
  sum_or_null col (map f l) = sum_or_null (fun x => col (f x)) l.
Proof.
  destruct l as [|x t]; [reflexivity|].
  unfold sum_or_null. rewrite sum_map. reflexivity.
Qed.

(** A filter on one of two exclusive conditions splits a sum. *)
Lemma sum_filter_either (A : Type) (col : A -> Z) (p q : A -> bool) (l : list A) :
  (forall x, In x l -> p x = true -> q x = false) ->
  Sql.sum col (filter (fun x => p x || q x) l)
  = Sql.sum col (filter p l) + Sql.sum col (filter q l).
Proof.
  induction l as [|x t IH]; simpl; intros Hex; [reflexivity|].
  assert (IH' := IH (fun y Hy => Hex y (or_intror Hy))).
  pose proof (Hex x (or_introl eq_refl)) as Hx.
  destruct (p x); simpl.
  - rewrite (Hx eq_refl), IH'. lia.
  - destruct (q x); simpl; rewrite IH'; lia.
Qed.

(** ** Facts about bucket keys *)

Lemma bucket_same_spec (a b : Bucket.key) : reflect (a = b) (Bucket.same a b).
Proof.
  destruct a as [a1 a2 a3 a4 a5 a6 a7], b as [b1 b2 b3 b4 b5 b6 b7].
  unfold Bucket.same. simpl.
  destruct (same_spec a1 b1); [|constructor; congruence].
  destruct (same_spec a2 b2); [|constructor; congruence].
  destruct (same_spec a3 b3); [|constructor; congruence].
  destruct (same_spec a4 b4); [|constructor; congruence].
  destruct (same_spec a5 b5); [|constructor; congruence].
  destruct (same_spec a6 b6); [|constructor; congruence].
  destruct (same_spec a7 b7); constructor; congruence.
Qed.

Lemma bucket_eq_true_eq (d v : Bucket.key) : Bucket.eq_true d v = true -> d = v.
Proof.
  destruct d as [a1 a2 a3 a4 a5 a6 a7], v as [b1 b2 b3 b4 b5 b6 b7].
  unfold Bucket.eq_true. simpl. rewrite !andb_true_iff.
  intros [[[[[[H1 H2] H3] H4] H5] H6] H7].
  f_equal; now apply eq_true_eq.
Qed.

Section PipelineFacts.
Variable E : engine.

(** GROUP BY leaves one numerator row per key. *)
Lemma voted_aggregated_keys (iso : string) (rows : list VotedWithAge.row) :
  map VotedAggregated.key (voted_aggregated iso rows)
  = distinct Bucket.same (map (voted_key iso) rows).
Proof.
  unfold voted_aggregated. rewrite map_map. simpl.
  rewrite <- (group_by_keys Bucket.same (voted_key iso) rows).
  reflexivity.
Qed.

Lemma voted_aggregated_NoDup (iso : string) (rows : list VotedWithAge.row) :
  NoDup (map VotedAggregated.key (voted_aggregated iso rows)).
Proof.
  rewrite voted_aggregated_keys. apply (NoDup_distinct _ bucket_same_spec).
Qed.

(** ... and one denominator row per key. *)
Lemma voter_stats_denominator_keys (iso lbl : string) (raw : list VoterStats.row) :
  map Denominator.key (voter_stats_denominator E iso lbl raw)
  = distinct Bucket.same
      (map (stats_key iso) (filter (is_voter_stat E lbl) raw)).
Proof.
  unfold voter_stats_denominator. rewrite map_map. simpl.
  rewrite <- (group_by_keys Bucket.same (stats_key iso)).
  reflexivity.
Qed.

Lemma voter_stats_denominator_NoDup (iso lbl : string) (raw : list VoterStats.row) :
  NoDup (map Denominator.key (voter_stats_denominator E iso lbl raw)).
Proof.
  rewrite voter_stats_denominator_keys. apply (NoDup_distinct _ bucket_same_spec).
Qed.

Lemma on_key_eq (d : Denominator.row) (v : VotedAggregated.row) :
  on_key d v = true -> Denominator.key d = VotedAggregated.key v.
Proof. apply bucket_eq_true_eq. Qed.

(** Against a numerator with one row per key, the reconciler emits one
    row per denominator row. *)
Lemma turnout_buckets_rows (den : list Denominator.row)
    (num : list VotedAggregated.row) :
  NoDup (map VotedAggregated.key num) ->
  turnout_buckets den num
  = map (fun d => turnout_row (d, hd_error (filter (on_key d) num))) den.
Proof.
  intros Hnd. unfold turnout_buckets.
  rewrite (@left_join_head _ _ _ on_key Denominator.key VotedAggregated.key on_key_eq den num Hnd).
  now rewrite map_map.
Qed.
End PipelineFacts.

(** ** Reconciler *)

(** A bucket with a NULL in one of its seven columns joins no bucket, not
    even one with the same key: the ON clause compares with [=]. *)
Lemma null_column_joins_nothing (d v : Bucket.key) :
  In None (Bucket.columns d) -> Bucket.eq_true d v = false.
Proof.
  destruct d as [d1 d2 d3 d4 d5 d6 d7]. unfold Bucket.columns, Bucket.eq_true.
  simpl. intros H.
  repeat (destruct H as [H|H];
          [subst; simpl; rewrite ?andb_false_r; reflexivity|]).
  destruct H.
Qed.

Lemma numerator_NoDup (E : engine) (ncvhis_raw : list Ncvhis.row)
    (ncvoter_attrs : list NcvoterAttrs.row) (e : election) :
  NoDup (map VotedAggregated.key (numerator E ncvhis_raw ncvoter_attrs e)).
Proof. apply voted_aggregated_NoDup. Qed.

Lemma denominator_NoDup (E : engine) (voter_stats_raw : list VoterStats.row)
    (e : election) :
  NoDup (map Denominator.key (denominator E voter_stats_raw e)).
Proof. apply voter_stats_denominator_NoDup. Qed.

Lemma turnout_row_rate (d : Denominator.row) (v : option VotedAggregated.row) :
  let r := turnout_row (d, v) in
  (Turnout.turnout_rate r = None <-> Turnout.registered_count r = 0)
  /\ (Turnout.registered_count r <> 0 ->
      exists q, Turnout.turnout_rate r = Some q
                /\ (q == inject_Z (Turnout.voted_count r)
                         / inject_Z (Turnout.registered_count r))%Q).
Proof.
  unfold turnout_row. simpl.
  destruct (Z.eqb_spec (Denominator.registered_count d) 0) as [H0|H0].
  - split; [tauto|]. intros H. contradiction.
  - split; [split; [discriminate|contradiction]|].
    intros _. eexists. split; [reflexivity|].
    unfold Qdiv. now rewrite Qmult_1_r.
Qed.

(** C1. In the reconciled table of an election, [turnout_rate] is NULL
    exactly on the rows with [registered_count = 0]; on a row with a
    positive [registered_count] it is [voted_count / registered_count]; the
    table has the denominator's buckets, each once and with its count; and
    [voted_count] is 0 on a bucket no numerator row joins (it is the
    numerator's count on a bucket one joins). *)
Theorem turnout_null_law :
  forall (E : engine) (ncvhis_raw : list Ncvhis.row)
         (ncvoter_attrs : list NcvoterAttrs.row)
         (voter_stats_raw : list VoterStats.row) (e : election),
    let den := denominator E voter_stats_raw e in
    let num := numerator E ncvhis_raw ncvoter_attrs e in
    let buckets := reconcile E ncvhis_raw ncvoter_attrs voter_stats_raw e in
    (forall r, In r buckets ->
       (Turnout.turnout_rate r = None <-> Turnout.registered_count r = 0))
    /\ (forall r, In r buckets -> Turnout.registered_count r > 0 ->
          exists q, Turnout.turnout_rate r = Some q
                    /\ (q == inject_Z (Turnout.voted_count r)
                             / inject_Z (Turnout.registered_count r))%Q)
    /\ map (fun r => (Turnout.key r, Turnout.registered_count r)) buckets
       = map (fun d => (Denominator.key d, Denominator.registered_count d)) den
    /\ (forall r, In r buckets ->
          (forall v, In v num ->
                     Bucket.eq_true (Turnout.key r) (VotedAggregated.key v) = false) ->
          Turnout.voted_count r = 0)
    /\ (forall r v, In r buckets -> In v num ->
          Bucket.eq_true (Turnout.key r) (VotedAggregated.key v) = true ->
          Turnout.voted_count r = VotedAggregated.voted_count v).
Proof.
  intros E ncvhis_raw ncvoter_attrs voter_stats_raw e den num buckets.
  assert (Hnd : NoDup (map VotedAggregated.key num)) by apply numerator_NoDup.
  assert (Hb : buckets
               = map (fun d => turnout_row (d, hd_error (filter (on_key d) num))) den).
  { unfold buckets, reconcile. now apply turnout_buckets_rows. }
  rewrite Hb. repeat split.
  - apply in_map_iff in H. destruct H as [d [<- _]].
    apply (turnout_row_rate d _).
  - apply in_map_iff in H. destruct H as [d [<- _]].
    apply (turnout_row_rate d _).
  - intros r Hr Hpos. apply in_map_iff in Hr. destruct Hr as [d [<- _]].
    apply (turnout_row_rate d _). simpl in *. lia.
  - rewrite map_map. reflexivity.
  - intros r Hr Hno. apply in_map_iff in Hr. destruct Hr as [d [<- _]].
    simpl in *. rewrite filter_none; [reflexivity|].
    intros v Hv. now apply Hno.
  - intros r v Hr Hv Hon. apply in_map_iff in Hr. destruct Hr as [d [<- _]].
    simpl in *.
    assert (Hin : In v (filter (on_key d) num)) by (apply filter_In; auto).
    destruct (@matches_at_most_one _ _ _ on_key Denominator.key
                VotedAggregated.key on_key_eq num d Hnd) as [Hm|[y Hm]];
      rewrite Hm in *.
    + destruct Hin.
    + destruct Hin as [->|[]]. reflexivity.
Qed.

(** The votes of the reconciled table are those of the numerator buckets
    that join a denominator bucket. *)
Lemma sum_matches (den : list Denominator.row) (num : list VotedAggregated.row) :
  NoDup (map VotedAggregated.key num) ->
  NoDup (map Denominator.key den) ->
  Sql.sum Turnout.voted_count (turnout_buckets den num)
  = Sql.sum VotedAggregated.voted_count (filter (has_denominator den) num).
Proof.
  intros Hnum. rewrite (turnout_buckets_rows den num Hnum).
  rewrite sum_map. simpl.
  induction den as [|d t IH]; intros Hden.
  - simpl. rewrite filter_none; auto.
  - inversion Hden as [|? ? Hin Hden']; subst.
    cbn [Sql.sum fold_right]. fold (Sql.sum (fun x => coalesce
      (option_map VotedAggregated.voted_count (hd_error (filter (on_key x) num))) 0) t).
    rewrite (IH Hden').
    rewrite (filter_ext (has_denominator (d :: t))
                        (fun v => on_key d v || has_denominator t v))
      by reflexivity.
    rewrite sum_filter_either.
    + f_equal.
      destruct (@matches_at_most_one _ _ _ on_key Denominator.key
                  VotedAggregated.key on_key_eq num d Hnum) as [->|[y ->]];
        simpl; lia.
    + intros v _ Hdv. unfold has_denominator.
      destruct (existsb (fun d' => on_key d' v) t) eqn:Hex; [|reflexivity].
      apply existsb_exists in Hex. destruct Hex as [d' [Hd' Hon']].
      exfalso. apply Hin.
      rewrite (on_key_eq _ _ Hdv), <- (on_key_eq _ _ Hon'). now apply in_map.
Qed.

(** Conservation, for either driver: the votes in the reconciled table of
    an election are the votes of the numerator buckets that have a
    denominator bucket. *)
Lemma reconcile_conservation (E : engine) (ncvhis_raw : list Ncvhis.row)
    (ncvoter_attrs : list NcvoterAttrs.row)
    (voter_stats_raw : list VoterStats.row) (e : election) :
  Sql.sum Turnout.voted_count
          (reconcile E ncvhis_raw ncvoter_attrs voter_stats_raw e)
  = Sql.sum VotedAggregated.voted_count
            (filter (has_denominator (denominator E voter_stats_raw e))
                    (numerator E ncvhis_raw ncvoter_attrs e)).
Proof.
  apply sum_matches; [apply numerator_NoDup|apply denominator_NoDup].
Qed.

Lemma no_denominator_spec (den : list Denominator.row) (v : VotedAggregated.row) :
  NoDup (map Denominator.key den) ->
  TurnoutOne.no_denominator (v, hd_error (filter (TurnoutOne.on_denominator v) den))
  = negb (has_denominator den v).
Proof.
  intros Hnd. unfold has_denominator, TurnoutOne.no_denominator.
  induction den as [|d t IH]; [reflexivity|].
  inversion Hnd as [|? ? Hin Hnd']; subst.
  cbn [filter existsb]. unfold TurnoutOne.on_denominator at 1. unfold on_key at 1.
  destruct (Bucket.eq_true (Denominator.key d) (VotedAggregated.key v)) eqn:Hon.
  - simpl. unfold Bucket.eq_true in Hon. rewrite !andb_true_iff in Hon.
    destruct Hon as [[[[[[_ Hc] _] _] _] _] _].
    destruct (Bucket.county_desc (Denominator.key d)); [reflexivity|discriminate].
  - simpl. now apply IH.
Qed.

(** The check of the single-election driver adds up the votes of the
    numerator buckets that have no denominator bucket. *)
Lemma missing_votes_spec (num : list VotedAggregated.row)
    (den : list Denominator.row) :
  NoDup (map Denominator.key den) ->
  TurnoutOne.missing_votes num den
  = sum_or_null VotedAggregated.voted_count
                (filter (fun v => negb (has_denominator den v)) num).
Proof.
  intros Hnd. unfold TurnoutOne.missing_votes.
  rewrite (@left_join_head _ _ _ TurnoutOne.on_denominator VotedAggregated.key
             Denominator.key (fun v d H => eq_sym (on_key_eq d v H)) num den Hnd).
  rewrite filter_map_swap.
  rewrite (filter_ext _ (fun v => negb (has_denominator den v)))
    by (intros v; now apply no_denominator_spec).
  now rewrite sum_or_null_map.
Qed.

(** When the census file has no bucket for the election the
    single-election driver stops at its statewide line, before the
    missing-votes line. *)
Lemma single_run_stops_before_missing_votes :
  exists csv qa printed,
    TurnoutOne.main ascii_engine Sample.log2 Sample.registry2 [] Sample.nov_2025
    = TurnoutOne.TypeError csv qa printed
    /\ forall votes, ~ In (TurnoutOne.Check_missing_votes votes) printed.
Proof.
  do 3 eexists. split; [vm_compute; reflexivity|].
  intros votes H. simpl in H.
  repeat (destruct H as [H|H]; [discriminate|]). exact H.
Qed.

(** C5, on the multi-election controller.  For either driver the votes of
    the reconciled table are the votes of the numerator buckets that join a
    denominator bucket, and the check of the single-election driver adds up
    the votes of the other numerator buckets.  The multi-election controller
    has no such check: with ten registered voters in one census bucket and
    two ballots, one of them of a voter whose bucket is not in the census,
    the single-election driver prints the missing votes (1), while the
    multi-election controller writes the matched bucket and prints nothing
    about the other one; its whole output is the same whether two such
    ballots fall in one unmatched bucket or in two. *)
Theorem missing_denominator_unreported :
  (forall (E : engine) (ncvhis_raw : list Ncvhis.row)
          (ncvoter_attrs : list NcvoterAttrs.row)
          (voter_stats_raw : list VoterStats.row) (e : election),
      Sql.sum Turnout.voted_count
              (reconcile E ncvhis_raw ncvoter_attrs voter_stats_raw e)
      = Sql.sum VotedAggregated.voted_count
                (filter (has_denominator (denominator E voter_stats_raw e))
                        (numerator E ncvhis_raw ncvoter_attrs e))
      /\ TurnoutOne.missing_votes (numerator E ncvhis_raw ncvoter_attrs e)
                                  (denominator E voter_stats_raw e)
         = sum_or_null VotedAggregated.voted_count
             (filter (fun v => negb (has_denominator
                                       (denominator E voter_stats_raw e) v))
                     (numerator E ncvhis_raw ncvoter_attrs e)))
  /\ numerator ascii_engine Sample.log2 Sample.registry2 Sample.nov_2025
  = [ VotedAggregated.mk (Sample.key "DEM") 1;
      VotedAggregated.mk (Sample.key "UNA") 1 ]
  /\ denominator ascii_engine Sample.census Sample.nov_2025
     = [ Denominator.mk (Sample.key "DEM") 10 ]
  /\ (exists csv qa printed,
        TurnoutOne.main ascii_engine Sample.log2 Sample.registry2 Sample.census
                        Sample.nov_2025
        = TurnoutOne.Finished csv qa printed
        /\ In (TurnoutOne.Check_missing_votes (Some 1)) printed)
  /\ TurnoutAll.main ascii_engine Sample.log2 Sample.registry2
                     (fun _ => Sample.census) Sample.census_glob [Sample.census_path]
     = TurnoutAll.Finished
         [ Turnout.mk (Sample.key "DEM") 10 1 (Some (1 # 10)%Q) ]
         [ Qa.mk_summary "2025-11-04" "11/04/2025" 2 0 (0 # 2)%Q 0 (0 # 2)%Q ]
         [ TurnoutAll.Info_building "2025-11-04" "voter_stats_20251104.txt";
           TurnoutAll.Info_voted 2;
           TurnoutAll.Info_join_mismatches 0 (0 # 2)%Q;
           TurnoutAll.Info_county_mismatches 0 (0 # 2)%Q;
           TurnoutAll.Ok_combined; TurnoutAll.Ok_qa ]
  /\ List.length
       (filter (fun v => negb (has_denominator
                                 (denominator ascii_engine Sample.census Sample.nov_2025) v))
               (numerator ascii_engine Sample.log3 Sample.registry3_one Sample.nov_2025))
     = 1%nat
  /\ List.length
       (filter (fun v => negb (has_denominator
                                 (denominator ascii_engine Sample.census Sample.nov_2025) v))
               (numerator ascii_engine Sample.log3 Sample.registry3_two Sample.nov_2025))
     = 2%nat
  /\ TurnoutAll.main ascii_engine Sample.log3 Sample.registry3_one
                     (fun _ => Sample.census) Sample.census_glob [Sample.census_path]
     = TurnoutAll.main ascii_engine Sample.log3 Sample.registry3_two
                       (fun _ => Sample.census) Sample.census_glob [Sample.census_path].
Proof.
  split.
  { intros E ncvhis_raw ncvoter_attrs voter_stats_raw e. split.
    - apply reconcile_conservation.
    - apply missing_votes_spec, denominator_NoDup. }
  split; [vm_compute; reflexivity|].
  split; [vm_compute; reflexivity|].
  split.
  { do 3 eexists. split; [vm_compute; reflexivity|].
    simpl. do 8 right. left. reflexivity. }
  repeat split; vm_compute; reflexivity.
Qed.

(** ** Attribute joiner *)

Lemma filter_exclusive_length (A : Type) (p q : A -> bool) (l : list A) :
  (forall x, p x = true -> q x = false) ->
  (List.length (filter p l) + List.length (filter q l) <= List.length l)%nat.
Proof.
  intros Hex. induction l as [|x t IH]; simpl; [lia|].
  pose proof (Hex x) as Hx.
  destruct (p x); [rewrite (Hx eq_refl)|destruct (q x)]; simpl; lia.
Qed.

Lemma count_filter_true (A : Type) (l : list A) :
  count_filter (fun _ => true) l = Z.of_nat (List.length l).
Proof. unfold count_filter. now rewrite filter_all. Qed.

Lemma count_filter_map (A B : Type) (f : A -> B) (p : B -> bool) (l : list A) :
  count_filter p (map f l) = count_filter (fun x => p (f x)) l.
Proof. unfold count_filter. now rewrite filter_map_swap, length_map. Qed.

(** C4. For every deduplicated table and registry: join_mismatch_rate is
    join_mismatches / total_voted, and 0 when total_voted is 0;
    county_mismatch_rate is county_mismatches / (total_voted -
    join_mismatches), and 0 when that difference is 0; county_mismatches
    counts rows that found a registry entry (whose county differs from the
    cast county), so it is at most total_voted - join_mismatches. *)
Theorem qa_rates :
  forall (voted : list VotedNcids.row) (ncvoter_attrs : list NcvoterAttrs.row),
    let c := Qa.qa (voted_joined voted ncvoter_attrs) in
    (Qa.total_voted c = 0 -> Qa.join_mismatch_rate c = 0%Q)
    /\ (Qa.total_voted c <> 0 ->
        Qa.join_mismatch_rate c
        = (inject_Z (Qa.join_mismatches c) / inject_Z (Qa.total_voted c))%Q)
    /\ (Qa.total_voted c - Qa.join_mismatches c = 0 ->
        Qa.county_mismatch_rate c = 0%Q)
    /\ (Qa.total_voted c - Qa.join_mismatches c <> 0 ->
        Qa.county_mismatch_rate c
        = (inject_Z (Qa.county_mismatches c)
           / inject_Z (Qa.total_voted c - Qa.join_mismatches c))%Q)
    /\ Qa.county_mismatches c
       = count_filter matched_county_mismatch
                      (left_join on_ncid voted ncvoter_attrs)
    /\ 0 <= Qa.county_mismatches c <= Qa.total_voted c - Qa.join_mismatches c.
Proof.
  intros voted attrs c. repeat split.
  - intros H. unfold Qa.join_mismatch_rate. now rewrite H.
  - intros H. unfold Qa.join_mismatch_rate.
    destruct (Z.eqb_spec (Qa.total_voted c) 0); [contradiction|reflexivity].
  - intros H. unfold Qa.county_mismatch_rate. now rewrite H.
  - intros H. unfold Qa.county_mismatch_rate.
    destruct (Z.eqb_spec (Qa.total_voted c - Qa.join_mismatches c) 0);
      [contradiction|reflexivity].
  - unfold c, Qa.qa, voted_joined. cbn [Qa.county_mismatches].
    rewrite count_filter_map. unfold count_filter. do 2 f_equal.
    apply filter_ext. intros [v [a|]]; unfold Qa.is_county_mismatch,
      matched_county_mismatch; simpl; [|reflexivity].
    destruct (NcvoterAttrs.reg_county_desc a); simpl; [reflexivity|].
    now destruct (VotedNcids.voted_county_desc v).
  - unfold c, Qa.qa, count_filter. simpl. lia.
  - unfold c, Qa.qa. cbn [Qa.county_mismatches Qa.total_voted Qa.join_mismatches].
    rewrite count_filter_true. unfold count_filter.
    pose proof (@filter_exclusive_length _ Qa.is_join_mismatch
                  Qa.is_county_mismatch (voted_joined voted attrs)) as H.
    assert (Hex : forall x, Qa.is_join_mismatch x = true ->
                            Qa.is_county_mismatch x = false).
    { intros x Hx. unfold Qa.is_county_mismatch.
      unfold Qa.is_join_mismatch in Hx. now rewrite Hx. }
    specialize (H Hex). lia.
Qed.

(** ** Registry rows per voter *)

Lemma voted_ncids_one_row_per_voter_facts (rows : list Ncvhis.row) :
  NoDup (map VotedNcids.ncid (voted_ncids rows))
  /\ (forall n, In n (map Ncvhis.ncid rows)
               <-> In n (map VotedNcids.ncid (voted_ncids rows))).
Proof.
  pose proof (voted_ncids_by_ncid order_by_orders_by_county rows) as H.
  unfold voted_ncids. rewrite H. split.
  - apply (NoDup_distinct _ String.eqb_spec).
  - intros n. symmetry. apply (In_distinct _ String.eqb_spec).
Qed.



Lemma filter_key_single (A : Type) (key : A -> string) (l : list A) (x : A) :
  NoDup (map key l) -> In x l ->
  filter (fun y => String.eqb (key x) (key y)) l = [x].
Proof.
  induction l as [|a t IH]; simpl; intros Hnd Hin; [contradiction|].
  inversion Hnd as [|? ? Hnotin Hnd']; subst.
  destruct Hin as [->|Hin].
  - rewrite String.eqb_refl. f_equal. apply filter_none.
    intros y Hy. apply String.eqb_neq. intros Heq.
    apply Hnotin. rewrite Heq. now apply in_map.
  - destruct (String.eqb_spec (key x) (key a)) as [Heq|_]; [|now apply IH].
    exfalso. apply Hnotin. rewrite <- Heq. now apply in_map.
Qed.

Lemma left_join_fst (A B : Type) (on : A -> B -> bool) (a : list A) (b : list B) :
  (forall x, In x a -> (List.length (filter (on x) b) <= 1)%nat) ->
  map fst (left_join on a b) = a.
Proof.
  unfold left_join. induction a as [|x t IH]; intros H; [reflexivity|].
  cbn [flat_map]. rewrite map_app, IH by (intros y Hy; apply H; now right).
  pose proof (H x (or_introl eq_refl)) as Hx.
  destruct (filter (on x) b) as [|y [|z ms]]; simpl in *; [reflexivity..|lia].
Qed.

Lemma list_sum_ones (A : Type) (f : A -> nat) (l : list A) :
  (forall x, In x l -> f x = 1%nat) -> list_sum (map f l) = List.length l.
Proof.
  induction l as [|x t IH]; simpl; intros H; [reflexivity|].
  rewrite (H x (or_introl eq_refl)), IH; auto.
Qed.

Lemma list_sum_more (A : Type) (f : A -> nat) (l : list A) (x : A) :
  (forall y, 1 <= f y)%nat -> In x l -> (2 <= f x)%nat ->
  (List.length l < list_sum (map f l))%nat.
Proof.
  intros H1. induction l as [|a t IH]; simpl; intros Hin H2; [contradiction|].
  assert (Hge : (List.length t <= list_sum (map f t))%nat).
  { clear - H1. induction t as [|b t IHt]; simpl; [lia|]. pose proof (H1 b). lia. }
  destruct Hin as [->|Hin].
  - lia.
  - pose proof (H1 a). specialize (IH Hin H2). lia.
Qed.

Lemma voted_joined_ncid (voted : list VotedNcids.row)
    (attrs : list NcvoterAttrs.row) :
  map VotedJoined.ncid (voted_joined voted attrs)
  = map (fun va => VotedNcids.ncid (fst va)) (left_join on_ncid voted attrs).
Proof. unfold voted_joined. now rewrite map_map. Qed.

Lemma voted_joined_length (voted : list VotedNcids.row)
    (attrs : list NcvoterAttrs.row) :
  List.length (voted_joined voted attrs)
  = list_sum (map (fun v => Nat.max 1 (copies attrs (VotedNcids.ncid v))) voted).
Proof.
  unfold voted_joined. rewrite length_map, left_join_length. reflexivity.
Qed.

(** The rows of the join that belong to one voter: one, or as many as the
    registry has for that voter. *)
Lemma joined_rows_of_voter (voted : list VotedNcids.row)
    (attrs : list NcvoterAttrs.row) (n : string) :
  NoDup (map VotedNcids.ncid voted) ->
  In n (map VotedNcids.ncid voted) ->
  joined_rows (voted_joined voted attrs) n = Nat.max 1 (copies attrs n).
Proof.
  intros Hnd Hin. apply in_map_iff in Hin. destruct Hin as [x [<- Hx]].
  unfold joined_rows, voted_joined.
  rewrite filter_map_swap, length_map. cbn [VotedJoined.ncid].
  rewrite (left_join_filter_left on_ncid
             (fun v => String.eqb (VotedNcids.ncid x) (VotedNcids.ncid v))).
  rewrite (filter_key_single VotedNcids.ncid voted x Hnd Hx).
  rewrite left_join_length. simpl. unfold copies, on_ncid. lia.
Qed.

(** C9. The join keeps one row per voter only over a registry with at most
    one row per voter: a voter of the deduplicated table has in the join
    max(1, k) rows, k being the number of registry rows with that [ncid];
    when no voter has more than one registry row the join has the rows of
    the deduplicated table, one per [ncid]; when a voter has k > 1 registry
    rows the join has k rows for that voter, total_voted exceeds the number
    of deduplicated vote events, and (as on the sample, where one ballot
    meets two registry rows) a voter adds more than 1 to voted_count. *)
Theorem registry_fan_out :
  forall (rows : list Ncvhis.row) (attrs : list NcvoterAttrs.row),
    let voted := voted_ncids rows in
    let joined := voted_joined voted attrs in
    (forall n, In n (map Ncvhis.ncid rows) ->
       joined_rows joined n = Nat.max 1 (copies attrs n))
    /\ ((forall n, In n (map Ncvhis.ncid rows) -> (copies attrs n <= 1)%nat) ->
        List.length joined = List.length voted
        /\ NoDup (map VotedJoined.ncid joined))
    /\ (forall n, In n (map Ncvhis.ncid rows) -> (1 < copies attrs n)%nat ->
        joined_rows joined n = copies attrs n
        /\ (List.length voted < List.length joined)%nat
        /\ Z.of_nat (List.length voted) < Qa.total_voted (Qa.qa joined))
    /\ (voted_ncids Sample.log1 = [VotedNcids.mk (Some "WAKE") "A1"]
        /\ numerator ascii_engine Sample.log1 Sample.registry_twice Sample.nov_2025
           = [VotedAggregated.mk (Sample.key "DEM") 2]).
Proof.
  intros rows attrs voted joined.
  destruct (voted_ncids_one_row_per_voter_facts rows) as [Hnd Hin].
  fold voted in Hnd, Hin.
  assert (Hlen : forall x, In x voted -> (1 < copies attrs (VotedNcids.ncid x))%nat ->
                           (List.length voted < List.length joined)%nat).
  { intros x Hx Hk. unfold joined. rewrite voted_joined_length.
    apply list_sum_more with (x := x); auto; lia. }
  split; [|split; [|split]].
  - intros n Hn. apply joined_rows_of_voter; auto. now apply Hin.
  - intros Hone.
    assert (Hone' : forall x, In x voted ->
              (List.length (filter (on_ncid x) attrs) <= 1)%nat).
    { intros x Hx. apply (Hone (VotedNcids.ncid x)).
      apply Hin. now apply in_map. }
    split.
    + unfold joined. rewrite voted_joined_length. apply list_sum_ones.
      intros x Hx. specialize (Hone' x Hx). unfold copies, on_ncid in *. lia.
    + unfold joined. rewrite voted_joined_ncid, <- map_map.
      now rewrite left_join_fst.
  - intros n Hn Hk.
    assert (Hn' : In n (map VotedNcids.ncid voted)) by now apply Hin.
    split; [|split].
    + unfold joined. rewrite joined_rows_of_voter; auto. lia.
    + apply in_map_iff in Hn'. destruct Hn' as [x [<- Hx]]. eauto.
    + apply in_map_iff in Hn'. destruct Hn' as [x [<- Hx]].
      unfold Qa.qa. cbn [Qa.total_voted]. rewrite count_filter_true.
      specialize (Hlen x Hx Hk). lia.
  - split; vm_compute; reflexivity.
Qed.

(** ** Age bucketizer *)

(** C3. The bucketizer decides in this order: a missing, blank or
    unparseable birth year gives the invalid label; otherwise, with
    age = election_year - birth_year, age < 18 gives the invalid label,
    18..25, 26..40 and 41..65 give their labels and an age above 65 gives
    "Age Over 66"; the result is always one of the five labels; and for
    election year 2025 the birth years 2007, 2008, 1959, 1960 and NULL give
    the labels of the specification. *)
Theorem age_group_precedence :
  forall (E : engine) (election_year : Z) (birth_year : varchar),
    (birth_year = None -> age_group E election_year birth_year = age_invalid)
    /\ (forall b, birth_year = Some b -> String.length (trim E b) = 0%nat ->
          age_group E election_year birth_year = age_invalid)
    /\ (forall b, birth_year = Some b -> try_cast_integer E (trim E b) = None ->
          age_group E election_year birth_year = age_invalid)
    /\ (forall b y, birth_year = Some b -> String.length (trim E b) <> 0%nat ->
          try_cast_integer E (trim E b) = Some y ->
          (election_year - y < 18 ->
           age_group E election_year birth_year = age_invalid)
          /\ (18 <= election_year - y <= 25 ->
              age_group E election_year birth_year = age_18_25)
          /\ (26 <= election_year - y <= 40 ->
              age_group E election_year birth_year = age_26_40)
          /\ (41 <= election_year - y <= 65 ->
              age_group E election_year birth_year = age_41_65)
          /\ (65 < election_year - y ->
              age_group E election_year birth_year = age_over_66))
    /\ In (age_group E election_year birth_year)
          [age_invalid; age_18_25; age_26_40; age_41_65; age_over_66]
    /\ age_group ascii_engine 2025 (Some "2007") = "Age 18 - 25"
    /\ age_group ascii_engine 2025 (Some "2008") = "Age < 18 Or Invalid Birth Dates"
    /\ age_group ascii_engine 2025 (Some "1959") = "Age Over 66"
    /\ age_group ascii_engine 2025 (Some "1960") = "Age 41 - 65"
    /\ age_group ascii_engine 2025 None = "Age < 18 Or Invalid Birth Dates".
Proof.
  intros E ey birth_year.
  split; [intros ->; reflexivity|].
  split.
  { intros b -> Hlen. simpl. now rewrite Hlen. }
  split.
  { intros b -> Hcast. simpl. rewrite Hcast. now destruct (Nat.eqb _ 0). }
  split.
  { intros b y -> Hlen Hcast. simpl. rewrite Hcast.
    destruct (Nat.eqb_spec (String.length (trim E b)) 0); [contradiction|].
    unfold between.
    repeat split; intros H;
      repeat match goal with
             | |- context [?a <? ?b] => destruct (Z.ltb_spec a b); try lia
             | |- context [?a <=? ?b] => destruct (Z.leb_spec a b); try lia
             end; simpl; reflexivity. }
  split.
  { unfold age_group. destruct birth_year as [b|]; [|simpl; tauto].
    destruct (Nat.eqb _ 0); [simpl; tauto|].
    destruct (try_cast_integer E (trim E b)) as [y|]; [|simpl; tauto].
    destruct (_ <? 18); [simpl; tauto|].
    repeat (destruct (between _ _ _); [simpl; tauto|]). simpl; tauto. }
  repeat split; vm_compute; reflexivity.
Qed.

(** ** End-to-end scenario *)

Lemma in_left_join (A B : Type) (on : A -> B -> bool) (a : list A) (b : list B)
    (x : A) (o : option B) :
  In (x, o) (left_join on a b) ->
  In x a /\ forall y, o = Some y -> In y b /\ on x y = true.
Proof.
  unfold left_join. rewrite in_flat_map. intros [x' [Hx' Hin]].
  destruct (filter (on x') b) as [|y0 ms] eqn:Hf.
  - destruct Hin as [Heq|[]]. inversion Heq; subst. split; [assumption|].
    intros y Hy. discriminate.
  - apply in_map_iff in Hin. destruct Hin as [y [Heq Hy]].
    inversion Heq; subst. split; [assumption|].
    intros y' Hy'. inversion Hy'; subst.
    rewrite <- Hf in Hy. now apply filter_In in Hy.
Qed.

(** The county of a numerator bucket is the registered county of a voter
    of the deduplicated table. *)
Lemma numerator_county (E : engine) (ncvhis_raw : list Ncvhis.row)
    (ncvoter_attrs : list NcvoterAttrs.row) (e : election)
    (row : VotedAggregated.row) :
  In row (numerator E ncvhis_raw ncvoter_attrs e) ->
  exists a v,
    In a ncvoter_attrs
    /\ In v (voted_ncids (ncvhis_election ncvhis_raw (election_mmddyyyy e)))
    /\ NcvoterAttrs.ncid a = VotedNcids.ncid v
    /\ NcvoterAttrs.reg_county_desc a <> None
    /\ Bucket.county_desc (VotedAggregated.key row) = NcvoterAttrs.reg_county_desc a.
Proof.
  intros Hrow. apply (in_map VotedAggregated.key) in Hrow.
  unfold numerator in Hrow. rewrite voted_aggregated_keys in Hrow.
  rewrite (In_distinct _ bucket_same_spec) in Hrow.
  apply in_map_iff in Hrow. destruct Hrow as [w [Hkey Hw]].
  unfold voted_with_age in Hw. apply in_map_iff in Hw. destruct Hw as [c [<- Hc]].
  unfold voted_clean in Hc. apply in_map_iff in Hc. destruct Hc as [r [<- Hr]].
  apply filter_In in Hr. destruct Hr as [Hr Hreg].
  unfold voted_joined in Hr. apply in_map_iff in Hr.
  destruct Hr as [[v o] [<- Hvo]]. simpl in *.
  apply in_left_join in Hvo. destruct Hvo as [Hv Ho].
  destruct o as [a|]; [|discriminate].
  destruct (Ho a eq_refl) as [Ha Hon].
  exists a, v. repeat split; auto.
  - unfold on_ncid in Hon. apply String.eqb_eq in Hon. congruence.
  - simpl in Hreg. destruct (NcvoterAttrs.reg_county_desc a); [discriminate|].
    discriminate.
  - rewrite <- Hkey. reflexivity.
Qed.

Lemma bucket_same_refl (k : Bucket.key) : Bucket.same k k = true.
Proof. destruct (bucket_same_spec k k); congruence. Qed.

(** Voter A1's ballot lands in A1's Wake bucket, wherever it was cast. *)
Lemma a1_bucket (county party race ethnic sex : varchar) :
  voted_aggregated "2025-11-04"
    (voted_with_age ascii_engine 2025
       (voted_clean
          (voted_joined [VotedNcids.mk county "A1"]
                        (Sample.a1_registry party race ethnic sex))))
  = [VotedAggregated.mk (Sample.a1_key party race ethnic sex) 1].
Proof.
  assert (Hw : voted_with_age ascii_engine 2025
                 (voted_clean
                    (voted_joined [VotedNcids.mk county "A1"]
                                  (Sample.a1_registry party race ethnic sex)))
               = [VotedWithAge.mk (Some "WAKE") party race ethnic sex "Age 41 - 65"])
    by (vm_compute; reflexivity).
  rewrite Hw. unfold voted_aggregated, group_by.
  cbn [map distinct filter fst snd]. rewrite bucket_same_refl. reflexivity.
Qed.

Lemma a1_voted_ncids (county1 county2 : varchar) :
  exists county,
    voted_ncids (ncvhis_election (Sample.a1_log county1 county2) "11/04/2025")
    = [VotedNcids.mk county "A1"].
Proof.
  pose proof (voted_ncids_by_ncid order_by_orders_by_county
                (ncvhis_election (Sample.a1_log county1 county2) "11/04/2025")) as H.
  fold (voted_ncids (ncvhis_election (Sample.a1_log county1 county2) "11/04/2025")) in H.
  change (distinct String.eqb _) with ["A1"] in H.
  destruct (voted_ncids _) as [|[c n] [|v t]]; try discriminate.
  simpl in H. inversion H; subst. now exists c.
Qed.

(** C6. The scenario of the specification: of the two vote events of voter
    A1 in election 11/04/2025, cast in WAKE and in DURHAM, the deduplicator
    keeps the DURHAM one; with A1 registered in WAKE and born in 1980 the
    QA counts are one county mismatch and no join mismatch; the age group is
    "Age 41 - 65"; the numerator has the one bucket (2025-11-04, WAKE, ...,
    Age 41 - 65) with voted_count 1, whatever the two cast counties are; and
    in general the county of a numerator bucket is the registered county of
    one of its voters. *)
Theorem end_to_end_scenario :
  forall party race ethnic sex : varchar,
    let log := Sample.a1_log (Some "WAKE") (Some "DURHAM") in
    let registry := Sample.a1_registry party race ethnic sex in
    TurnoutAll.election_of "20251104" = Some Sample.nov_2025
    /\ voted_ncids (ncvhis_election log "11/04/2025")
       = [VotedNcids.mk (Some "DURHAM") "A1"]
    /\ election_qa log registry Sample.nov_2025 = Qa.mk 1 0 1
    /\ age_group ascii_engine 2025 (Some "1980") = "Age 41 - 65"
    /\ numerator ascii_engine log registry Sample.nov_2025
       = [VotedAggregated.mk (Sample.a1_key party race ethnic sex) 1]
    /\ (forall county1 county2,
          numerator ascii_engine (Sample.a1_log county1 county2) registry
                    Sample.nov_2025
          = [VotedAggregated.mk (Sample.a1_key party race ethnic sex) 1])
    /\ (forall E ncvhis_raw ncvoter_attrs e row,
          In row (numerator E ncvhis_raw ncvoter_attrs e) ->
          exists a v,
            In a ncvoter_attrs
            /\ In v (voted_ncids (ncvhis_election ncvhis_raw (election_mmddyyyy e)))
            /\ NcvoterAttrs.ncid a = VotedNcids.ncid v
            /\ NcvoterAttrs.reg_county_desc a <> None
            /\ Bucket.county_desc (VotedAggregated.key row)
               = NcvoterAttrs.reg_county_desc a).
Proof.
  intros party race ethnic sex log registry.
  assert (Hany : forall county1 county2,
             numerator ascii_engine (Sample.a1_log county1 county2) registry
                       Sample.nov_2025
             = [VotedAggregated.mk (Sample.a1_key party race ethnic sex) 1]).
  { intros c1 c2. unfold numerator. cbn [election_iso election_year election_mmddyyyy Sample.nov_2025].
    destruct (a1_voted_ncids c1 c2) as [c ->]. apply a1_bucket. }
  split; [vm_compute; reflexivity|].
  split; [vm_compute; reflexivity|].
  split; [vm_compute; reflexivity|].
  split; [vm_compute; reflexivity|].
  split; [apply Hany|].
  split; [exact Hany|].
  intros E ncvhis_raw ncvoter_attrs e row Hrow.
  exact (numerator_county E ncvhis_raw ncvoter_attrs e row Hrow).
Qed.

(** ** Python helpers on runs of digits *)

Lemma split_digits (sep : ascii) (s : string) :
  Py.is_digit_char sep = false -> Py.all_digits s = true ->
  Py.split sep s = [s].
Proof.
  intros Hsep. induction s as [|c t IH]; simpl; intros Hd; [reflexivity|].
  apply andb_true_iff in Hd. destruct Hd as [Hc Ht].
  destruct (Ascii.eqb_spec c sep) as [->|_]; [congruence|].
  now rewrite (IH Ht).
Qed.

Lemma split_digits_app (sep : ascii) (s rest : string) :
  Py.is_digit_char sep = false -> Py.all_digits s = true ->
  Py.split sep (s ++ String sep rest) = s :: Py.split sep rest.
Proof.
  intros Hsep. induction s as [|c t IH]; simpl; intros Hd.
  - now rewrite Ascii.eqb_refl.
  - apply andb_true_iff in Hd. destruct Hd as [Hc Ht].
    destruct (Ascii.eqb_spec c sep) as [->|_]; [congruence|].
    now rewrite (IH Ht).
Qed.

Lemma all_digits_substring (n m : nat) (s : string) :
  Py.all_digits s = true -> Py.all_digits (substring n m s) = true.
Proof.
  revert n m. induction s as [|c t IH]; intros n m Hd.
  - destruct n, m; reflexivity.
  - simpl in Hd. apply andb_true_iff in Hd. destruct Hd as [Hc Ht].
    destruct n as [|n]; [destruct m as [|m]|]; simpl; auto.
    now rewrite Hc, IH.
Qed.

Lemma length_substring (n m : nat) (s : string) :
  (n + m <= String.length s)%nat -> String.length (substring n m s) = m.
Proof.
  revert n m. induction s as [|c t IH]; intros n m Hlen; simpl in Hlen.
  - destruct n, m; simpl; lia.
  - destruct n as [|n]; [destruct m as [|m]|]; simpl; auto.
    + rewrite IH; lia.
    + apply IH. lia.
Qed.

Lemma digit_not_sign (c : ascii) :
  Py.is_digit_char c = true -> c <> "+"%char /\ c <> "-"%char.
Proof. intros H. split; intros ->; discriminate. Qed.

Lemma decimal_is_digit (c : ascii) :
  AsciiText.is_digit c = true -> Py.is_digit_char c = true.
Proof. intros H. unfold Py.is_digit_char. now rewrite H. Qed.

Lemma all_decimal_digits (s : string) :
  Py.all_decimal s = true -> Py.all_digits s = true.
Proof.
  induction s as [|c t IH]; simpl; intros Hd; [reflexivity|].
  apply andb_true_iff in Hd. destruct Hd as [Hc Ht].
  now rewrite (decimal_is_digit c Hc), IH.
Qed.

Lemma zfill_digits (w : nat) (s : string) :
  Py.all_digits s = true -> String.length s = w -> Py.zfill w s = s.
Proof.
  intros Hd Hlen. unfold Py.zfill. rewrite Hlen, Nat.sub_diag. simpl.
  destruct s as [|c t]; [reflexivity|].
  simpl in Hd. apply andb_true_iff in Hd. destruct Hd as [Hc _].
  destruct (digit_not_sign c Hc) as [Hplus Hminus].
  destruct c as [[] [] [] [] [] [] [] []]; try reflexivity; congruence.
Qed.

Lemma digits_value_some (acc : Z) (s : string) :
  Py.all_decimal s = true -> exists v, AsciiText.digits_value acc s = Some v.
Proof.
  revert acc. induction s as [|c t IH]; simpl; intros acc Hd; [eauto|].
  apply andb_true_iff in Hd. destruct Hd as [Hc Ht]. rewrite Hc. now apply IH.
Qed.

Lemma digits_value_none (acc : Z) (s : string) :
  Py.all_decimal s = false -> AsciiText.digits_value acc s = None.
Proof.
  revert acc. induction s as [|c t IH]; simpl; intros acc Hd; [discriminate|].
  destruct (AsciiText.is_digit c); [now apply IH|reflexivity].
Qed.

(** On a run of [isdigit] characters [int] is the value of the decimal
    digits, and the ValueError as soon as one of them is not decimal. *)
Lemma int_of_digits (s : string) :
  Py.all_digits s = true -> s <> EmptyString ->
  Py.int s = AsciiText.digits_value 0 s.
Proof.
  intros Hd Hne. destruct s as [|c t]; [contradiction|].
  cbn [Py.all_digits] in Hd. apply andb_true_iff in Hd. destruct Hd as [Hc _].
  destruct (digit_not_sign c Hc) as [Hplus Hminus].
  unfold Py.int, AsciiText.signed.
  destruct c as [[] [] [] [] [] [] [] []]; try reflexivity; congruence.
Qed.

Lemma int_digits (s : string) :
  Py.all_decimal s = true -> s <> EmptyString -> exists v, Py.int s = Some v.
Proof.
  intros Hd Hne. rewrite int_of_digits by auto using all_decimal_digits.
  now apply digits_value_some.
Qed.

Lemma int_not_decimal (s : string) :
  Py.all_digits s = true -> Py.all_decimal s = false -> Py.int s = None.
Proof.
  intros Hd Hn. rewrite int_of_digits; [now apply digits_value_none|exact Hd|].
  intros ->. discriminate.
Qed.

Section TokenFacts.
Variable yyyymmdd : string.
Hypothesis Hrec : TurnoutAll.recognized yyyymmdd = true.

Local Abbreviation y := (Py.slice 0 4 yyyymmdd).
Local Abbreviation m := (Py.slice 4 6 yyyymmdd).
Local Abbreviation d := (Py.slice 6 8 yyyymmdd).

Lemma recognized_length : String.length yyyymmdd = 8%nat.
Proof.
  unfold TurnoutAll.recognized in Hrec.
  rewrite andb_true_iff, Nat.eqb_eq in Hrec. tauto.
Qed.

Lemma recognized_digits : Py.all_digits yyyymmdd = true.
Proof.
  unfold TurnoutAll.recognized in Hrec.
  rewrite andb_true_iff in Hrec. destruct Hrec as [_ Hdig].
  destruct yyyymmdd; [discriminate|exact Hdig].
Qed.

Lemma year_digits : Py.all_digits y = true /\ String.length y = 4%nat.
Proof.
  pose proof recognized_length. pose proof recognized_digits. split.
  - now apply all_digits_substring.
  - apply length_substring. lia.
Qed.

(** The label and the ISO date of a recognized token are its slices. *)
Lemma iso_of_recognized :
  mmddyyyy_to_iso (yyyymmdd_to_mmddyyyy yyyymmdd)
  = Some (y ++ "-" ++ m ++ "-" ++ d).
Proof.
  pose proof recognized_length as Hlen. pose proof recognized_digits as Hd.
  destruct year_digits as [Hy Hly].
  assert (Hm : Py.all_digits m = true) by now apply all_digits_substring.
  assert (Hdd : Py.all_digits d = true) by now apply all_digits_substring.
  assert (Hlm : String.length m = 2%nat) by (apply length_substring; lia).
  assert (Hld : String.length d = 2%nat) by (apply length_substring; lia).
  unfold mmddyyyy_to_iso, yyyymmdd_to_mmddyyyy.
  change (m ++ "/" ++ d ++ "/" ++ y) with (m ++ String "/" (d ++ String "/" y)).
  rewrite split_digits_app, split_digits_app, split_digits by auto.
  now rewrite !zfill_digits by auto.
Qed.

(** The election of a recognized token stands and falls with [int] on the
    first four characters. *)
Lemma election_of_year :
  TurnoutAll.election_of yyyymmdd
  = option_map (mk_election (yyyymmdd_to_mmddyyyy yyyymmdd)
                            (y ++ "-" ++ m ++ "-" ++ d))
               (Py.int y).
Proof.
  destruct year_digits as [Hy _].
  unfold TurnoutAll.election_of. rewrite iso_of_recognized.
  change (y ++ "-" ++ m ++ "-" ++ d) with (y ++ String "-" (m ++ "-" ++ d)).
  rewrite split_digits_app by auto. cbn [hd].
  destruct (Py.int y); reflexivity.
Qed.

(** With a year of decimal digits the token yields its election. *)
Lemma election_of_recognized :
  Py.all_decimal y = true ->
  exists e,
    TurnoutAll.election_of yyyymmdd = Some e
    /\ election_mmddyyyy e = yyyymmdd_to_mmddyyyy yyyymmdd
    /\ election_iso e = y ++ "-" ++ m ++ "-" ++ d.
Proof.
  intros Hdec. destruct year_digits as [_ Hly].
  destruct (int_digits Hdec) as [year Hyear].
  { intros Hnil. rewrite Hnil in Hly. discriminate. }
  rewrite election_of_year, Hyear. eexists. split; [reflexivity|]. auto.
Qed.

(** With a digit in the year that is not decimal, [int] raises. *)
Lemma election_of_raises :
  Py.all_decimal y = false -> TurnoutAll.election_of yyyymmdd = None.
Proof.
  intros Hdec. destruct year_digits as [Hy _].
  now rewrite election_of_year, int_not_decimal.
Qed.

Lemma election_of_iso (e : election) :
  TurnoutAll.election_of yyyymmdd = Some e ->
  election_mmddyyyy e = yyyymmdd_to_mmddyyyy yyyymmdd
  /\ election_iso e = y ++ "-" ++ m ++ "-" ++ d.
Proof.
  rewrite election_of_year. destruct (Py.int y); [|discriminate].
  intros H. injection H as <-. auto.
Qed.
End TokenFacts.

(** ** Multi-election controller *)

Lemma sorted_perm (paths : list string) : Permutation (Py.sorted paths) paths.
Proof. apply order_by_perm. Qed.


Lemma in_elections (files : list string) (p : string) (e : election) :
  In (p, e) (TurnoutAll.elections files)
  <-> In p files /\ TurnoutAll.discovered_election p = Some e.
Proof.
  unfold TurnoutAll.elections. rewrite in_flat_map. split.
  - intros [p' [Hp' Hin]].
    destruct (TurnoutAll.discovered_election p') as [e'|] eqn:He'; [|destruct Hin].
    destruct Hin as [Heq|[]]. inversion Heq; subst. auto.
  - intros [Hp He]. exists p. split; [exact Hp|]. rewrite He. now left.
Qed.

Section RunFacts.
Variable E : engine.
Variable ncvhis_raw : list Ncvhis.row.
Variable ncvoter_attrs : list NcvoterAttrs.row.
Variable voter_stats_raw : string -> list VoterStats.row.

Local Abbreviation loop :=
  (TurnoutAll.loop E ncvhis_raw ncvoter_attrs voter_stats_raw).
Local Abbreviation rows_of :=
  (TurnoutAll.rows_of E ncvhis_raw ncvoter_attrs voter_stats_raw).
Local Abbreviation qa_of := (TurnoutAll.qa_of ncvhis_raw ncvoter_attrs).
Local Abbreviation lines_of := (TurnoutAll.lines_of ncvhis_raw ncvoter_attrs).

(** A file whose token is not recognized leaves the tables as they are. *)
Lemma loop_skip (p : string) (rest : list string) (st : TurnoutAll.state) :
  TurnoutAll.recognized (TurnoutAll.date_token (Py.name p)) = false ->
  loop (p :: rest) st = loop rest (TurnoutAll.skip (Py.name p) st).
Proof. intros H. simpl. now rewrite H. Qed.

Lemma discovered_election_build (p : string) (e : election) :
  TurnoutAll.recognized (TurnoutAll.date_token (Py.name p)) = true ->
  TurnoutAll.election_of (TurnoutAll.date_token (Py.name p)) = Some e ->
  TurnoutAll.discovered_election p = Some e.
Proof.
  intros Hrec He. unfold TurnoutAll.discovered_election. now rewrite Hrec.
Qed.

(** The loop is left with ValueError as soon as one file raises. *)
Lemma loop_raises (files : list string) (st : TurnoutAll.state) :
  existsb TurnoutAll.raises files = true -> loop files st = None.
Proof.
  revert st. induction files as [|p rest IH]; intros st; [discriminate|].
  cbn [existsb TurnoutAll.loop]. unfold TurnoutAll.raises at 1.
  destruct (TurnoutAll.recognized (TurnoutAll.date_token (Py.name p))).
  - destruct (TurnoutAll.election_of (TurnoutAll.date_token (Py.name p)));
      cbn [negb andb orb is_null]; [|reflexivity].
    apply IH.
  - cbn [negb andb orb]. apply IH.
Qed.

(** When no file raises, the loop ends: it has appended, file by file, the
    rows of the recognized files and the lines of all of them. *)
Lemma loop_spec (files : list string) (st : TurnoutAll.state) :
  existsb TurnoutAll.raises files = false ->
  loop files st
  = Some (TurnoutAll.mk_state
            (TurnoutAll.turnout_all st
               ++ flat_map rows_of (TurnoutAll.elections files))
            (TurnoutAll.qa_rows st ++ map qa_of (TurnoutAll.elections files))
            (TurnoutAll.stdout st ++ flat_map lines_of files)).
Proof.
  revert st. induction files as [|p rest IH]; intros st Hno.
  - simpl. rewrite !app_nil_r. now destruct st.
  - cbn [existsb] in Hno. apply orb_false_iff in Hno. destruct Hno as [Hp Hrest].
    assert (Hels : TurnoutAll.elections (p :: rest)
                   = (match TurnoutAll.discovered_election p with
                      | Some e => [(p, e)]
                      | None => []
                      end ++ TurnoutAll.elections rest)%list) by reflexivity.
    rewrite Hels. cbn [TurnoutAll.loop flat_map].
    unfold TurnoutAll.raises in Hp.
    destruct (TurnoutAll.recognized (TurnoutAll.date_token (Py.name p))) eqn:Hrec.
    + destruct (TurnoutAll.election_of (TurnoutAll.date_token (Py.name p)))
        as [e|] eqn:He; [|discriminate Hp].
      pose proof (discovered_election_build p Hrec He) as Hd.
      unfold TurnoutAll.lines_of at 1. rewrite Hd. cbn [negb].
      rewrite IH by exact Hrest. unfold TurnoutAll.build.
      cbn [TurnoutAll.turnout_all TurnoutAll.qa_rows TurnoutAll.stdout].
      cbn [app map flat_map]. rewrite ?app_nil_r, <- ?app_assoc. reflexivity.
    + assert (Hd : TurnoutAll.discovered_election p = None).
      { unfold TurnoutAll.discovered_election. now rewrite Hrec. }
      unfold TurnoutAll.lines_of at 1. rewrite Hd. cbn [negb].
      rewrite IH by exact Hrest. unfold TurnoutAll.skip.
      cbn [TurnoutAll.turnout_all TurnoutAll.qa_rows TurnoutAll.stdout].
      cbn [app map flat_map]. rewrite <- ?app_assoc. reflexivity.
Qed.

Lemma existsb_perm (A : Type) (f : A -> bool) (l l' : list A) :
  Permutation l l' -> existsb f l = existsb f l'.
Proof.
  intros HP. destruct (existsb f l') eqn:H'.
  - apply existsb_exists in H'. destruct H' as [x [Hx Hf]].
    apply existsb_exists. exists x. split; [|exact Hf].
    eapply Permutation_in; [apply Permutation_sym, HP|exact Hx].
  - destruct (existsb f l) eqn:H; [|reflexivity].
    apply existsb_exists in H. destruct H as [x [Hx Hf]].
    assert (Ht : existsb f l' = true).
    { apply existsb_exists. exists x. split; [|exact Hf].
      eapply Permutation_in; [apply HP|exact Hx]. }
    congruence.
Qed.

Lemma raises_sorted (globbed : list string) :
  existsb TurnoutAll.raises (Py.sorted globbed)
  = existsb TurnoutAll.raises globbed.
Proof. apply existsb_perm, sorted_perm. Qed.

Lemma elections_sorted_nil (globbed : list string) :
  TurnoutAll.elections (Py.sorted globbed) = []
  <-> TurnoutAll.elections globbed = [].
Proof.
  assert (HP : Permutation (TurnoutAll.elections (Py.sorted globbed))
                           (TurnoutAll.elections globbed))
    by (apply Permutation_flat_map, sorted_perm).
  split; intros H; rewrite H in HP.
  - now apply Permutation_nil in HP.
  - now apply Permutation_sym, Permutation_nil in HP.
Qed.

(** The run is left with ValueError when a discovered file raises. *)
Lemma main_raises (voter_stats_glob : string) (globbed : list string) :
  existsb TurnoutAll.raises globbed = true ->
  TurnoutAll.main E ncvhis_raw ncvoter_attrs voter_stats_raw voter_stats_glob globbed
  = TurnoutAll.ValueError.
Proof.
  intros Hr. unfold TurnoutAll.main. rewrite <- raises_sorted in Hr.
  destruct (Py.sorted globbed) as [|p rest] eqn:Hs; [discriminate|].
  now rewrite loop_raises.
Qed.

(** With no raising file and at least one election built, the run writes
    its two files. *)
Lemma main_spec (voter_stats_glob : string) (globbed : list string) :
  existsb TurnoutAll.raises globbed = false ->
  TurnoutAll.elections globbed <> [] ->
  TurnoutAll.main E ncvhis_raw ncvoter_attrs voter_stats_raw voter_stats_glob globbed
  = TurnoutAll.Finished
      (TurnoutAll.export
         (flat_map rows_of (TurnoutAll.elections (Py.sorted globbed))))
      (map qa_of (TurnoutAll.elections (Py.sorted globbed)))
      (flat_map lines_of (Py.sorted globbed)
         ++ [TurnoutAll.Ok_combined; TurnoutAll.Ok_qa]).
Proof.
  intros Hno Hne. unfold TurnoutAll.main.
  rewrite <- raises_sorted in Hno. rewrite <- elections_sorted_nil in Hne.
  destruct (Py.sorted globbed) as [|p rest] eqn:Hs; [now elim Hne|].
  rewrite loop_spec by exact Hno.
  cbn [TurnoutAll.qa_rows TurnoutAll.turnout_all TurnoutAll.stdout
       TurnoutAll.initial app].
  destruct (TurnoutAll.elections (p :: rest)) as [|pe els]; [now elim Hne|].
  reflexivity.
Qed.

(** With every discovered file skipped, the run gets to [executemany]
    with no QA row. *)
Lemma main_all_skipped (voter_stats_glob : string) (globbed : list string) :
  globbed <> [] ->
  existsb TurnoutAll.raises globbed = false ->
  TurnoutAll.elections globbed = [] ->
  TurnoutAll.main E ncvhis_raw ncvoter_attrs voter_stats_raw voter_stats_glob globbed
  = TurnoutAll.Empty_qa_rows
      [] (flat_map lines_of (Py.sorted globbed) ++ [TurnoutAll.Ok_combined]).
Proof.
  intros Hne Hno Hnil. unfold TurnoutAll.main.
  rewrite <- raises_sorted in Hno. rewrite <- elections_sorted_nil in Hnil.
  destruct (Py.sorted globbed) as [|p rest] eqn:Hs.
  - pose proof (sorted_perm globbed) as HP. rewrite Hs in HP.
    apply Permutation_nil in HP. contradiction.
  - rewrite loop_spec by exact Hno. rewrite Hnil. reflexivity.
Qed.
End RunFacts.

(** *** The token of a file name *)

Lemma replace_absent (c0 : ascii) (rest new s : string) :
  Py.has_char c0 s = false -> Py.replace (String c0 rest) new s = s.
Proof.
  unfold Py.replace. induction s as [|c t IH]; intros Hno; [reflexivity|].
  cbn [Py.has_char] in Hno. apply orb_false_iff in Hno. destruct Hno as [Hc Ht].
  cbn [Py.replace_from prefix].
  destruct (ascii_dec c0 c) as [->|_]; [now rewrite Ascii.eqb_refl in Hc|].
  now rewrite (IH Ht).
Qed.

Lemma prefix_app (a b : string) : prefix a (a ++ b) = true.
Proof.
  induction a as [|c a IH]; [now destruct b|].
  cbn [append prefix]. destruct (ascii_dec c c); [exact IH|congruence].
Qed.

Lemma replace_from_skip (old new r s : string) :
  Py.replace_from old new (String.length r) (r ++ s) = Py.replace_from old new 0 s.
Proof. induction r as [|c r IH]; [reflexivity|exact IH]. Qed.

(** A match at the start of the text is replaced and the scan goes on
    after it. *)
Lemma replace_from_prefix (c : ascii) (r new s : string) :
  Py.replace_from (String c r) new 0 (String c r ++ s)
  = new ++ Py.replace_from (String c r) new 0 s.
Proof.
  pose proof (prefix_app (String c r) s) as Hp.
  change (String c r ++ s) with (String c (r ++ s)) in *.
  cbn [Py.replace_from]. rewrite Hp.
  cbn [String.length]. rewrite Nat.sub_succ, Nat.sub_0_r.
  now rewrite replace_from_skip.
Qed.

Lemma has_char_app (c : ascii) (a b : string) :
  Py.has_char c (a ++ b) = Py.has_char c a || Py.has_char c b.
Proof.
  induction a as [|x a IH]; simpl; [reflexivity|]. now rewrite IH, orb_assoc.
Qed.

Lemma replace_txt_suffix (mid : string) :
  Py.has_char "." mid = false -> Py.replace ".txt" "" (mid ++ ".txt") = mid.
Proof.
  unfold Py.replace. induction mid as [|c t IH]; intros Hno; [reflexivity|].
  cbn [Py.has_char] in Hno. apply orb_false_iff in Hno. destruct Hno as [Hc Ht].
  change ((String c t) ++ ".txt") with (String c (t ++ ".txt")).
  cbn [Py.replace_from prefix].
  destruct (ascii_dec "." c) as [<-|_]; [discriminate|].
  now rewrite (IH Ht).
Qed.

(** For a name voter_stats_<mid>.txt whose middle part has no "v" and no
    ".", the token is the middle part. *)
Lemma date_token_plain (mid : string) :
  Py.has_char "v" mid = false -> Py.has_char "." mid = false ->
  TurnoutAll.date_token ("voter_stats_" ++ mid ++ ".txt") = mid.
Proof.
  intros Hv Hdot. unfold TurnoutAll.date_token.
  assert (H1 : Py.replace "voter_stats_" "" ("voter_stats_" ++ mid ++ ".txt")
               = Py.replace "voter_stats_" "" (mid ++ ".txt"))
    by (unfold Py.replace; now rewrite replace_from_prefix).
  rewrite H1, (@replace_absent "v" "oter_stats_" "" (mid ++ ".txt")).
  - now apply replace_txt_suffix.
  - rewrite has_char_app, Hv. reflexivity.
Qed.

Lemma digits_have_no (c : ascii) (s : string) :
  Py.is_digit_char c = false -> Py.all_digits s = true -> Py.has_char c s = false.
Proof.
  intros Hc. induction s as [|x t IH]; simpl; intros Hd; [reflexivity|].
  apply andb_true_iff in Hd. destruct Hd as [Hx Ht].
  rewrite (IH Ht), orb_false_r. apply Ascii.eqb_neq. congruence.
Qed.

(** A file named voter_stats_YYYYMMDD.txt is recognized. *)
Lemma well_formed_name_recognized (yyyymmdd : string) :
  String.length yyyymmdd = 8%nat -> Py.all_digits yyyymmdd = true ->
  TurnoutAll.date_token ("voter_stats_" ++ yyyymmdd ++ ".txt") = yyyymmdd
  /\ TurnoutAll.recognized
       (TurnoutAll.date_token ("voter_stats_" ++ yyyymmdd ++ ".txt")) = true.
Proof.
  intros Hlen Hd.
  rewrite date_token_plain by (now apply digits_have_no).
  split; [reflexivity|]. unfold TurnoutAll.recognized. rewrite Hlen.
  destruct yyyymmdd; [discriminate|]. exact Hd.
Qed.

(** C7, on the file-name check of the multi-election controller.  With no
    census file discovered the controller ends with SystemExit before any
    election is processed, and a file whose token fails the check
    [len(yyyymmdd) != 8 or not yyyymmdd.isdigit()] is skipped: the loop
    goes on with the remaining files from a state that differs only by the
    warning line, as for the file voter_stats_notadate.txt.  But the check
    lets through a name that carries no date: the token of the file
    voter_stats_<eight times U+00B2>.txt has eight characters and is
    [isdigit], so the file is not skipped; [int] then raises ValueError on
    its first four characters, the loop is left, no warning is printed for
    the file, and a run that discovers it writes nothing, whatever
    well-formed files stand beside it.  And since the token is the name
    with every "voter_stats_" and ".txt" taken out, the file
    voter_stats_2025.txt1104.txt is built as the election of 11/04/2025. *)
Theorem isdigit_token_aborts_run :
  forall (E : engine) (ncvhis_raw : list Ncvhis.row)
         (ncvoter_attrs : list NcvoterAttrs.row)
         (voter_stats_raw : string -> list VoterStats.row)
         (voter_stats_glob : string),
    TurnoutAll.main E ncvhis_raw ncvoter_attrs voter_stats_raw voter_stats_glob []
    = TurnoutAll.SystemExit (TurnoutAll.no_files_message voter_stats_glob)
    /\ (forall p rest st,
          TurnoutAll.recognized (TurnoutAll.date_token (Py.name p)) = false ->
          TurnoutAll.loop E ncvhis_raw ncvoter_attrs voter_stats_raw (p :: rest) st
          = TurnoutAll.loop E ncvhis_raw ncvoter_attrs voter_stats_raw rest
                            (TurnoutAll.skip (Py.name p) st)
          /\ TurnoutAll.turnout_all (TurnoutAll.skip (Py.name p) st)
             = TurnoutAll.turnout_all st
          /\ TurnoutAll.qa_rows (TurnoutAll.skip (Py.name p) st)
             = TurnoutAll.qa_rows st
          /\ TurnoutAll.stdout (TurnoutAll.skip (Py.name p) st)
             = (TurnoutAll.stdout st ++ [TurnoutAll.Warn_skipping (Py.name p)])%list)
    /\ TurnoutAll.recognized (TurnoutAll.date_token "voter_stats_notadate.txt") = false
    /\ TurnoutAll.main ascii_engine Sample.log2 Sample.registry2
         (fun _ => Sample.census) Sample.census_glob
         ["data/raw/voter_stats/voter_stats_notadate.txt"; Sample.census_path]
       = TurnoutAll.Finished
           [ Turnout.mk (Sample.key "DEM") 10 1 (Some (1 # 10)%Q) ]
           [ Qa.mk_summary "2025-11-04" "11/04/2025" 2 0 (0 # 2)%Q 0 (0 # 2)%Q ]
           [ TurnoutAll.Info_building "2025-11-04" "voter_stats_20251104.txt";
             TurnoutAll.Info_voted 2;
             TurnoutAll.Info_join_mismatches 0 (0 # 2)%Q;
             TurnoutAll.Info_county_mismatches 0 (0 # 2)%Q;
             TurnoutAll.Warn_skipping "voter_stats_notadate.txt";
             TurnoutAll.Ok_combined; TurnoutAll.Ok_qa ]
    /\ TurnoutAll.date_token (Py.name Sample.census_path_squared) = Sample.squared
    /\ String.length Sample.squared = 8%nat
    /\ Py.isdigit Sample.squared = true
    /\ TurnoutAll.recognized Sample.squared = true
    /\ Py.int (Py.slice 0 4 Sample.squared) = None
    /\ TurnoutAll.election_of Sample.squared = None
    /\ (forall rest st,
          TurnoutAll.loop E ncvhis_raw ncvoter_attrs voter_stats_raw
                          (Sample.census_path_squared :: rest) st = None)
    /\ (forall globbed,
          In Sample.census_path_squared globbed ->
          TurnoutAll.main E ncvhis_raw ncvoter_attrs voter_stats_raw
                          voter_stats_glob globbed
          = TurnoutAll.ValueError)
    /\ TurnoutAll.main ascii_engine Sample.log2 Sample.registry2
         (fun _ => Sample.census) Sample.census_glob
         [Sample.census_path_squared; Sample.census_path]
       = TurnoutAll.ValueError
    /\ TurnoutAll.date_token (Py.name Sample.census_path_cut) = "20251104"
    /\ TurnoutAll.discovered_election Sample.census_path_cut
       = Some Sample.nov_2025.
Proof.
  intros E ncvhis_raw ncvoter_attrs voter_stats_raw voter_stats_glob.
  assert (Hraises : TurnoutAll.raises Sample.census_path_squared = true)
    by (vm_compute; reflexivity).
  split; [reflexivity|].
  split.
  { intros p rest st Hrec. split; [now apply loop_skip|]. now destruct st. }
  split; [vm_compute; reflexivity|].
  split; [vm_compute; reflexivity|].
  split; [vm_compute; reflexivity|].
  split; [reflexivity|].
  split; [reflexivity|].
  split; [reflexivity|].
  split; [reflexivity|].
  split; [vm_compute; reflexivity|].
  split.
  { intros rest st. apply loop_raises. cbn [existsb]. now rewrite Hraises. }
  split.
  { intros globbed Hin. apply main_raises. apply existsb_exists.
    exists Sample.census_path_squared. auto. }
  repeat split; vm_compute; reflexivity.
Qed.

(** ** The order of the exported table *)













Section ExportFacts.
Variable E : engine.
Variable ncvhis_raw : list Ncvhis.row.
Variable ncvoter_attrs : list NcvoterAttrs.row.
Variable voter_stats_raw : string -> list VoterStats.row.

Local Abbreviation rows_of :=
  (TurnoutAll.rows_of E ncvhis_raw ncvoter_attrs voter_stats_raw).



End ExportFacts.



(** * The theorems at the sample data *)

Lemma turnout_null_law_witness :
  In (Turnout.mk (Sample.key "DEM") 10 1 (Some (1 # 10)%Q))
     (reconcile ascii_engine Sample.log2 Sample.registry2 Sample.census
                Sample.nov_2025)
  /\ exists q,
       Turnout.turnout_rate (Turnout.mk (Sample.key "DEM") 10 1 (Some (1 # 10)%Q))
       = Some q
       /\ (q == inject_Z 1 / inject_Z 10)%Q.
Proof.
  assert (Hin : In (Turnout.mk (Sample.key "DEM") 10 1 (Some (1 # 10)%Q))
                   (reconcile ascii_engine Sample.log2 Sample.registry2
                              Sample.census Sample.nov_2025))
    by (vm_compute; left; reflexivity).
  split; [exact Hin|].
  destruct (turnout_null_law ascii_engine Sample.log2 Sample.registry2
                             Sample.census Sample.nov_2025) as [_ [H _]].
  apply (H _ Hin). simpl. lia.
Defined.

Lemma voted_ncids_one_row_per_voter_witness :
  exists c, Some "DURHAM" = Some c /\ String.leb c "WAKE" = true.
Proof.
  destruct (voted_ncids_one_row_per_voter
              (Sample.a1_log (Some "WAKE") (Some "DURHAM")))
    as [_ [_ [_ [_ [H _]]]]].
  apply (H (VotedNcids.mk (Some "DURHAM") "A1")
           (Ncvhis.mk (Some "WAKE") "11/04/2025" "A1") "WAKE").
  - vm_compute. left. reflexivity.
  - simpl. left. reflexivity.
  - reflexivity.
  - reflexivity.
Defined.

Lemma age_group_precedence_witness :
  age_group ascii_engine 2025 (Some "2007") = age_18_25.
Proof.
  destruct (age_group_precedence ascii_engine 2025 (Some "2007"))
    as [_ [_ [_ [H _]]]].
  destruct (H "2007" 2007) as [_ [H18 _]].
  - reflexivity.
  - vm_compute. discriminate.
  - vm_compute. reflexivity.
  - apply H18. lia.
Defined.

Lemma qa_rates_witness :
  Qa.county_mismatch_rate
    (Qa.qa (voted_joined [VotedNcids.mk (Some "DURHAM") "A1"]
                         (Sample.a1_registry None None None None)))
  = (inject_Z 1 / inject_Z (1 - 0))%Q.
Proof.
  destruct (qa_rates [VotedNcids.mk (Some "DURHAM") "A1"]
                     (Sample.a1_registry None None None None))
    as [_ [_ [_ [H _]]]].
  apply H. vm_compute. discriminate.
Defined.

Lemma end_to_end_scenario_witness :
  exists a v,
    In a (Sample.a1_registry None None None None)
    /\ In v (voted_ncids
               (ncvhis_election (Sample.a1_log (Some "WAKE") (Some "DURHAM"))
                                "11/04/2025"))
    /\ NcvoterAttrs.ncid a = VotedNcids.ncid v
    /\ NcvoterAttrs.reg_county_desc a <> None
    /\ Some "WAKE" = NcvoterAttrs.reg_county_desc a.
Proof.
  destruct (end_to_end_scenario None None None None)
    as [_ [_ [_ [_ [_ [_ H]]]]]].
  apply (H ascii_engine (Sample.a1_log (Some "WAKE") (Some "DURHAM"))
           (Sample.a1_registry None None None None) Sample.nov_2025
           (VotedAggregated.mk (Sample.a1_key None None None None) 1)).
  vm_compute. left. reflexivity.
Defined.



Lemma registry_fan_out_witness :
  joined_rows (voted_joined (voted_ncids Sample.log1) Sample.registry_twice) "A1"
  = copies Sample.registry_twice "A1"
  /\ (List.length (voted_ncids Sample.log1)
      < List.length (voted_joined (voted_ncids Sample.log1) Sample.registry_twice))%nat
  /\ Z.of_nat (List.length (voted_ncids Sample.log1))
     < Qa.total_voted
         (Qa.qa (voted_joined (voted_ncids Sample.log1) Sample.registry_twice)).
Proof.
  destruct (registry_fan_out Sample.log1 Sample.registry_twice) as [_ [_ [H _]]].
  apply (H "A1").
  - simpl. left. reflexivity.
  - vm_compute. lia.
Defined.

Lemma voted_ncids_deterministic_witness :
  Permutation
    (voted_ncids_by (order_by by_county_desc)
                    (Sample.a1_log (Some "WAKE") (Some "DURHAM")))
    (voted_ncids_by (fun p => order_by by_county_desc (rev p))
                    (Sample.a1_log (Some "DURHAM") (Some "WAKE"))).
Proof.
  destruct voted_ncids_deterministic as [_ [_ H]].
  apply H.
  - exact order_by_orders_by_county.
  - exact order_by_rev_orders_by_county.
  - apply perm_swap.
Defined.

(** * Further properties of the drivers *)

(** ** Grouping conserves sums *)

Lemma sum_cons (A : Type) (col : A -> Z) (x : A) (l : list A) :
  Sql.sum col (x :: l) = col x + Sql.sum col l.
Proof. reflexivity. Qed.

Lemma sum_zero (A : Type) (l : list A) : Sql.sum (fun _ => 0) l = 0.
Proof. induction l as [|x t IH]; [reflexivity|]. now rewrite sum_cons, IH. Qed.

Lemma sum_ones (A : Type) (l : list A) :
  Sql.sum (fun _ => 1) l = Z.of_nat (List.length l).
Proof.
  induction l as [|x t IH]; [reflexivity|].
  rewrite sum_cons, IH. cbn [List.length]. lia.
Qed.

Lemma sum_ext (A : Type) (f g : A -> Z) (l : list A) :
  (forall x, In x l -> f x = g x) -> Sql.sum f l = Sql.sum g l.
Proof.
  induction l as [|x t IH]; intros H; [reflexivity|].
  rewrite !sum_cons, (H x (or_introl eq_refl)), IH; auto.
  intros y Hy. apply H. now right.
Qed.

Lemma sum_plus (A : Type) (f g : A -> Z) (l : list A) :
  Sql.sum (fun x => f x + g x) l = Sql.sum f l + Sql.sum g l.
Proof.
  induction l as [|x t IH]; [reflexivity|].
  rewrite !sum_cons, IH. lia.
Qed.

Section GroupFacts.
Variables (A K : Type) (eqb : K -> K -> bool).
Hypothesis eqb_spec : forall a b, reflect (a = b) (eqb a b).
Variable key : A -> K.

Lemma sum_indicator (D : list K) (x : K) (c : Z) :
  NoDup D -> In x D -> Sql.sum (fun k => if eqb k x then c else 0) D = c.
Proof.
  induction 1 as [|k D Hnotin Hnd IH]; intros Hin; [contradiction|].
  rewrite sum_cons. destruct Hin as [->|Hin].
  - destruct (eqb_spec x x); [|congruence].
    rewrite (@sum_ext _ _ (fun _ => 0)).
    + rewrite sum_zero. lia.
    + intros y Hy. destruct (eqb_spec y x); [congruence|reflexivity].
  - destruct (eqb_spec k x); [congruence|]. rewrite IH; auto.
Qed.

Lemma sum_over_keys (col : A -> Z) (rows : list A) (D : list K) :
  NoDup D -> (forall r, In r rows -> In (key r) D) ->
  Sql.sum (fun k => Sql.sum col (filter (fun r => eqb k (key r)) rows)) D
  = Sql.sum col rows.
Proof.
  intros Hnd. induction rows as [|r t IH]; intros Hin.
  - cbn [filter]. apply sum_zero.
  - rewrite (@sum_ext _ _ (fun k => (if eqb k (key r) then col r else 0)
                                    + Sql.sum col (filter (fun r0 => eqb k (key r0)) t))).
    + rewrite sum_plus, sum_indicator, IH, sum_cons; auto.
      * intros x Hx. apply Hin. now right.
      * apply Hin. now left.
    + intros k _. cbn [filter].
      destruct (eqb k (key r)); [now rewrite sum_cons|lia].
Qed.

(** The groups of a GROUP BY share out the rows: a sum over the table is
    the sum of the sums over its groups. *)
Lemma group_by_sum (col : A -> Z) (rows : list A) :
  Sql.sum (fun g => Sql.sum col (snd g)) (group_by eqb key rows)
  = Sql.sum col rows.
Proof.
  unfold group_by. rewrite sum_map. simpl.
  apply sum_over_keys.
  - now apply NoDup_distinct.
  - intros r Hr. apply (In_distinct _ eqb_spec). now apply in_map.
Qed.

(** A group is the set of rows with its key, and it is never empty. *)
Lemma group_by_group (rows : list A) (g : K * list A) :
  In g (group_by eqb key rows) ->
  snd g = filter (fun r => eqb (fst g) (key r)) rows
  /\ exists r, In r rows /\ key r = fst g.
Proof.
  unfold group_by. rewrite in_map_iff. intros [k [<- Hk]]. simpl.
  split; [reflexivity|]. rewrite (In_distinct _ eqb_spec), in_map_iff in Hk.
  destruct Hk as [r [Hr Hin]]. eauto.
Qed.
End GroupFacts.

Lemma filter_negb_length (A : Type) (p : A -> bool) (l : list A) :
  (List.length (filter p l) + List.length (filter (fun x => negb (p x)) l)
   = List.length l)%nat.
Proof.
  induction l as [|x t IH]; [reflexivity|].
  cbn [filter]. destruct (p x); cbn [negb List.length]; lia.
Qed.

Lemma sum_filter_split (A : Type) (col : A -> Z) (p : A -> bool) (l : list A) :
  Sql.sum col l
  = Sql.sum col (filter p l) + Sql.sum col (filter (fun x => negb (p x)) l).
Proof.
  induction l as [|x t IH]; [reflexivity|].
  cbn [filter]. rewrite sum_cons, IH.
  destruct (p x); cbn [negb]; rewrite sum_cons; lia.
Qed.

Lemma coalesce_sum_or_null (A : Type) (col : A -> Z) (l : list A) :
  coalesce (sum_or_null col l) 0 = Sql.sum col l.
Proof. destruct l; reflexivity. Qed.

(** ** Denominator builder *)

(** X1. Re-aggregating the census conserves it: the registered counts of
    the denominator add up to the [total_voters] of the census rows of type
    'voter' for the election label, whatever the number of rows (precincts)
    a bucket is split over. *)
Theorem denominator_totals :
  forall (E : engine) (election_iso election_mmddyyyy : string)
         (voter_stats_raw : list VoterStats.row),
    Sql.sum Denominator.registered_count
            (voter_stats_denominator E election_iso election_mmddyyyy voter_stats_raw)
    = Sql.sum VoterStats.total_voters
              (filter (is_voter_stat E election_mmddyyyy) voter_stats_raw).
Proof.
  intros E iso lbl raw. unfold voter_stats_denominator.
  rewrite sum_map. cbn [Denominator.registered_count].
  apply (group_by_sum _ bucket_same_spec).
Qed.

(** X2. A denominator bucket carries the ISO date of the election, stands
    for at least one census row, and its registered count is the sum of
    [total_voters] over the census rows with its seven-column key (NULLs
    grouped together); every census row of type 'voter' for the election
    label falls in some bucket. *)
Theorem denominator_bucket :
  forall (E : engine) (election_iso election_mmddyyyy : string)
         (voter_stats_raw : list VoterStats.row),
    (forall d,
        In d (voter_stats_denominator E election_iso election_mmddyyyy voter_stats_raw) ->
        Denominator.registered_count d
        = Sql.sum VoterStats.total_voters
                  (census_rows_of E election_iso election_mmddyyyy voter_stats_raw
                                  (Denominator.key d))
        /\ census_rows_of E election_iso election_mmddyyyy voter_stats_raw
                          (Denominator.key d) <> []
        /\ Bucket.election_date (Denominator.key d) = Some election_iso)
    /\ (forall r,
          In r voter_stats_raw -> is_voter_stat E election_mmddyyyy r = true ->
          exists d,
            In d (voter_stats_denominator E election_iso election_mmddyyyy
                                          voter_stats_raw)
            /\ Denominator.key d = stats_key election_iso r).
Proof.
  intros E iso lbl raw. split.
  - intros d Hd. unfold voter_stats_denominator in Hd.
    apply in_map_iff in Hd. destruct Hd as [g [<- Hg]].
    destruct (group_by_group _ bucket_same_spec _ _ _ Hg) as [Hsnd [r [Hr Hkey]]].
    cbn [Denominator.registered_count Denominator.key].
    unfold census_rows_of. rewrite <- Hsnd. split; [reflexivity|]. split.
    + rewrite Hsnd. intros Hnil.
      assert (Hin : In r (filter (fun r0 => Bucket.same (fst g) (stats_key iso r0))
                                 (filter (is_voter_stat E lbl) raw))).
      { apply filter_In. split; [exact Hr|].
        rewrite Hkey. destruct (bucket_same_spec (fst g) (fst g)); congruence. }
      rewrite Hnil in Hin. exact Hin.
    + rewrite <- Hkey. reflexivity.
  - intros r Hr Hv.
    assert (Hk : In (stats_key iso r)
                    (map Denominator.key (voter_stats_denominator E iso lbl raw))).
    { rewrite voter_stats_denominator_keys, (In_distinct _ bucket_same_spec).
      apply in_map. apply filter_In. auto. }
    apply in_map_iff in Hk. destruct Hk as [d [Hd Hin]]. eauto.
Qed.

(** ** Bucket aggregator *)

Lemma voted_clean_length (voted_joined : list VotedJoined.row) :
  Z.of_nat (List.length (voted_clean voted_joined))
  = Qa.total_voted (Qa.qa voted_joined) - Qa.join_mismatches (Qa.qa voted_joined).
Proof.
  unfold voted_clean, Qa.qa. cbn [Qa.total_voted Qa.join_mismatches].
  rewrite length_map, count_filter_true. unfold count_filter.
  pose proof (filter_negb_length Qa.is_join_mismatch voted_joined) as H.
  unfold Qa.is_join_mismatch in *. lia.
Qed.

(** X3. Every ballot that found a registered county is counted in exactly
    one numerator bucket: the voted counts of the numerator add up to
    total_voted - join_mismatches of the QA row, and no numerator bucket
    is empty. *)
Theorem numerator_total :
  forall (E : engine) (ncvhis_raw : list Ncvhis.row)
         (ncvoter_attrs : list NcvoterAttrs.row) (e : election),
    Sql.sum VotedAggregated.voted_count (numerator E ncvhis_raw ncvoter_attrs e)
    = Qa.total_voted (election_qa ncvhis_raw ncvoter_attrs e)
      - Qa.join_mismatches (election_qa ncvhis_raw ncvoter_attrs e)
    /\ forall row, In row (numerator E ncvhis_raw ncvoter_attrs e) ->
                   1 <= VotedAggregated.voted_count row.
Proof.
  intros E ncvhis_raw ncvoter_attrs e. unfold numerator, election_qa. split.
  - rewrite <- voted_clean_length. unfold voted_aggregated.
    rewrite sum_map. cbn [VotedAggregated.voted_count].
    rewrite (@sum_ext _ _ (fun g => Sql.sum (fun _ => 1) (snd g)))
      by (intros g _; now rewrite sum_ones).
    rewrite (group_by_sum _ bucket_same_spec), sum_ones.
    unfold voted_with_age. now rewrite length_map.
  - intros row Hrow. unfold voted_aggregated in Hrow.
    apply in_map_iff in Hrow. destruct Hrow as [g [<- Hg]].
    destruct (group_by_group _ bucket_same_spec _ _ _ Hg) as [Hsnd [r [Hr Hkey]]].
    cbn [VotedAggregated.voted_count].
    assert (Hin : In r (snd g)).
    { rewrite Hsnd. apply filter_In. split; [exact Hr|].
      rewrite Hkey. destruct (bucket_same_spec (fst g) (fst g)); congruence. }
    destruct (snd g); [destruct Hin|]. cbn [List.length]. lia.
Qed.

(** X4. The single-election driver accounts for every deduplicated ballot:
    total_voted is the join mismatches, plus the votes of the reconciled
    table, plus the missing votes of the last check (0 when the check
    prints None). *)
Theorem votes_accounted :
  forall (E : engine) (ncvhis_raw : list Ncvhis.row)
         (ncvoter_attrs : list NcvoterAttrs.row)
         (voter_stats_raw : list VoterStats.row) (e : election),
    Qa.total_voted (election_qa ncvhis_raw ncvoter_attrs e)
    = Qa.join_mismatches (election_qa ncvhis_raw ncvoter_attrs e)
      + Sql.sum Turnout.voted_count
                (reconcile E ncvhis_raw ncvoter_attrs voter_stats_raw e)
      + coalesce (TurnoutOne.missing_votes
                    (numerator E ncvhis_raw ncvoter_attrs e)
                    (denominator E voter_stats_raw e)) 0.
Proof.
  intros E ncvhis_raw ncvoter_attrs voter_stats_raw e.
  destruct (numerator_total E ncvhis_raw ncvoter_attrs e) as [Hsum _].
  rewrite reconcile_conservation.
  rewrite missing_votes_spec by apply denominator_NoDup.
  rewrite coalesce_sum_or_null.
  rewrite (sum_filter_split VotedAggregated.voted_count
             (has_denominator (denominator E voter_stats_raw e))) in Hsum.
  lia.
Qed.

(** ** Checks of the single-election driver *)

Lemma reconcile_rows (E : engine) (ncvhis_raw : list Ncvhis.row)
    (ncvoter_attrs : list NcvoterAttrs.row)
    (voter_stats_raw : list VoterStats.row) (e : election) :
  reconcile E ncvhis_raw ncvoter_attrs voter_stats_raw e
  = map (fun d => turnout_row
                    (d, hd_error (filter (on_key d)
                                         (numerator E ncvhis_raw ncvoter_attrs e))))
        (denominator E voter_stats_raw e).
Proof. unfold reconcile. apply turnout_buckets_rows, numerator_NoDup. Qed.



Lemma inner_join_length (A B : Type) (on : A -> B -> bool)
    (a : list A) (b : list B) :
  List.length (inner_join on a b)
  = list_sum (map (fun x => List.length (filter (on x) b)) a).
Proof.
  unfold inner_join. induction a as [|x t IH]; [reflexivity|].
  cbn [flat_map]. rewrite length_app, IH, length_map. reflexivity.
Qed.

Lemma matches_count (den : list Denominator.row) (num : list VotedAggregated.row) :
  NoDup (map Denominator.key den) ->
  List.length (inner_join on_key den num)
  = List.length (filter (has_denominator den) num).
Proof.
  intros Hden. apply Nat2Z.inj. rewrite <- !sum_ones.
  unfold inner_join. induction den as [|d t IH].
  - simpl. rewrite filter_none; auto.
  - inversion Hden as [|? ? Hin Hden']; subst.
    cbn [flat_map]. rewrite sum_app, (IH Hden').
    rewrite (filter_ext (has_denominator (d :: t))
                        (fun v => on_key d v || has_denominator t v))
      by reflexivity.
    rewrite sum_filter_either.
    + f_equal. now rewrite !sum_ones, length_map.
    + intros v _ Hdv. unfold has_denominator.
      destruct (existsb (fun d' => on_key d' v) t) eqn:Hex; [|reflexivity].
      apply existsb_exists in Hex. destruct Hex as [d' [Hd' Hon']].
      exfalso. apply Hin.
      rewrite (on_key_eq _ _ Hdv), <- (on_key_eq _ _ Hon'). now apply in_map.
Qed.

Lemma positive_rows (den : list Denominator.row) (num : list VotedAggregated.row) :
  NoDup (map VotedAggregated.key num) ->
  (forall v, In v num -> 1 <= VotedAggregated.voted_count v) ->
  List.length (filter (fun r => 0 <? Turnout.voted_count r)
                      (turnout_buckets den num))
  = List.length (inner_join on_key den num).
Proof.
  intros Hnum Hpos. rewrite (turnout_buckets_rows den num Hnum).
  unfold inner_join. induction den as [|d t IH]; [reflexivity|].
  cbn [map filter flat_map]. rewrite length_app, length_map, <- IH.
  destruct (@matches_at_most_one _ _ _ on_key Denominator.key
              VotedAggregated.key on_key_eq num d Hnum) as [Hm|[y Hm]];
    rewrite Hm; cbn [hd_error turnout_row option_map coalesce snd fst
                     Turnout.voted_count List.length].
  - reflexivity.
  - assert (Hy : In y num).
    { assert (H : In y (filter (on_key d) num)) by (rewrite Hm; now left).
      now apply filter_In in H. }
    specialize (Hpos y Hy).
    destruct (Z.ltb_spec 0 (VotedAggregated.voted_count y)); [|lia].
    reflexivity.
Qed.

(** X6. The check "exact key matches" of the single-election driver counts
    the numerator buckets that have a denominator bucket; these are as many
    as the rows of the reconciled table with a positive voted_count, and
    with the numerator buckets that have no denominator bucket they make up
    the "voted_aggregated rows" of the check before. *)
Theorem key_matches_count :
  forall (E : engine) (ncvhis_raw : list Ncvhis.row)
         (ncvoter_attrs : list NcvoterAttrs.row)
         (voter_stats_raw : list VoterStats.row) (e : election),
    let den := denominator E voter_stats_raw e in
    let num := numerator E ncvhis_raw ncvoter_attrs e in
    TurnoutOne.matches den num
    = Z.of_nat (List.length (filter (has_denominator den) num))
    /\ TurnoutOne.matches den num
       = count_filter (fun r => 0 <? Turnout.voted_count r)
                      (reconcile E ncvhis_raw ncvoter_attrs voter_stats_raw e)
    /\ Z.of_nat (List.length num)
       = TurnoutOne.matches den num
         + Z.of_nat (List.length
                       (filter (fun v => negb (has_denominator den v)) num)).
Proof.
  intros E ncvhis_raw ncvoter_attrs voter_stats_raw e den num.
  assert (Hm : TurnoutOne.matches den num
               = Z.of_nat (List.length (filter (has_denominator den) num))).
  { unfold TurnoutOne.matches. f_equal. apply matches_count.
    apply denominator_NoDup. }
  split; [exact Hm|]. split.
  - unfold TurnoutOne.matches, count_filter, reconcile. f_equal.
    symmetry. apply positive_rows; [apply numerator_NoDup|].
    apply numerator_total.
  - rewrite Hm.
    pose proof (filter_negb_length (has_denominator den) num). lia.
Qed.

(** ** Join mismatches *)

Lemma existsb_filter_nil (A : Type) (p : A -> bool) (l : list A) :
  existsb p l = false <-> filter p l = [].
Proof.
  induction l as [|x t IH]; simpl; [tauto|].
  destruct (p x); simpl; [split; discriminate|exact IH].
Qed.

Lemma left_join_split (A B : Type) (on : A -> B -> bool) (q : option B -> bool)
    (a : list A) (b : list B) :
  q None = true ->
  List.length (filter (fun xo => q (snd xo)) (left_join on a b))
  = (List.length (filter (fun x => negb (existsb (on x) b)) a)
     + List.length (filter (fun xy => q (Some (snd xy))) (inner_join on a b)))%nat.
Proof.
  intros Hq. unfold left_join, inner_join.
  induction a as [|x t IH]; [reflexivity|].
  cbn [flat_map filter]. rewrite !filter_app, !length_app, IH.
  destruct (filter (on x) b) as [|y ms] eqn:Hf.
  - assert (Hex : existsb (on x) b = false) by now apply existsb_filter_nil.
    rewrite Hex. cbn [negb map filter snd List.length]. rewrite Hq.
    cbn [List.length]. lia.
  - assert (Hex : existsb (on x) b = true).
    { destruct (existsb (on x) b) eqn:Hx; [reflexivity|].
      apply existsb_filter_nil in Hx. congruence. }
    rewrite Hex. cbn [negb].
    rewrite !filter_map_swap, !length_map. cbn [snd]. lia.
Qed.

(** X7. A ballot is a join mismatch for one of two reasons: its voter has
    no row in the registry, or the registry row it was joined to has a NULL
    registered county.  join_mismatches is the number of voters of the first
    kind plus the number of joined pairs of the second kind, and total_voted
    is the number of voters without a registry row plus the number of
    matching (ballot, registry row) pairs. *)
Theorem join_mismatch_causes :
  forall (voted : list VotedNcids.row) (ncvoter_attrs : list NcvoterAttrs.row),
    let c := Qa.qa (voted_joined voted ncvoter_attrs) in
    Qa.join_mismatches c
    = Z.of_nat (List.length (without_registry_row voted ncvoter_attrs))
      + Z.of_nat (List.length (null_county_pairs voted ncvoter_attrs))
    /\ Qa.total_voted c
       = Z.of_nat (List.length (without_registry_row voted ncvoter_attrs))
         + Z.of_nat (List.length (inner_join on_ncid voted ncvoter_attrs)).
Proof.
  intros voted attrs c. unfold c, Qa.qa, voted_joined.
  cbn [Qa.join_mismatches Qa.total_voted].
  rewrite count_filter_true, count_filter_map, length_map.
  unfold count_filter, without_registry_row, null_county_pairs.
  split.
  - rewrite <- Nat2Z.inj_add. f_equal.
    apply (left_join_split on_ncid
             (fun o => is_null (col NcvoterAttrs.reg_county_desc o))).
    reflexivity.
  - rewrite <- Nat2Z.inj_add. f_equal.
    pose proof (left_join_split on_ncid (fun _ => true) voted attrs eq_refl) as H.
    rewrite (filter_all (fun _ : VotedNcids.row * option NcvoterAttrs.row => true))
      in H by reflexivity.
    rewrite (filter_all (fun _ : VotedNcids.row * NcvoterAttrs.row => true))
      in H by reflexivity.
    exact H.
Qed.

(** ** One election at a time *)

(** X8. The deduplicated table of an election has exactly the voters with a
    vote event carrying that election's label, each with a county of one of
    these events; vote events of other elections, wherever they stand in the
    log, change nothing. *)
Theorem election_rows_only :
  forall (ncvhis_raw : list Ncvhis.row) (election_mmddyyyy : string),
    (forall n,
        In n (map VotedNcids.ncid
                  (voted_ncids (ncvhis_election ncvhis_raw election_mmddyyyy)))
        <-> exists r, In r ncvhis_raw
                      /\ Ncvhis.election_lbl r = election_mmddyyyy
                      /\ Ncvhis.ncid r = n)
    /\ (forall v,
          In v (voted_ncids (ncvhis_election ncvhis_raw election_mmddyyyy)) ->
          exists r, In r ncvhis_raw
                    /\ Ncvhis.election_lbl r = election_mmddyyyy
                    /\ Ncvhis.ncid r = VotedNcids.ncid v
                    /\ Ncvhis.county_desc r = VotedNcids.voted_county_desc v)
    /\ (forall before after,
          (forall r, In r before -> Ncvhis.election_lbl r <> election_mmddyyyy) ->
          (forall r, In r after -> Ncvhis.election_lbl r <> election_mmddyyyy) ->
          voted_ncids (ncvhis_election (before ++ ncvhis_raw ++ after)
                                       election_mmddyyyy)
          = voted_ncids (ncvhis_election ncvhis_raw election_mmddyyyy)).
Proof.
  intros raw lbl.
  assert (Hin : forall r, In r (ncvhis_election raw lbl)
                          <-> In r raw /\ Ncvhis.election_lbl r = lbl).
  { intros r. unfold ncvhis_election. now rewrite filter_In, String.eqb_eq. }
  split; [|split].
  - intros n.
    destruct (voted_ncids_one_row_per_voter_facts (ncvhis_election raw lbl))
      as [_ H]. rewrite <- H, in_map_iff. split.
    + intros [r [Hn Hr]]. apply Hin in Hr. exists r. tauto.
    + intros [r [Hr [Hl Hn]]]. exists r. split; [exact Hn|]. apply Hin. tauto.
  - intros v Hv.
    destruct (voted_ncids_by_least order_by_orders_by_county _ _ Hv)
      as [r [Hr [Hn [Hc _]]]].
    apply Hin in Hr. exists r. tauto.
  - intros before after Hb Ha. f_equal. unfold ncvhis_election.
    rewrite !filter_app.
    rewrite (@filter_none _ _ before), (@filter_none _ _ after).
    + now rewrite app_nil_r.
    + intros r Hr. apply String.eqb_neq. now apply Ha.
    + intros r Hr. apply String.eqb_neq. now apply Hb.
Qed.

(** ** QA rates *)

Lemma truediv_bounds (a b : Z) :
  0 <= a <= b -> 0 < b -> (0 <= Qa.truediv a b <= 1)%Q.
Proof.
  intros Hab Hb. unfold Qa.truediv.
  assert (Hpos : (0 < inject_Z b)%Q)
    by (change 0%Q with (inject_Z 0); now rewrite <- Zlt_Qlt).
  split.
  - apply Qle_shift_div_l; [exact Hpos|]. rewrite Qmult_0_l.
    change 0%Q with (inject_Z 0). rewrite <- Zle_Qle. lia.
  - apply Qle_shift_div_r; [exact Hpos|]. rewrite Qmult_1_l.
    rewrite <- Zle_Qle. lia.
Qed.

(** X9. Both QA rates are fractions between 0 and 1, and the three counts
    are ordered: 0 <= join_mismatches <= total_voted and
    join_mismatches + county_mismatches <= total_voted. *)
Theorem qa_rates_bounds :
  forall (voted_joined : list VotedJoined.row),
    let c := Qa.qa voted_joined in
    0 <= Qa.join_mismatches c <= Qa.total_voted c
    /\ 0 <= Qa.county_mismatches c
    /\ Qa.join_mismatches c + Qa.county_mismatches c <= Qa.total_voted c
    /\ (0 <= Qa.join_mismatch_rate c <= 1)%Q
    /\ (0 <= Qa.county_mismatch_rate c <= 1)%Q.
Proof.
  intros joined c.
  assert (Hex : forall x, Qa.is_join_mismatch x = true ->
                          Qa.is_county_mismatch x = false).
  { intros x Hx. unfold Qa.is_county_mismatch.
    unfold Qa.is_join_mismatch in Hx. now rewrite Hx. }
  pose proof (filter_exclusive_length Qa.is_join_mismatch
                Qa.is_county_mismatch joined Hex) as Hlen.
  assert (Htv : Qa.total_voted c = Z.of_nat (List.length joined))
    by apply count_filter_true.
  assert (Hjm : Qa.join_mismatches c
                = Z.of_nat (List.length (filter Qa.is_join_mismatch joined)))
    by reflexivity.
  assert (Hcm : Qa.county_mismatches c
                = Z.of_nat (List.length (filter Qa.is_county_mismatch joined)))
    by reflexivity.
  split; [lia|]. split; [lia|]. split; [lia|]. split.
  - unfold Qa.join_mismatch_rate.
    destruct (Z.eqb_spec (Qa.total_voted c) 0).
    + split; [apply Qle_refl|discriminate].
    + apply truediv_bounds; lia.
  - unfold Qa.county_mismatch_rate.
    destruct (Z.eqb_spec (Qa.total_voted c - Qa.join_mismatches c) 0).
    + split; [apply Qle_refl|discriminate].
    + apply truediv_bounds; lia.
Qed.

(** ** Age bucketizer, read backwards *)

Ltac parsed_birth_year H :=
  let b' := fresh "b" in
  let y' := fresh "y" in
  let Hb := fresh "Hb" in
  let Hl := fresh "Hl" in
  let Hc := fresh "Hc" in
  let Hr := fresh "Hr" in
  destruct H as [b' [y' [Hb [Hl [Hc Hr]]]]];
  try discriminate Hb;
  injection Hb as <-;
  try contradiction;
  try congruence;
  try (match goal with
       | Hc' : try_cast_integer _ _ = Some ?z, Hc'' : try_cast_integer _ _ = Some ?z' |- _ =>
           rewrite Hc' in Hc''; injection Hc'' as <-
       end);
  try lia.

(** X10. Each label tells the age back: a row is in "Age 18 - 25" (26 - 40,
    41 - 65) exactly when its birth year is present, not blank, parses, and
    the age lies in that range; it is in "Age Over 66" exactly when the age
    is 66 or more; and it is in the invalid bucket exactly when the birth
    year is NULL, blank, unparseable or gives an age below 18. *)
Theorem age_group_inversion :
  forall (E : engine) (election_year : Z) (birth_year : varchar),
    (age_group E election_year birth_year = age_18_25 <->
     exists b y, birth_year = Some b /\ String.length (trim E b) <> 0%nat
                 /\ try_cast_integer E (trim E b) = Some y
                 /\ 18 <= election_year - y <= 25)
    /\ (age_group E election_year birth_year = age_26_40 <->
        exists b y, birth_year = Some b /\ String.length (trim E b) <> 0%nat
                    /\ try_cast_integer E (trim E b) = Some y
                    /\ 26 <= election_year - y <= 40)
    /\ (age_group E election_year birth_year = age_41_65 <->
        exists b y, birth_year = Some b /\ String.length (trim E b) <> 0%nat
                    /\ try_cast_integer E (trim E b) = Some y
                    /\ 41 <= election_year - y <= 65)
    /\ (age_group E election_year birth_year = age_over_66 <->
        exists b y, birth_year = Some b /\ String.length (trim E b) <> 0%nat
                    /\ try_cast_integer E (trim E b) = Some y
                    /\ 66 <= election_year - y)
    /\ (age_group E election_year birth_year = age_invalid <->
        birth_year = None
        \/ exists b, birth_year = Some b
                     /\ (String.length (trim E b) = 0%nat
                         \/ try_cast_integer E (trim E b) = None
                         \/ exists y, try_cast_integer E (trim E b) = Some y
                                      /\ election_year - y < 18)).
Proof.
  intros E ey birth_year. unfold age_group, between.
  destruct birth_year as [b|].
  2:{ repeat split; intros H; try discriminate H; try parsed_birth_year H.
      now left. }
  destruct (Nat.eqb_spec (String.length (trim E b)) 0) as [Hlen|Hlen].
  { repeat split; intros H; try discriminate H; try parsed_birth_year H.
    right. exists b. auto. }
  destruct (try_cast_integer E (trim E b)) as [y|] eqn:Hcast.
  2:{ repeat split; intros H; try discriminate H; try parsed_birth_year H.
      right. exists b. auto. }
  destruct (Z.ltb_spec (ey - y) 18).
  { repeat split; intros H'; try discriminate H'; try parsed_birth_year H'.
    right. exists b. split; [reflexivity|]. right. right. exists y. auto. }
  destruct (Z.leb_spec 18 (ey - y)); [|lia].
  destruct (Z.leb_spec (ey - y) 25); cbn [andb].
  { repeat split; intros H'; try discriminate H'; try parsed_birth_year H'.
    - exists b, y. repeat split; auto.
    - destruct H' as [H'|[b' [Hb' [H'|[H'|[y' [Hc' Hy']]]]]]];
        try discriminate; injection Hb' as <-; try contradiction; try congruence.
      rewrite Hcast in Hc'. injection Hc' as <-. lia. }
  destruct (Z.leb_spec 26 (ey - y)); [|lia].
  destruct (Z.leb_spec (ey - y) 40); cbn [andb].
  { repeat split; intros H'; try discriminate H'; try parsed_birth_year H'.
    - exists b, y. repeat split; auto.
    - destruct H' as [H'|[b' [Hb' [H'|[H'|[y' [Hc' Hy']]]]]]];
        try discriminate; injection Hb' as <-; try contradiction; try congruence.
      rewrite Hcast in Hc'. injection Hc' as <-. lia. }
  destruct (Z.leb_spec 41 (ey - y)); [|lia].
  destruct (Z.leb_spec (ey - y) 65); cbn [andb].
  { repeat split; intros H'; try discriminate H'; try parsed_birth_year H'.
    - exists b, y. repeat split; auto.
    - destruct H' as [H'|[b' [Hb' [H'|[H'|[y' [Hc' Hy']]]]]]];
        try discriminate; injection Hb' as <-; try contradiction; try congruence.
      rewrite Hcast in Hc'. injection Hc' as <-. lia. }
  repeat split; intros H'; try discriminate H'; try parsed_birth_year H'.
  - exists b, y. repeat split; auto. lia.
  - destruct H' as [H'|[b' [Hb' [H'|[H'|[y' [Hc' Hy']]]]]]];
      try discriminate; injection Hb' as <-; try contradiction; try congruence.
    rewrite Hcast in Hc'. injection Hc' as <-. lia.
Qed.

(** ** The controller and the order of discovery *)

Lemma sorted_perm_eq (paths1 paths2 : list string) :
  Permutation paths1 paths2 -> Py.sorted paths1 = Py.sorted paths2.
Proof.
  intros HP. apply order_by_unique;
    [apply String.leb_total | apply string_leb_trans | exact HP |].
  intros a b _ _. apply String.leb_antisym.
Qed.

(** X11. The run does not depend on the order in which glob lists the
    files: two listings of the same files give the same outcome, with the
    same table, the same QA rows in the same order and the same printed
    lines. *)
Theorem main_glob_order :
  forall (E : engine) (ncvhis_raw : list Ncvhis.row)
         (ncvoter_attrs : list NcvoterAttrs.row)
         (voter_stats_raw : string -> list VoterStats.row)
         (voter_stats_glob : string) (globbed1 globbed2 : list string),
    Permutation globbed1 globbed2 ->
    TurnoutAll.main E ncvhis_raw ncvoter_attrs voter_stats_raw voter_stats_glob
                    globbed1
    = TurnoutAll.main E ncvhis_raw ncvoter_attrs voter_stats_raw voter_stats_glob
                      globbed2.
Proof.
  intros E ncvhis_raw ncvoter_attrs voter_stats_raw voter_stats_glob g1 g2 HP.
  unfold TurnoutAll.main. now rewrite (sorted_perm_eq HP).
Qed.

Lemma main_glob_order_witness :
  TurnoutAll.main ascii_engine Sample.log2 Sample.registry2
    (fun _ => Sample.census) Sample.census_glob
    [Sample.census_path; Sample.census_path_2024]
  = TurnoutAll.main ascii_engine Sample.log2 Sample.registry2
      (fun _ => Sample.census) Sample.census_glob
      [Sample.census_path_2024; Sample.census_path].
Proof. apply main_glob_order. apply perm_swap. Defined.

Lemma reconcile_length (E : engine) (ncvhis_raw : list Ncvhis.row)
    (ncvoter_attrs : list NcvoterAttrs.row)
    (voter_stats_raw : list VoterStats.row) (e : election) :
  List.length (reconcile E ncvhis_raw ncvoter_attrs voter_stats_raw e)
  = List.length (denominator E voter_stats_raw e).
Proof. now rewrite reconcile_rows, length_map. Qed.

Lemma flat_map_length (A B : Type) (f : A -> list B) (l : list A) :
  List.length (flat_map f l) = list_sum (map (fun x => List.length (f x)) l).
Proof.
  induction l as [|x t IH]; [reflexivity|].
  cbn [flat_map map list_sum]. now rewrite length_app, IH.
Qed.

Lemma list_sum_perm (A : Type) (f : A -> nat) (l l' : list A) :
  Permutation l l' -> list_sum (map f l) = list_sum (map f l').
Proof.
  induction 1 as [|x l l' HP IH|x y l|l l' l'' HP1 IH1 HP2 IH2].
  - reflexivity.
  - rewrite !map_cons. change (f x + list_sum (map f l) = f x + list_sum (map f l'))%nat.
    now rewrite IH.
  - rewrite !map_cons.
    change (f y + (f x + list_sum (map f l)) = f x + (f y + list_sum (map f l)))%nat.
    lia.
  - congruence.
Qed.

(** X12. A run over discovered files has three endings.  It is left with
    ValueError, nothing exported, when some file's token passes the check
    of the loop and has a year [int] refuses.  Otherwise, when every file
    is skipped, it writes a combined table of no rows and gets to
    [executemany] with no QA row.  Otherwise it writes both files: the
    combined table has one row per denominator bucket of every processed
    census file, and the QA table one row per processed file; two files
    that stand for the same election date each add their rows, nothing is
    merged or dropped. *)
Theorem combined_row_count :
  forall (E : engine) (ncvhis_raw : list Ncvhis.row)
         (ncvoter_attrs : list NcvoterAttrs.row)
         (voter_stats_raw : string -> list VoterStats.row)
         (voter_stats_glob : string) (globbed : list string),
    (existsb TurnoutAll.raises globbed = true ->
     TurnoutAll.main E ncvhis_raw ncvoter_attrs voter_stats_raw voter_stats_glob
                     globbed
     = TurnoutAll.ValueError)
    /\ (globbed <> [] -> existsb TurnoutAll.raises globbed = false ->
        TurnoutAll.elections globbed = [] ->
        exists printed,
          TurnoutAll.main E ncvhis_raw ncvoter_attrs voter_stats_raw
                          voter_stats_glob globbed
          = TurnoutAll.Empty_qa_rows [] printed
          /\ forall p, In p globbed ->
                       In (TurnoutAll.Warn_skipping (Py.name p)) printed)
    /\ (existsb TurnoutAll.raises globbed = false ->
        TurnoutAll.elections globbed <> [] ->
        exists csv qa printed,
          TurnoutAll.main E ncvhis_raw ncvoter_attrs voter_stats_raw
                          voter_stats_glob globbed
          = TurnoutAll.Finished csv qa printed
          /\ List.length csv
             = list_sum
                 (map (fun pe => List.length
                                   (denominator E (voter_stats_raw (fst pe))
                                                (snd pe)))
                      (TurnoutAll.elections globbed))
          /\ List.length qa = List.length (TurnoutAll.elections globbed)).
Proof.
  intros E ncvhis_raw ncvoter_attrs voter_stats_raw voter_stats_glob globbed.
  split; [apply main_raises|]. split.
  - intros Hne Hno Hnil. eexists. split; [now apply main_all_skipped|].
    intros p Hp. apply in_or_app. left. apply in_flat_map.
    exists p. split; [now apply order_by_In|].
    unfold TurnoutAll.lines_of.
    destruct (TurnoutAll.discovered_election p) as [e|] eqn:Hd; [|now left].
    exfalso. assert (Hin : In (p, e) (TurnoutAll.elections globbed))
      by (apply in_elections; auto).
    rewrite Hnil in Hin. destruct Hin.
  - intros Hno Hne. do 3 eexists. split; [now apply main_spec|].
    assert (HP : Permutation (TurnoutAll.elections (Py.sorted globbed))
                             (TurnoutAll.elections globbed))
      by (apply Permutation_flat_map, sorted_perm).
    split.
    + unfold TurnoutAll.export.
      rewrite (Permutation_length (order_by_perm _ _)), flat_map_length.
      rewrite (@map_ext _ _
                 (fun pe => List.length
                              (TurnoutAll.rows_of E ncvhis_raw ncvoter_attrs
                                                  voter_stats_raw pe))
                 (fun pe => List.length
                              (denominator E (voter_stats_raw (fst pe)) (snd pe))))
        by (intros pe; apply reconcile_length).
      now apply list_sum_perm.
    + rewrite length_map. now apply Permutation_length.
Qed.

Lemma combined_row_count_witness :
  (exists csv qa printed,
     TurnoutAll.main ascii_engine Sample.log2 Sample.registry2
       Sample.census_or_copy Sample.census_glob
       [Sample.census_path; Sample.census_path_copy]
     = TurnoutAll.Finished csv qa printed
     /\ List.length csv = 2%nat /\ List.length qa = 2%nat)
  /\ TurnoutAll.main ascii_engine Sample.log2 Sample.registry2
       Sample.census_or_copy Sample.census_glob
       [Sample.census_path; Sample.census_path_squared]
     = TurnoutAll.ValueError
  /\ exists printed,
       TurnoutAll.main ascii_engine Sample.log2 Sample.registry2
         Sample.census_or_copy Sample.census_glob
         ["data/raw/voter_stats/voter_stats_notadate.txt"]
       = TurnoutAll.Empty_qa_rows [] printed.
Proof.
  split; [|split].
  - destruct (@combined_row_count ascii_engine Sample.log2 Sample.registry2
                Sample.census_or_copy Sample.census_glob
                [Sample.census_path; Sample.census_path_copy])
      as [_ [_ H]].
    destruct H as [csv [qa [printed [Hmain [Hcsv Hqa]]]]].
    + vm_compute. reflexivity.
    + vm_compute. discriminate.
    + exists csv, qa, printed. split; [exact Hmain|]. split.
      * rewrite Hcsv. vm_compute. reflexivity.
      * rewrite Hqa. vm_compute. reflexivity.
  - apply combined_row_count. vm_compute. reflexivity.
  - destruct (@combined_row_count ascii_engine Sample.log2 Sample.registry2
                Sample.census_or_copy Sample.census_glob
                ["data/raw/voter_stats/voter_stats_notadate.txt"])
      as [_ [H _]].
    destruct H as [printed [Hmain _]].
    + discriminate.
    + vm_compute. reflexivity.
    + vm_compute. reflexivity.
    + exists printed. exact Hmain.
Defined.

(** ** The election identifier *)

Lemma digit_value_range (c : ascii) :
  AsciiText.is_digit c = true -> 0 <= AsciiText.digit_value c <= 9.
Proof.
  intros H. destruct c as [[] [] [] [] [] [] [] []];
    try discriminate H; vm_compute; split; discriminate.
Qed.

Lemma digits_value_range (s : string) (acc : Z) :
  Py.all_decimal s = true -> 0 <= acc ->
  exists v, AsciiText.digits_value acc s = Some v
            /\ acc * 10 ^ Z.of_nat (String.length s) <= v
               < (acc + 1) * 10 ^ Z.of_nat (String.length s).
Proof.
  revert acc. induction s as [|c t IH]; intros acc Hd Hacc.
  - exists acc. cbn. split; [reflexivity|lia].
  - cbn [Py.all_decimal] in Hd. apply andb_true_iff in Hd. destruct Hd as [Hc Ht].
    pose proof (digit_value_range c Hc) as Hv.
    destruct (IH (10 * acc + AsciiText.digit_value c) Ht) as [v [Hval Hb]]; [lia|].
    exists v. cbn [AsciiText.digits_value]. rewrite Hc. split; [exact Hval|].
    cbn [String.length]. rewrite Nat2Z.inj_succ, Z.pow_succ_r by lia.
    assert (Hp : 0 < 10 ^ Z.of_nat (String.length t)) by (apply Z.pow_pos_nonneg; lia).
    nia.
Qed.

Lemma string_length_append (a b : string) :
  String.length (a ++ b) = (String.length a + String.length b)%nat.
Proof. induction a as [|c a IH]; simpl; congruence. Qed.

(** X13. A token passes the file-name check when it has eight characters
    that are all [isdigit].  For such a token the label is MM/DD/YYYY and
    the ISO date YYYY-MM-DD in its own characters, both ten characters
    long.  When its first four characters are decimal digits the
    controller gets an election, whose year is the number they write,
    between 0 and 9999; when one of them is not (a superscript digit), [int]
    raises and there is no election. *)
Theorem election_of_token :
  forall yyyymmdd : string,
    TurnoutAll.recognized yyyymmdd = true ->
    let label := Py.slice 4 6 yyyymmdd ++ "/" ++ Py.slice 6 8 yyyymmdd ++ "/"
                   ++ Py.slice 0 4 yyyymmdd in
    let iso := Py.slice 0 4 yyyymmdd ++ "-" ++ Py.slice 4 6 yyyymmdd ++ "-"
                 ++ Py.slice 6 8 yyyymmdd in
    yyyymmdd_to_mmddyyyy yyyymmdd = label
    /\ mmddyyyy_to_iso label = Some iso
    /\ String.length label = 10%nat
    /\ String.length iso = 10%nat
    /\ (Py.all_decimal (Py.slice 0 4 yyyymmdd) = true ->
        exists year,
          TurnoutAll.election_of yyyymmdd = Some (mk_election label iso year)
          /\ AsciiText.digits_value 0 (Py.slice 0 4 yyyymmdd) = Some year
          /\ 0 <= year <= 9999)
    /\ (Py.all_decimal (Py.slice 0 4 yyyymmdd) = false ->
        Py.int (Py.slice 0 4 yyyymmdd) = None
        /\ TurnoutAll.election_of yyyymmdd = None).
Proof.
  intros tok Hrec label iso.
  pose proof (@recognized_length tok Hrec) as Hlen.
  destruct (@year_digits tok Hrec) as [Hy Hly].
  assert (Hlm : String.length (Py.slice 4 6 tok) = 2%nat)
    by (apply length_substring; lia).
  assert (Hld : String.length (Py.slice 6 8 tok) = 2%nat)
    by (apply length_substring; lia).
  split; [reflexivity|].
  split; [exact (@iso_of_recognized tok Hrec)|].
  split; [unfold label; now rewrite !string_length_append, Hly, Hlm, Hld|].
  split; [unfold iso; now rewrite !string_length_append, Hly, Hlm, Hld|].
  split.
  - intros Hdec.
    destruct (@digits_value_range _ 0 Hdec) as [year [Hyear Hb]]; [lia|].
    rewrite Hly in Hb. exists year.
    assert (Hint : Py.int (Py.slice 0 4 tok) = Some year).
    { rewrite int_of_digits; auto. intros Hnil. rewrite Hnil in Hly. discriminate. }
    split; [now rewrite (@election_of_year tok Hrec), Hint|].
    split; [exact Hyear|]. change (10 ^ Z.of_nat 4) with 10000 in Hb. lia.
  - intros Hdec. split; [now apply int_not_decimal|].
    now apply (@election_of_raises tok Hrec).
Qed.

Lemma election_of_token_witness :
  (exists year,
     TurnoutAll.election_of "20251104"
     = Some (mk_election "11/04/2025" "2025-11-04" year)
     /\ 0 <= year <= 9999)
  /\ TurnoutAll.election_of Sample.squared = None.
Proof.
  split.
  - destruct (election_of_token "20251104") as [_ [_ [_ [_ [H _]]]]];
      [vm_compute; reflexivity|].
    destruct H as [year [He [_ Hy]]]; [vm_compute; reflexivity|].
    exists year. split; [exact He|exact Hy].
  - destruct (election_of_token Sample.squared) as [_ [_ [_ [_ [_ H]]]]];
      [vm_compute; reflexivity|].
    apply H. vm_compute. reflexivity.
Defined.

Lemma append_inj_length (a a' b b' : string) :
  String.length a = String.length a' -> a ++ b = a' ++ b' -> a = a' /\ b = b'.
Proof.
  revert a'. induction a as [|c a IH]; intros [|c' a'] Hlen Heq;
    try discriminate Hlen.
  - auto.
  - cbn in Hlen, Heq. injection Hlen as Hlen. injection Heq as -> Heq.
    destruct (IH a' Hlen Heq) as [-> ->]. auto.
Qed.

Lemma token_parts (yyyymmdd : string) :
  String.length yyyymmdd = 8%nat ->
  yyyymmdd
  = Py.slice 0 4 yyyymmdd ++ Py.slice 4 6 yyyymmdd ++ Py.slice 6 8 yyyymmdd.
Proof.
  intros Hlen.
  destruct yyyymmdd as [|c1 [|c2 [|c3 [|c4 [|c5 [|c6 [|c7 [|c8 [|c9 t]]]]]]]]];
    try discriminate Hlen.
  reflexivity.
Qed.

(** X14. Two recognized tokens that give the same ISO election date are the
    same token: census files of different date tokens stand for elections
    with different [election_date] keys (and different labels). *)
Theorem election_iso_injective :
  forall (t1 t2 : string) (e1 e2 : election),
    TurnoutAll.recognized t1 = true -> TurnoutAll.recognized t2 = true ->
    TurnoutAll.election_of t1 = Some e1 -> TurnoutAll.election_of t2 = Some e2 ->
    election_iso e1 = election_iso e2 ->
    t1 = t2 /\ e1 = e2.
Proof.
  intros t1 t2 e1 e2 Hr1 Hr2 He1 He2 Hiso.
  destruct (@election_of_iso t1 Hr1 e1 He1) as [_ Hi1].
  destruct (@election_of_iso t2 Hr2 e2 He2) as [_ Hi2].
  pose proof (@recognized_length t1 Hr1) as Hl1.
  pose proof (@recognized_length t2 Hr2) as Hl2.
  rewrite Hi1, Hi2 in Hiso.
  assert (Hy : forall t, String.length t = 8%nat ->
                         String.length (Py.slice 0 4 t) = 4%nat)
    by (intros; apply length_substring; lia).
  assert (Hm : forall t, String.length t = 8%nat ->
                         String.length (Py.slice 4 6 t) = 2%nat)
    by (intros; apply length_substring; lia).
  apply append_inj_length in Hiso; [|now rewrite !Hy].
  destruct Hiso as [Hy12 Hrest]. cbn [append] in Hrest.
  injection Hrest as Hrest.
  apply append_inj_length in Hrest; [|now rewrite !Hm].
  destruct Hrest as [Hm12 Hd12]. cbn [append] in Hd12. injection Hd12 as Hd12.
  assert (Ht : t1 = t2).
  { rewrite (token_parts t1 Hl1), (token_parts t2 Hl2). congruence. }
  split; [exact Ht|]. subst t2. congruence.
Qed.

Lemma election_iso_injective_witness :
  "20251104" = "20251104" /\ Sample.nov_2025 = Sample.nov_2025.
Proof.
  apply election_iso_injective; vm_compute; reflexivity.
Defined.

Lemma split_length (sep : ascii) (s : string) :
  List.length (Py.split sep s) = S (count_char sep s).
Proof.
  induction s as [|c t IH]; [reflexivity|].
  cbn [Py.split count_char]. destruct (Ascii.eqb c sep).
  - cbn [List.length]. now rewrite IH.
  - destruct (Py.split sep t) as [|w ws]; [discriminate IH|].
    cbn [List.length] in *. lia.
Qed.

Lemma split_without (sep : ascii) (s : string) :
  count_char sep s = 0%nat -> Py.split sep s = [s].
Proof.
  induction s as [|c t IH]; [reflexivity|].
  cbn [Py.split count_char]. destruct (Ascii.eqb c sep); [discriminate|].
  intros H. now rewrite (IH H).
Qed.

Lemma split_app_without (sep : ascii) (s rest : string) :
  count_char sep s = 0%nat ->
  Py.split sep (s ++ String sep rest) = s :: Py.split sep rest.
Proof.
  induction s as [|c t IH].
  - intros _. cbn [append Py.split]. now rewrite Ascii.eqb_refl.
  - cbn [append Py.split count_char]. destruct (Ascii.eqb c sep); [discriminate|].
    intros H. now rewrite (IH H).
Qed.

(** X15. [mmddyyyy_to_iso] raises (its three-way unpacking fails) exactly
    when the label does not hold two slashes; on a label M/D/Y it returns
    Y-MM-DD with month and day filled with zeros to two characters, so the
    label 1/4/2025 and the label 01/04/2025 give the same ISO date. *)
Theorem mmddyyyy_to_iso_parts :
  (forall s, mmddyyyy_to_iso s = None <-> count_char "/" s <> 2%nat)
  /\ (forall m d y,
        count_char "/" m = 0%nat -> count_char "/" d = 0%nat ->
        count_char "/" y = 0%nat ->
        mmddyyyy_to_iso (m ++ "/" ++ d ++ "/" ++ y)
        = Some (y ++ "-" ++ Py.zfill 2 m ++ "-" ++ Py.zfill 2 d))
  /\ (forall c, AsciiText.is_digit c = true ->
                Py.zfill 2 (String c EmptyString)
                = String "0" (String c EmptyString))
  /\ (forall c1 c2, AsciiText.is_digit c1 = true ->
                    Py.zfill 2 (String c1 (String c2 EmptyString))
                    = String c1 (String c2 EmptyString)).
Proof.
  split; [|split; [|split]].
  - intros s. unfold mmddyyyy_to_iso.
    pose proof (split_length "/" s) as Hlen.
    destruct (Py.split "/" s) as [|a [|b [|c [|d l]]]]; cbn [List.length] in Hlen;
      split; intros H; try discriminate H; try lia; try reflexivity.
  - intros m d y Hm Hd Hy. unfold mmddyyyy_to_iso.
    change (m ++ "/" ++ d ++ "/" ++ y) with (m ++ String "/" (d ++ String "/" y)).
    now rewrite !split_app_without, split_without by assumption.
  - intros c Hc.
    destruct (digit_not_sign c (decimal_is_digit c Hc)) as [Hplus Hminus].
    unfold Py.zfill.
    destruct c as [[] [] [] [] [] [] [] []]; try reflexivity; congruence.
  - intros c1 c2 Hc.
    destruct (digit_not_sign c1 (decimal_is_digit c1 Hc)) as [Hplus Hminus].
    unfold Py.zfill.
    destruct c1 as [[] [] [] [] [] [] [] []]; try reflexivity; congruence.
Qed.

Lemma mmddyyyy_to_iso_parts_witness :
  mmddyyyy_to_iso ("1" ++ "/" ++ "4" ++ "/" ++ "2025")
  = Some ("2025" ++ "-" ++ Py.zfill 2 "1" ++ "-" ++ Py.zfill 2 "4")
  /\ mmddyyyy_to_iso "11-04-2025" = None.
Proof.
  destruct mmddyyyy_to_iso_parts as [Hnone [Hsome _]]. split.
  - apply Hsome; reflexivity.
  - apply Hnone. vm_compute. discriminate.
Defined.
(** ** The county-level scripts *)

Section BronzeFacts.
Variable date : Type.
Variable date_eqb : date -> date -> bool.
Variable date_leb : date -> date -> bool.
Hypothesis date_eqb_spec : forall a b, reflect (a = b) (date_eqb a b).

Lemma same_election_spec (a b : date * string) :
  reflect (a = b) (Bronze.same_election date_eqb a b).
Proof.
  destruct a as [d1 s1], b as [d2 s2]. unfold Bronze.same_election. simpl.
  destruct (date_eqb_spec d1 d2); [|constructor; congruence].
  destruct (String.eqb_spec s1 s2); constructor; congruence.
Qed.

Lemma In_dated (h : list (Bronze.history date)) (d : date) (s : string) :
  In (d, s) (Bronze.dated h)
  <-> exists r, In r h /\ Bronze.election_lbl r = Some d
                /\ Bronze.election_desc r = Some s.
Proof.
  unfold Bronze.dated. rewrite in_flat_map. split.
  - intros [r [Hr Hin]]. exists r. split; [exact Hr|].
    destruct (Bronze.election_lbl r), (Bronze.election_desc r);
      simpl in Hin; try contradiction.
    destruct Hin as [Heq|[]]. injection Heq as -> ->. auto.
  - intros [r [Hr [Hd Hs]]]. exists r. split; [exact Hr|].
    rewrite Hd, Hs. now left.
Qed.

Lemma elections_distinct_keys (h : list (Bronze.history date)) :
  Bronze.elections_distinct date_eqb h
  = distinct (Bronze.same_election date_eqb) (Bronze.dated h).
Proof.
  unfold Bronze.elections_distinct.
  rewrite (group_by_keys (Bronze.same_election date_eqb)), map_id. reflexivity.
Qed.

Hypothesis date_leb_total : forall a b, date_leb a b = true \/ date_leb b a = true.
Hypothesis date_leb_trans :
  forall a b c, date_leb a b = true -> date_leb b c = true -> date_leb a c = true.
Hypothesis date_leb_antisym :
  forall a b, date_leb a b = true -> date_leb b a = true -> a = b.

Lemma by_date_desc_total (a b : date * string) :
  Bronze.by_date_desc date_eqb date_leb a b = true
  \/ Bronze.by_date_desc date_eqb date_leb b a = true.
Proof.
  destruct a as [d1 s1], b as [d2 s2]. unfold Bronze.by_date_desc. simpl.
  destruct (date_eqb_spec d1 d2) as [->|Hne].
  - destruct (date_eqb_spec d2 d2); [|congruence]. apply String.leb_total.
  - destruct (date_eqb_spec d2 d1); [congruence|]. apply date_leb_total.
Qed.

Lemma by_date_desc_trans (a b c : date * string) :
  Bronze.by_date_desc date_eqb date_leb a b = true ->
  Bronze.by_date_desc date_eqb date_leb b c = true ->
  Bronze.by_date_desc date_eqb date_leb a c = true.
Proof.
  destruct a as [d1 s1], b as [d2 s2], c as [d3 s3].
  unfold Bronze.by_date_desc. simpl.
  destruct (date_eqb_spec d1 d2) as [->|H12];
    destruct (date_eqb_spec d2 d3) as [->|H23]; intros Hab Hbc.
  - destruct (date_eqb_spec d3 d3); [|congruence].
    eapply string_leb_trans; eassumption.
  - destruct (date_eqb_spec d2 d3); [congruence|assumption].
  - destruct (date_eqb_spec d1 d3); [congruence|assumption].
  - destruct (date_eqb_spec d1 d3) as [->|H13].
    + exfalso. apply H12. now apply date_leb_antisym.
    + eapply date_leb_trans; eassumption.
Qed.

Lemma by_date_desc_antisym (a b : date * string) :
  Bronze.by_date_desc date_eqb date_leb a b = true ->
  Bronze.by_date_desc date_eqb date_leb b a = true -> a = b.
Proof.
  destruct a as [d1 s1], b as [d2 s2]. unfold Bronze.by_date_desc. simpl.
  destruct (date_eqb_spec d1 d2) as [->|Hne].
  - destruct (date_eqb_spec d2 d2); [|congruence].
    intros H1 H2. f_equal. now apply String.leb_antisym.
  - destruct (date_eqb_spec d2 d1); [congruence|].
    intros H1 H2. exfalso. apply Hne. now apply date_leb_antisym.
Qed.

(** X16. [scripts/01_extract_elections.py]: on an existing database the
    script writes the pairs (election_lbl, election_desc) that occur in
    [bronze_voter_history] with both columns non-NULL, each pair once, in
    ascending order of date and then of description, and the number it
    prints is the number of rows it wrote; the file does not depend on the
    order in which the table stores its rows.  The date order of the engine
    is taken to be a total order whose equality is the one of GROUP BY. *)
Theorem elections_csv (bronze_voter_history : list (Bronze.history date)) :
  exists csv,
    Bronze.extract_elections date_eqb date_leb (Some bronze_voter_history)
    = Bronze.Wrote_elections csv (Z.of_nat (List.length csv))
    /\ (forall d s,
          In (d, s) csv
          <-> exists r, In r bronze_voter_history
                        /\ Bronze.election_lbl r = Some d
                        /\ Bronze.election_desc r = Some s)
    /\ NoDup csv
    /\ StronglySorted (holds (Bronze.by_date_desc date_eqb date_leb)) csv
    /\ (forall shuffled,
          Permutation bronze_voter_history shuffled ->
          Bronze.extract_elections date_eqb date_leb (Some shuffled)
          = Bronze.extract_elections date_eqb date_leb (Some bronze_voter_history)).
Proof.
  set (le := Bronze.by_date_desc date_eqb date_leb).
  exists (order_by le (Bronze.elections_distinct date_eqb bronze_voter_history)).
  assert (Hperm := order_by_perm le
                     (Bronze.elections_distinct date_eqb bronze_voter_history)).
  split; [|split; [|split; [|split]]].
  - unfold Bronze.extract_elections. fold le.
    now rewrite (Permutation_length Hperm).
  - intros d s. rewrite order_by_In, elections_distinct_keys.
    rewrite (In_distinct _ same_election_spec). apply In_dated.
  - apply (Permutation_NoDup (Permutation_sym Hperm)).
    rewrite elections_distinct_keys. apply (NoDup_distinct _ same_election_spec).
  - apply order_by_sorted; [apply by_date_desc_total|apply by_date_desc_trans].
  - intros shuffled Hsh. unfold Bronze.extract_elections. fold le.
    assert (Hd : Permutation (Bronze.elections_distinct date_eqb shuffled)
                             (Bronze.elections_distinct date_eqb bronze_voter_history)).
    { rewrite !elections_distinct_keys.
      apply (Permutation_distinct _ same_election_spec).
      unfold Bronze.dated. apply Permutation_flat_map. now apply Permutation_sym. }
    rewrite (Permutation_length Hd). f_equal.
    apply order_by_unique.
    + apply by_date_desc_total.
    + apply by_date_desc_trans.
    + exact Hd.
    + intros a b _ _. apply by_date_desc_antisym.
Qed.
End BronzeFacts.

Lemma elections_csv_witness :
  Bronze.extract_elections String.eqb String.leb
                           (Some BronzeSample.bronze_voter_history)
  = Bronze.Wrote_elections
      [ ("2022-11-08", "11/08/2022 GENERAL");
        ("2024-03-05", "03/05/2024 PRIMARY");
        ("2024-11-05", "11/05/2024 GENERAL") ] 3
  /\ exists csv,
       Bronze.extract_elections String.eqb String.leb
                                (Some BronzeSample.bronze_voter_history)
       = Bronze.Wrote_elections csv (Z.of_nat (List.length csv))
       /\ NoDup csv.
Proof.
  split; [vm_compute; reflexivity|].
  destruct (@elections_csv string String.eqb String.leb String.eqb_spec
              String.leb_total string_leb_trans String.leb_antisym
              BronzeSample.bronze_voter_history)
    as [csv [Hcsv [_ [Hnd _]]]].
  exists csv. split; assumption.
Defined.

Lemma same_county_spec (a b : string * string) :
  reflect (a = b) (Bronze.same_county a b).
Proof.
  destruct a as [c1 f1], b as [c2 f2]. unfold Bronze.same_county. simpl.
  destruct (String.eqb_spec c1 c2); [|constructor; congruence].
  destruct (String.eqb_spec f1 f2); constructor; congruence.
Qed.

Lemma In_active (lpad3 : string -> string) (bronze_voters : list Bronze.voter)
    (c f n : string) :
  In (c, f, n) (Bronze.active lpad3 bronze_voters)
  <-> exists v i, In v bronze_voters
                  /\ Bronze.voter_status_desc v = Some "ACTIVE"
                  /\ Bronze.ncid v = Some n
                  /\ Bronze.county_desc v = Some c
                  /\ Bronze.county_id v = Some i /\ lpad3 i = f.
Proof.
  unfold Bronze.active. rewrite in_flat_map. split.
  - intros [v [Hv Hin]].
    destruct (eq_true (Bronze.voter_status_desc v) (Some "ACTIVE")) eqn:Hs;
      [|contradiction].
    apply eq_true_eq in Hs.
    destruct (Bronze.ncid v) as [n'|] eqn:Hn; [|contradiction].
    destruct (Bronze.county_desc v) as [c'|] eqn:Hc; [|contradiction].
    destruct (Bronze.county_id v) as [i|] eqn:Hi; [|contradiction].
    destruct Hin as [Heq|[]]. injection Heq as <- <- <-.
    exists v, i. auto 10.
  - intros (v & i & Hv & Hs & Hn & Hc & Hi & Hf). exists v.
    split; [exact Hv|]. rewrite Hs, Hn, Hc, Hi. subst f. now left.
Qed.

Lemma count_distinct_pos (col : list string) :
  col <> [] -> 1 <= Bronze.count_distinct col.
Proof.
  destruct col as [|s t]; [congruence|]. intros _.
  unfold Bronze.count_distinct. cbn [distinct List.length]. lia.
Qed.

(** A group of [registered_active] holds at least one voter. *)
Lemma registered_active_pos (lpad3 : string -> string)
    (bronze_voters : list Bronze.voter) (r : Bronze.registered) :
  In r (Bronze.registered_active_view lpad3 bronze_voters) ->
  1 <= Bronze.registered_active r.
Proof.
  unfold Bronze.registered_active_view. intros Hr.
  apply in_map_iff in Hr. destruct Hr as [[[c f] g] [<- Hg]].
  cbn [Bronze.registered_active fst snd].
  destruct (@group_by_group _ _ _ same_county_spec _ _ _ Hg)
    as [Hgroup [x [Hx Hkey]]].
  cbn [fst snd] in Hgroup, Hkey.
  apply count_distinct_pos. rewrite Hgroup. intros Hnil.
  apply map_eq_nil in Hnil.
  assert (Hxin : In x (filter (fun r => Bronze.same_county (c, f) (fst r))
                              (Bronze.active lpad3 bronze_voters))).
  { apply filter_In. split; [exact Hx|]. rewrite Hkey.
    destruct (same_county_spec (c, f) (c, f)); congruence. }
  rewrite Hnil in Hxin. destruct Hxin.
Qed.

(** X17. [scripts/02_build_turnout.py], view [registered_active]: the view
    has one row per pair (county_desc, county_fips); its count is the number
    of different ncids that an ACTIVE row of [bronze_voters] with non-NULL
    ncid, county_desc and county_id puts in that county and padded id, it
    is never 0, and every such row of [bronze_voters] is counted in a row
    of the view.  Two county_id values that pad to the same county_fips are
    counted together. *)
Theorem registered_active_counts (lpad3 : string -> string)
    (bronze_voters : list Bronze.voter) :
  let view := Bronze.registered_active_view lpad3 bronze_voters in
  let registered_in (c f n : string) :=
    exists v i, In v bronze_voters
                /\ Bronze.voter_status_desc v = Some "ACTIVE"
                /\ Bronze.ncid v = Some n
                /\ Bronze.county_desc v = Some c
                /\ Bronze.county_id v = Some i /\ lpad3 i = f in
  NoDup (map (fun r => (Bronze.r_county_desc r, Bronze.r_county_fips r)) view)
  /\ (forall r, In r view ->
        1 <= Bronze.registered_active r
        /\ exists ncids,
             NoDup ncids
             /\ Bronze.registered_active r = Z.of_nat (List.length ncids)
             /\ forall n, In n ncids
                          <-> registered_in (Bronze.r_county_desc r)
                                            (Bronze.r_county_fips r) n)
  /\ (forall c f n, registered_in c f n ->
        exists r, In r view /\ Bronze.r_county_desc r = c
                  /\ Bronze.r_county_fips r = f).
Proof.
  intros view registered_in.
  set (rows := Bronze.active lpad3 bronze_voters).
  assert (Hin : forall c f n, In (c, f, n) rows <-> registered_in c f n)
    by (intros; apply In_active).
  split; [|split].
  - unfold view, Bronze.registered_active_view. fold rows. rewrite map_map.
    cbn [Bronze.r_county_desc Bronze.r_county_fips].
    rewrite (map_ext _ fst) by (intros [[c f] g]; reflexivity).
    rewrite (group_by_keys Bronze.same_county).
    apply (NoDup_distinct _ same_county_spec).
  - intros r Hr. split; [now apply (registered_active_pos lpad3 bronze_voters)|].
    unfold view, Bronze.registered_active_view in Hr. fold rows in Hr.
    apply in_map_iff in Hr. destruct Hr as [[[c f] g] [<- Hg]].
    cbn [Bronze.registered_active Bronze.r_county_desc Bronze.r_county_fips fst snd].
    destruct (@group_by_group _ _ _ same_county_spec _ _ _ Hg) as [Hgroup [x [Hx Hkey]]].
    cbn [fst snd] in Hgroup, Hkey.
    exists (distinct String.eqb (map snd g)). split; [|split].
    + apply (NoDup_distinct _ String.eqb_spec).
    + reflexivity.
    + intros n. rewrite (In_distinct _ String.eqb_spec), <- Hin, Hgroup.
      rewrite in_map_iff. split.
      * intros [[[c' f'] n'] [Hn Hy]]. cbn [snd] in Hn. subst n'.
        apply filter_In in Hy. destruct Hy as [Hy Hsame]. cbn [fst] in Hsame.
        destruct (same_county_spec (c, f) (c', f')) as [Heq|]; [|discriminate].
        injection Heq as -> ->. exact Hy.
      * intros Hy. exists (c, f, n). split; [reflexivity|].
        apply filter_In. split; [exact Hy|]. cbn [fst].
        destruct (same_county_spec (c, f) (c, f)); congruence.
  - intros c f n Hreg. apply Hin in Hreg.
    exists (Bronze.mk_registered c f
              (Bronze.count_distinct
                 (map snd (filter (fun r => Bronze.same_county (c, f) (fst r)) rows)))).
    split; [|split; reflexivity].
    unfold view, Bronze.registered_active_view. fold rows.
    apply in_map_iff.
    exists ((c, f), filter (fun r => Bronze.same_county (c, f) (fst r)) rows).
    split; [reflexivity|]. unfold group_by. apply in_map_iff.
    exists (c, f). split; [reflexivity|].
    apply (In_distinct _ same_county_spec). apply in_map_iff.
    exists (c, f, n). auto.
Qed.

Lemma in_left_join_iff (A B : Type) (on : A -> B -> bool) (a : list A) (b : list B)
    (x : A) (o : option B) :
  In (x, o) (left_join on a b)
  <-> In x a /\ match o with
                | None => filter (on x) b = []
                | Some y => In y b /\ on x y = true
                end.
Proof.
  unfold left_join. rewrite in_flat_map. split.
  - intros [x' [Hx' Hin]].
    destruct (filter (on x') b) as [|y0 ms] eqn:Hf.
    + destruct Hin as [Heq|[]]. inversion Heq; subst. auto.
    + apply in_map_iff in Hin. destruct Hin as [y [Heq Hy]].
      inversion Heq; subst. split; [assumption|].
      rewrite <- Hf in Hy. now apply filter_In in Hy.
  - intros [Hx Ho]. exists x. split; [exact Hx|].
    destruct o as [y|].
    + apply filter_In in Ho.
      destruct (filter (on x) b) as [|y0 ms]; [destruct Ho|].
      apply in_map_iff. eauto.
    + rewrite Ho. now left.
Qed.

Section CountyTurnoutFacts.
Variable date : Type.
Variable date_eqb : date -> date -> bool.
Hypothesis date_eqb_spec : forall a b, reflect (a = b) (date_eqb a b).
Variable lpad3 : string -> string.
Variable date_of_string : string -> date.

Lemma same_county_election_spec (a b : string * string * date * string) :
  reflect (a = b) (Bronze.same_county_election date_eqb a b).
Proof.
  destruct a as [[[c1 f1] d1] s1], b as [[[c2 f2] d2] s2].
  unfold Bronze.same_county_election.
  destruct (String.eqb_spec c1 c2); [|constructor; congruence].
  destruct (String.eqb_spec f1 f2); [|constructor; congruence].
  destruct (date_eqb_spec d1 d2); [|constructor; congruence].
  destruct (String.eqb_spec s1 s2); constructor; congruence.
Qed.

(** A counted ballot is a history row of a target election. *)
Lemma In_voted_events (bronze_voter_history : list (Bronze.history date))
    (c f : string) (d : date) (s n : string) :
  In (c, f, d, s, n)
     (Bronze.voted_events date_eqb lpad3 date_of_string bronze_voter_history)
  <-> In (d, s) (Bronze.target_elections date_of_string)
      /\ exists h i, In h bronze_voter_history
                     /\ Bronze.h_ncid h = Some n
                     /\ Bronze.h_county_desc h = Some c
                     /\ Bronze.h_county_id h = Some i /\ lpad3 i = f
                     /\ Bronze.election_lbl h = Some d
                     /\ Bronze.election_desc h = Some s.
Proof.
  unfold Bronze.voted_events, inner_join. rewrite in_flat_map. split.
  - intros [[h t] [Hht Hin]]. cbn [fst] in Hin.
    apply in_flat_map in Hht. destruct Hht as [h' [Hh Hpair]].
    apply in_map_iff in Hpair. destruct Hpair as [t' [Heq Ht]].
    injection Heq as -> ->. apply filter_In in Ht. destruct Ht as [Ht Hon].
    unfold Bronze.in_target in Hon.
    destruct (Bronze.h_ncid h) as [n'|] eqn:Hn; [|contradiction].
    destruct (Bronze.h_county_desc h) as [c'|] eqn:Hc; [|contradiction].
    destruct (Bronze.h_county_id h) as [i|] eqn:Hi; [|contradiction].
    destruct (Bronze.election_lbl h) as [d'|] eqn:Hd; [|contradiction].
    destruct (Bronze.election_desc h) as [s'|] eqn:Hs; [|contradiction].
    destruct Hin as [Heq|[]]. injection Heq as <- <- <- <- <-.
    apply andb_true_iff in Hon. destruct Hon as [Hdate Hdesc].
    destruct (date_eqb_spec d' (fst t)) as [Hd'|]; [|discriminate].
    apply String.eqb_eq in Hdesc.
    split.
    + rewrite Hd', Hdesc, <- surjective_pairing. exact Ht.
    + exists h, i. auto 10.
  - intros [Ht (h & i & Hh & Hn & Hc & Hi & Hf & Hd & Hs)].
    exists (h, (d, s)). split.
    + apply in_flat_map. exists h. split; [exact Hh|].
      apply in_map. apply filter_In. split; [exact Ht|].
      unfold Bronze.in_target. rewrite Hd, Hs. cbn [fst snd].
      rewrite String.eqb_refl.
      destruct (date_eqb_spec d d); [reflexivity|congruence].
    + cbn [fst]. rewrite Hn, Hc, Hi, Hd, Hs. subst f. now left.
Qed.

(** X18. [scripts/02_build_turnout.py], view [turnout]: every row carries a
    row of [voted_by_county], which counts at least one voter and belongs to
    one of the two target elections.  A row whose county_fips no row of
    [registered_active] has gets NULL for the count and for the rate; any
    other row has a count of at least 1, so that the branch
    [registered_active = 0] of the CASE is never taken, and a positive rate
    voters_voted / registered_active.  Every row of [voted_by_county] is in
    the view, as many times as [registered_active] has rows with its
    county_fips (once when it has none): the join is on county_fips alone,
    while [registered_active] is grouped by county_desc as well. *)
Theorem county_turnout_rate (bronze_voter_history : list (Bronze.history date))
    (bronze_voters : list Bronze.voter) :
  let voted :=
    Bronze.voted_by_county date_eqb lpad3 date_of_string bronze_voter_history in
  let registered := Bronze.registered_active_view lpad3 bronze_voters in
  let rows :=
    Bronze.turnout date_eqb lpad3 date_of_string bronze_voter_history
                   bronze_voters in
  (forall t, In t rows ->
     let v := Bronze.t_voted t in
     In v voted
     /\ 1 <= Bronze.voters_voted v
     /\ In (Bronze.v_election_date v, Bronze.v_election_desc v)
           (Bronze.target_elections date_of_string)
     /\ match Bronze.t_registered_active t with
        | None =>
            Bronze.turnout_rate t = None
            /\ forall r, In r registered ->
                         Bronze.r_county_fips r <> Bronze.v_county_fips v
        | Some n =>
            1 <= n
            /\ (exists r, In r registered
                          /\ Bronze.r_county_fips r = Bronze.v_county_fips v
                          /\ Bronze.registered_active r = n)
            /\ exists q, Bronze.turnout_rate t = Some q
                         /\ (q == inject_Z (Bronze.voters_voted v) / inject_Z n)%Q
                         /\ (0 < q)%Q
        end)
  /\ (forall v, In v voted -> exists t, In t rows /\ Bronze.t_voted t = v)
  /\ List.length rows
     = list_sum (map (fun v => Nat.max 1 (List.length
                                            (filter (Bronze.on_fips v) registered)))
                     voted).
Proof.
  intros voted registered rows.
  assert (Hvoted : forall v, In v voted ->
            1 <= Bronze.voters_voted v
            /\ In (Bronze.v_election_date v, Bronze.v_election_desc v)
                  (Bronze.target_elections date_of_string)).
  { intros v Hv. unfold voted, Bronze.voted_by_county in Hv.
    apply in_map_iff in Hv. destruct Hv as [[[[[c f] d] s] g] [<- Hg]].
    destruct (@group_by_group _ _ _ same_county_election_spec _ _ _ Hg)
      as [Hgroup [x [Hx Hkey]]].
    cbn [fst snd] in *.
    cbn [Bronze.voters_voted Bronze.v_election_date Bronze.v_election_desc].
    split.
    - apply count_distinct_pos. rewrite Hgroup. intros Hnil.
      apply map_eq_nil in Hnil.
      assert (Hxin : In x (filter (fun r => Bronze.same_county_election
                                              date_eqb (c, f, d, s) (fst r))
                                  (Bronze.voted_events date_eqb lpad3 date_of_string
                                                       bronze_voter_history))).
      { apply filter_In. split; [exact Hx|]. rewrite Hkey.
        destruct (same_county_election_spec (c, f, d, s) (c, f, d, s)); congruence. }
      rewrite Hnil in Hxin. destruct Hxin.
    - destruct x as [k n]. cbn [fst] in Hkey. subst k.
      apply In_voted_events in Hx. tauto. }
  assert (Hreg : forall r, In r registered -> 1 <= Bronze.registered_active r).
  { intros r. apply registered_active_pos. }
  split; [|split].
  - intros t Ht v. unfold rows, Bronze.turnout in Ht.
    apply in_map_iff in Ht. destruct Ht as [[v' o] [<- Hvo]].
    apply in_left_join_iff in Hvo. destruct Hvo as [Hv Ho].
    fold voted in Hv. fold registered in Ho.
    cbn [fst snd Bronze.t_voted Bronze.t_registered_active Bronze.turnout_rate] in *.
    subst v. destruct (Hvoted v' Hv) as [Hpos Htarget].
    split; [exact Hv|]. split; [exact Hpos|]. split; [exact Htarget|].
    destruct o as [r|]; cbn [option_map].
    + destruct Ho as [Hr Hon]. pose proof (Hreg r Hr) as Hn.
      unfold Bronze.on_fips in Hon. apply String.eqb_eq in Hon.
      split; [exact Hn|]. split; [exists r; auto|].
      destruct (Z.eqb_spec (Bronze.registered_active r) 0) as [H0|_]; [lia|].
      eexists. split; [reflexivity|]. split.
      * unfold Qdiv. now rewrite Qmult_1_r.
      * rewrite Qmult_1_r. apply Qlt_shift_div_l.
        -- change 0%Q with (inject_Z 0). rewrite <- Zlt_Qlt. lia.
        -- rewrite Qmult_0_l. change 0%Q with (inject_Z 0).
           rewrite <- Zlt_Qlt. lia.
    + split; [reflexivity|]. intros r Hr Hfips.
      assert (Hin : In r (filter (Bronze.on_fips v') registered)).
      { apply filter_In. split; [exact Hr|]. unfold Bronze.on_fips.
        rewrite Hfips. apply String.eqb_refl. }
      rewrite Ho in Hin. destruct Hin.
  - intros v Hv. unfold rows, Bronze.turnout. fold voted registered.
    destruct (filter (Bronze.on_fips v) registered) as [|r ms] eqn:Hf.
    + eexists. split.
      * apply in_map. apply (in_left_join_iff _ _ _ v None). split; [exact Hv|exact Hf].
      * reflexivity.
    + assert (Hr : In r (filter (Bronze.on_fips v) registered))
        by (rewrite Hf; now left).
      apply filter_In in Hr. eexists. split.
      * apply in_map. apply (in_left_join_iff _ _ _ v (Some r)). split; [exact Hv|exact Hr].
      * reflexivity.
  - unfold rows, Bronze.turnout. fold voted registered.
    now rewrite length_map, left_join_length.
Qed.
End CountyTurnoutFacts.

Lemma county_turnout_rate_witness :
  map (fun t => (Bronze.v_county_desc (Bronze.t_voted t),
                 Bronze.v_election_date (Bronze.t_voted t),
                 Bronze.voters_voted (Bronze.t_voted t),
                 Bronze.t_registered_active t))
      (Bronze.turnout String.eqb BronzeSample.lpad3 BronzeSample.date_of_string
                      BronzeSample.bronze_voter_history
                      BronzeSample.bronze_voters)
  = [ ("WAKE", "2024-11-05", 2, Some 3);
      ("WAKE", "2022-11-08", 1, Some 3);
      ("DURHAM", "2024-11-05", 1, None) ]
  /\ forall t,
       In t (Bronze.turnout String.eqb BronzeSample.lpad3
                            BronzeSample.date_of_string
                            BronzeSample.bronze_voter_history
                            BronzeSample.bronze_voters) ->
       1 <= Bronze.voters_voted (Bronze.t_voted t).
Proof.
  split; [vm_compute; reflexivity|].
  intros t Ht.
  pose proof (@county_turnout_rate string String.eqb String.eqb_spec
                BronzeSample.lpad3 BronzeSample.date_of_string
                BronzeSample.bronze_voter_history BronzeSample.bronze_voters)
    as H.
  cbv zeta in H. destruct H as [H _]. now apply H.
Defined.
